(** * generate_training_log.py: static extraction of a training configuration

    A shallow embedding of [src/generate_training_log.py] and the proofs of
    the properties its specification states about it.

    Conventions of the embedding.
    - A Python [str] is a [list ascii]; a character is a code point below 256
      (the file is read as text, and every character the patterns of the
      script name is in that range).  [str "..."] writes a literal.
    - [re.search] is embedded as a backtracking matcher for the fragment of
      the regular-expression language the script uses.
    - [ast.parse], [yaml.safe_load], [os.makedirs], the clock and the file
      system are not part of the script: the library functions and the time
      stamp are section variables, the files the script reads are an
      argument.
    - [print] is kept as a trace of console events, exceptions as a result
      type, so that "does not raise" and "the fallback ran" are statements
      about values.
    - The text of the report is not modelled; of the lines that format it
      the embedding keeps the order of the conversions and which of them
      raise.
    - The interpreter is CPython 3.11 to 3.13 with its default settings:
      [int] and [str] refuse a decimal form of more than 4300 digits. *)

From Stdlib Require Import Ascii String ZArith NArith Lia.
From stdpp Require Import base strings list.

Local Open Scope Z_scope.
Local Open Scope list_scope.

(** ** Text *)

Definition str (s : string) : list ascii := list_ascii_of_string s.
Arguments str : simpl never.

Definition newline : ascii := "010"%char.
Definition squote : ascii := "039"%char.
Definition dquote : ascii := "034"%char.

Definition code (c : ascii) : N := N_of_ascii c.

(** [str.isspace] and the class [\s] of [re] on a [str] pattern: the two use
    the same table; below 256 it holds tab..carriage return, the four
    separators 28..31, the space, NEL and the no-break space. *)
Definition is_space (c : ascii) : bool :=
  let n := code c in
  (((9 <=? n) && (n <=? 13)) || ((28 <=? n) && (n <=? 32)) || (n =? 133) || (n =? 160))%N.

(** The class [\d]: below 256 the only decimal digits are 0..9. *)
Definition is_digit (c : ascii) : bool :=
  let n := code c in ((48 <=? n) && (n <=? 57))%N.

Definition is_char (a c : ascii) : bool := Ascii.eqb a c.

(** The class ['"] written [[\'"]] in the script. *)
Definition is_quote (c : ascii) : bool := is_char squote c || is_char dquote c.

(** [.] under [re.DOTALL] and without it. *)
Definition any_char (c : ascii) : bool := true.
Definition not_newline (c : ascii) : bool := negb (is_char newline c).

Arguments is_space : simpl never.
Arguments is_digit : simpl never.
Arguments is_char : simpl never.
Arguments is_quote : simpl never.

(** The value of a string of decimal digits, an integer of any size: what
    [int(s)] returns when it returns ([py_int] below has the limit). *)
Definition digit_value (c : ascii) : Z := Z.of_N (code c) - 48.

Definition int_of_digits (ds : list ascii) : Z :=
  fold_left (fun acc c => 10 * acc + digit_value c) ds 0.

(** [sys.get_int_max_str_digits()]: the most digits a decimal string may
    have for [int] to read it or [str] to write it. *)
Definition INT_MAX_STR_DIGITS : nat := 4300.
#[global] Opaque INT_MAX_STR_DIGITS.

(** An integer that [str], [repr] and [format] can write: its decimal form
    has at most [INT_MAX_STR_DIGITS] digits. *)
Definition int_printable (n : Z) : bool :=
  (Z.abs n <? 10 ^ Z.of_nat INT_MAX_STR_DIGITS)%Z.
Arguments int_printable : simpl never.

(** [str(n)] on an integer that can be written: its decimal digits, most
    significant first.  Every step divides by ten, so one step per binary
    digit of [n] is enough. *)
Definition digit_char (d : Z) : ascii := ascii_of_N (Z.to_N (48 + d)).

Fixpoint decimal_digits (fuel : nat) (n : Z) (acc : list ascii) : list ascii :=
  match fuel with
  | O => acc
  | S fuel' =>
      let acc' := digit_char (n mod 10) :: acc in
      if (n <? 10)%Z then acc' else decimal_digits fuel' (n / 10) acc'
  end.

Definition py_str_int (n : Z) : list ascii :=
  if (n <? 0)%Z then
    "-"%char :: decimal_digits (S (Z.to_nat (Z.log2 (- n)))) (- n) []
  else decimal_digits (S (Z.to_nat (Z.log2 n))) n [].

(** ** The regular expressions of the script

    Every pattern of the script is a sequence of: one character out of a
    class, a greedy or a lazy star over a class, the two ends of capture
    group 1, and possibly a leading [^] (compiled with [re.MULTILINE]). *)

Module Re.

Inductive item :=
| One (p : ascii -> bool)         (* a literal, a class, [.] *)
| Star (p : ascii -> bool)        (* greedy [x*] *)
| LazyStar (p : ascii -> bool)    (* lazy [x*?] *)
| GroupOpen
| GroupClose.

Record regex := Regex {
  line_anchor : bool;             (* the pattern starts with [^], re.MULTILINE *)
  items : list item
}.

(** The match under construction: where group 1 was opened (the text still
    to read at that point) and, once closed, what it holds. *)
Record mstate := MState {
  g_open : option (list ascii);
  g_text : option (list ascii)
}.

Definition no_group : mstate := MState None None.

Definition open_group (st : mstate) (s : list ascii) : mstate :=
  MState (Some s) (g_text st).

Definition close_group (st : mstate) (s : list ascii) : mstate :=
  match g_open st with
  | Some s0 => MState (g_open st) (Some (take (length s0 - length s) s0))
  | None => st
  end.

(** [exec pat st s] matches [pat] at the head of [s], trying the
    alternatives in the order of a backtracking matcher: a greedy star takes
    the longest run first and gives characters back one by one, a lazy star
    tries the rest of the pattern first and takes one more character on
    failure. *)
Fixpoint exec (pat : list item) (st : mstate) (s : list ascii) {struct pat}
  : option mstate :=
  match pat with
  | [] => Some st
  | One p :: rest =>
      match s with
      | c :: s' => if p c then exec rest st s' else None
      | [] => None
      end
  | Star p :: rest =>
      (fix loop (s : list ascii) : option mstate :=
         match s with
         | c :: s' =>
             if p c then
               match loop s' with
               | Some m => Some m
               | None => exec rest st s
               end
             else exec rest st s
         | [] => exec rest st s
         end) s
  | LazyStar p :: rest =>
      (fix loop (s : list ascii) : option mstate :=
         match exec rest st s with
         | Some m => Some m
         | None =>
             match s with
             | c :: s' => if p c then loop s' else None
             | [] => None
             end
         end) s
  | GroupOpen :: rest => exec rest (open_group st s) s
  | GroupClose :: rest => exec rest (close_group st s) s
  end.

(** [re.search]: the first position, from the left, at which the pattern
    matches; [bol] tells whether the position is the start of the text or
    follows a newline. *)
Fixpoint search_from (re : regex) (bol : bool) (s : list ascii) : option mstate :=
  match (if line_anchor re && negb bol then None else exec (items re) no_group s) with
  | Some m => Some m
  | None =>
      match s with
      | c :: s' => search_from re (is_char newline c) s'
      | [] => None
      end
  end.

Definition search (re : regex) (s : list ascii) : option mstate :=
  search_from re true s.

(** [m.group(1)]; every pattern of the script has group 1 on its only path,
    so a match always holds it. *)
Definition group1 (m : mstate) : list ascii := default [] (g_text m).

(** A literal word, and [x+] as [xx*]. *)
Definition lit (w : list ascii) : list item := map (fun a => One (is_char a)) w.
Definition plus (p : ascii -> bool) : list item := [One p; Star p].

End Re.

(** ** The syntax tree of [ast]

    The nodes of Python's [ast] module as far as the script looks at them.
    [ast] is dynamically typed, so one type holds statements and
    expressions, and [isinstance] is a match on the constructor.  A node of
    any other class is [Other], with its child nodes in field order.  The
    context and operator markers ([Load], [Store], [Add], ...) are leaves of
    classes the script never tests for; they are left out. *)

Module Ast.

(** The value of an [ast.Constant]; [CFloat] is a float or a complex
    literal, kept as it is written. *)
Inductive constant :=
| CStr (s : list ascii)
| CBytes (b : list ascii)
| CInt (n : Z)
| CBool (b : bool)
| CNone
| CEllipsis
| CFloat (literal : list ascii).

#[warnings="-register-all"]
Inductive node :=
| Module (body : list node)
| Assign (targets : list node) (value : node)
| Name (id : list ascii)
| Constant (value : constant)
| List (elts : list node)
| Call (func : node) (args : list node) (keywords : list node)
| Other (cls : string) (children : list node).

(** [ast.iter_child_nodes]: the child nodes, field by field. *)
Definition iter_child_nodes (n : node) : list node :=
  match n with
  | Module body => body
  | Assign targets value => targets ++ [value]
  | Name _ => []
  | Constant _ => []
  | List elts => elts
  | Call func args keywords => func :: args ++ keywords
  | Other _ children => children
  end.

Fixpoint size (n : node) : nat :=
  match n with
  | Module body => S (list_sum (List.map size body))
  | Assign targets value => S (list_sum (List.map size targets) + size value)
  | Name _ => 1
  | Constant _ => 1
  | List elts => S (list_sum (List.map size elts))
  | Call func args keywords =>
      S (size func + list_sum (List.map size args) + list_sum (List.map size keywords))
  | Other _ children => S (list_sum (List.map size children))
  end.

(** [ast.walk]: [todo = deque([node])], then pop from the left, push the
    children on the right, yield.  Every step takes one node off the trees
    still to visit, so [size] many steps visit them all. *)
Fixpoint walk_todo (fuel : nat) (todo : list node) : list node :=
  match fuel with
  | O => []
  | S fuel' =>
      match todo with
      | [] => []
      | n :: todo' => n :: walk_todo fuel' (todo' ++ iter_child_nodes n)
      end
  end.

Definition walk (n : node) : list node := walk_todo (size n) [n].

End Ast.

(** ** Values of a loaded YAML document

    What [yaml.safe_load] returns: [None], scalars, lists and dicts.  A dict
    is the list of its items in insertion order, the order in which line 161
    goes through them; a key is any scalar.  (A dict holds a key once; a list
    of items that repeats a key stands for no dict, and [dict_lookup] reads
    the first.)  [VList] is a list, and also the tuples and the set that the
    tags [!!pairs], [!!omap] and [!!set] give: [str] shows the elements of
    all of them.  [VOther] is a float, a date or a date with a time.  The
    values are finite trees: a document in which an alias names a node
    that holds it has no value here. *)

#[warnings="-register-all"]
Inductive pyval :=
| VNone
| VBool (b : bool)
| VInt (n : Z)
| VStr (s : list ascii)
| VList (l : list pyval)
| VDict (items : list (pyval * pyval))
| VOther (repr : list ascii)
| VBytes (b : list ascii).

(** [d[key]] for a string [key]: a key of another type is never equal to a
    string. *)
Fixpoint dict_lookup (key : list ascii) (items : list (pyval * pyval)) : option pyval :=
  match items with
  | [] => None
  | (VStr k, v) :: items' => if decide (k = key) then Some v else dict_lookup key items'
  | _ :: items' => dict_lookup key items'
  end.

#[global] Instance dict_lookup_instance :
  Lookup (list ascii) pyval (list (pyval * pyval)) := dict_lookup.

(** Whether [str(v)] raises: the decimal form of an integer is limited, and
    a list or a dict shows its elements with [repr], which has the same
    limit.  Nothing else raises on a value of the loader. *)
Fixpoint unprintable (v : pyval) : bool :=
  match v with
  | VInt n => negb (int_printable n)
  | VList l => existsb unprintable l
  | VDict items =>
      existsb (fun item => let '(k, x) := item in unprintable k || unprintable x) items
  | _ => false
  end.

(** ** Exceptions, console output, and the monad of the script *)

Inductive exn :=
| SyntaxError
| ValueError
| RecursionError
| OSError
| UnicodeDecodeError
| AttributeError
| YAMLError
| TypeError.

Inductive result (A : Type) :=
| Ok (a : A)
| Raise (e : exn).
Arguments Ok {A} a.
Arguments Raise {A} e.

(** What the script prints, one constructor per [print]. *)
Inductive event :=
| ScriptNotFound (path : list ascii)     (* line 19 *)
| AstFallback (e : exn)                  (* line 84 *)
| YamlNotFound (path : list ascii)       (* line 108 *)
| YamlFailed (e : exn)                   (* line 125 *)
| Reading                                (* line 130 *)
| ReportShown                            (* line 188 *)
| ReportSaved (path : list ascii).       (* line 189 *)

(** A computation of the script: it reads and updates a local object (the
    [info] dict), prints, and returns or raises.  What was printed and
    stored before an exception stays. *)
Definition M (S A : Type) : Type := S -> list event * S * result A.

Definition ret {S A} (a : A) : M S A := fun s => ([], s, Ok a).
Definition raise {S A} (e : exn) : M S A := fun s => ([], s, Raise e).
Definition print {S} (ev : event) : M S unit := fun s => ([ev], s, Ok tt).
Definition get {S} : M S S := fun s => ([], s, Ok s).
Definition modify {S} (f : S -> S) : M S unit := fun s => ([], f s, Ok tt).
Definition lift {S A} (r : result A) : M S A := fun s => ([], s, r).

Definition bind {S A B} (m : M S A) (k : A -> M S B) : M S B :=
  fun s =>
    match m s with
    | (out, s', Ok a) => let '(out', s'', r) := k a s' in (out ++ out', s'', r)
    | (out, s', Raise e) => (out, s', Raise e)
    end.

(** [try: m except Exception as e: h e] *)
Definition try_except {S A} (m : M S A) (h : exn -> M S A) : M S A :=
  fun s =>
    match m s with
    | (out, s', Ok a) => (out, s', Ok a)
    | (out, s', Raise e) => let '(out', s'', r) := h e s' in (out ++ out', s'', r)
    end.

Notation "'do' x <- m ; k" := (bind m (fun x => k))
  (at level 10, x name, m at level 100, k at level 200).
Notation "m ;; k" := (bind m (fun _ => k))
  (at level 100, k at level 200, right associativity).

(** A call of a function of the script: what it printed and how it ended. *)
Definition call_result (A : Type) : Type := (list event * result A)%type.

Definition run {S A} (m : M S A) (s : S) : call_result A :=
  let '(out, _, r) := m s in (out, r).

Definition call {S A} (c : call_result A) : M S A :=
  fun s => (fst c, s, snd c).

Definition output {A} (c : call_result A) : list event := fst c.
Definition outcome {A} (c : call_result A) : result A := snd c.

(** ** The file system, as far as the script reads it *)

Inductive fs_entry :=
| Missing
| Unreadable (e : exn)           (* exists, but [open] or [read] raises *)
| File (content : list ascii).   (* what [f.read()] returns *)

Definition filesystem := list ascii -> fs_entry.

(** [os.path.exists] *)
Definition path_exists (fs : filesystem) (path : list ascii) : bool :=
  match fs path with Missing => false | _ => true end.

(** [with open(path, 'r', encoding='utf-8') as f: f.read()] *)
Definition read_file {S} (fs : filesystem) (path : list ascii) : M S (list ascii) :=
  match fs path with
  | File content => ret content
  | Unreadable e => raise e
  | Missing => raise OSError
  end.

(** ** The script *)

(** Lines 10-11. *)
Definition TRAIN_SCRIPT_PATH : list ascii := str "train.py".
Definition DEFAULT_YAML_PATH : list ascii := str "./models_yaml/anytext2_sd15.yaml".

(** The [info] dict of [parse_train_py], one field per key. *)
Record train_info := TrainInfo {
  training_stage : option Z;
  resume_path : list ascii;
  config_path : option (list ascii);
  root_dir : list ascii;
  json_paths : list Ast.constant;
  base_ckpt_source : list ascii
}.

(** Lines 25-32. *)
Definition initial_info : train_info := {|
  training_stage := None;
  resume_path := str "Unknown";
  config_path := None;
  root_dir := str "./checkpoints";
  json_paths := [];
  base_ckpt_source := str "Unknown"
|}.

Definition set_training_stage (v : option Z) (i : train_info) : train_info :=
  TrainInfo v (resume_path i) (config_path i) (root_dir i) (json_paths i) (base_ckpt_source i).
Definition set_resume_path (v : list ascii) (i : train_info) : train_info :=
  TrainInfo (training_stage i) v (config_path i) (root_dir i) (json_paths i) (base_ckpt_source i).
Definition set_config_path (v : option (list ascii)) (i : train_info) : train_info :=
  TrainInfo (training_stage i) (resume_path i) v (root_dir i) (json_paths i) (base_ckpt_source i).
Definition set_root_dir (v : list ascii) (i : train_info) : train_info :=
  TrainInfo (training_stage i) (resume_path i) (config_path i) v (json_paths i) (base_ckpt_source i).
Definition set_json_paths (v : list Ast.constant) (i : train_info) : train_info :=
  TrainInfo (training_stage i) (resume_path i) (config_path i) (root_dir i) v (base_ckpt_source i).
Definition set_base_ckpt_source (v : list ascii) (i : train_info) : train_info :=
  TrainInfo (training_stage i) (resume_path i) (config_path i) (root_dir i) (json_paths i) v.

(** *** The patterns *)

(** [\s*=\s*] *)
Definition equals_sign : list Re.item :=
  [Re.Star is_space; Re.One (is_char "="); Re.Star is_space].

(** [name\s*=\s*[\'"](.*?)[\'"]], with [.] as given by the flags. *)
Definition quoted_assignment (name : list ascii) (dot : ascii -> bool) : list Re.item :=
  Re.lit name ++ equals_sign ++
  [Re.One is_quote; Re.GroupOpen; Re.LazyStar dot; Re.GroupClose; Re.One is_quote].

(** Line 35: [^TRAINING_STAGE\s*=\s*(\d+)], re.MULTILINE. *)
Definition stage_re : Re.regex :=
  Re.Regex true
    (Re.lit (str "TRAINING_STAGE") ++ equals_sign ++
     [Re.GroupOpen] ++ Re.plus is_digit ++ [Re.GroupClose]).

(** Line 40: [config_path\s*=\s*[\'"](.*?)[\'"]]. *)
Definition config_re : Re.regex :=
  Re.Regex false (quoted_assignment (str "config_path") not_newline).

(** Line 45: [root_dir\s*=\s*[\'"](.*?)[\'"]]. *)
Definition root_re : Re.regex :=
  Re.Regex false (quoted_assignment (str "root_dir") not_newline).

(** Line 53: [if TRAINING_STAGE == 1:.*?resume_path\s*=\s*[\'"](.*?)[\'"]],
    re.DOTALL. *)
Definition stage1_re : Re.regex :=
  Re.Regex false
    (Re.lit (str "if TRAINING_STAGE == 1:") ++ [Re.LazyStar any_char] ++
     quoted_assignment (str "resume_path") any_char).

(** Line 60: [else:\s*.*?resume_path\s*=\s*[\'"](.*?)[\'"]], re.DOTALL. *)
Definition else_re : Re.regex :=
  Re.Regex false
    (Re.lit (str "else:") ++ [Re.Star is_space; Re.LazyStar any_char] ++
     quoted_assignment (str "resume_path") any_char).

(** Line 86: [json_paths\s*=\s*\[(.*?)\]], re.DOTALL. *)
Definition json_block_re : Re.regex :=
  Re.Regex false
    (Re.lit (str "json_paths") ++ equals_sign ++
     [Re.One (is_char "["); Re.GroupOpen; Re.LazyStar any_char; Re.GroupClose;
      Re.One (is_char "]")]).

(** *** Steps 1 to 4 of [parse_train_py]: the scalar fields *)

(** [int(s)] on a run of decimal digits, as line 37 calls it: [ValueError]
    when the run is longer than the limit (leading zeros count). *)
Definition py_int (digits : list ascii) : result Z :=
  if (INT_MAX_STR_DIGITS <? length digits)%nat then Raise ValueError
  else Ok (int_of_digits digits).

(** Lines 35-37. *)
Definition extract_training_stage (content : list ascii) : M train_info unit :=
  match Re.search stage_re content with
  | Some m =>
      do n <- lift (py_int (Re.group1 m));
      modify (set_training_stage (Some n))
  | None => ret tt
  end.

(** Lines 40-42. *)
Definition extract_config_path (content : list ascii) (info : train_info) : train_info :=
  match Re.search config_re content with
  | Some m => set_config_path (Some (Re.group1 m)) info
  | None => info
  end.

(** Lines 45-47. *)
Definition extract_root_dir (content : list ascii) (info : train_info) : train_info :=
  match Re.search root_re content with
  | Some m => set_root_dir (Re.group1 m) info
  | None => info
  end.

Definition STAGE1_LABEL : list ascii := str "Stage 1 Logic (Image Gen)".
Definition STAGE2_LABEL : list ascii := str "Stage 2 Logic (Text-in-Image)".

(** Lines 51-63: [info['training_stage'] == 1] is false on [None]. *)
Definition extract_resume_path (content : list ascii) (info : train_info) : train_info :=
  if decide (training_stage info = Some 1) then
    match Re.search stage1_re content with
    | Some m => set_base_ckpt_source STAGE1_LABEL (set_resume_path (Re.group1 m) info)
    | None => info
    end
  else
    match Re.search else_re content with
    | Some m => set_base_ckpt_source STAGE2_LABEL (set_resume_path (Re.group1 m) info)
    | None => info
    end.

(** *** Step 5, first tier: the walk over the syntax tree *)

Definition DYNAMIC_PATH : list ascii := str "Dynamic Path (calculated in code)".

(** [isinstance(elt, ast.Str)]: in the versions of Python the script
    addresses that have [ast.Constant] (3.8 to 3.13), [ast.Str] is an alias
    that answers true on a [Constant] holding a [str]; [elt.s] is its value. *)
Definition as_Str (elt : Ast.node) : option (list ascii) :=
  match elt with
  | Ast.Constant (Ast.CStr s) => Some s
  | _ => None
  end.

(** Lines 77-82: what one element of the list appends.  There is no [else]:
    an element that is neither a constant nor a call appends nothing. *)
Definition element_entries (elt : Ast.node) : list Ast.constant :=
  match elt with
  | Ast.Constant value => [value]
  | _ =>
      match as_Str elt with
      | Some s => [Ast.CStr s]
      | None =>
          match elt with
          | Ast.Call _ _ _ => [Ast.CStr DYNAMIC_PATH]
          | _ => []
          end
      end
  end.

(** Lines 73-82: one target of an assignment. *)
Definition target_entries (value target : Ast.node) : list Ast.constant :=
  match target with
  | Ast.Name id =>
      if decide (id = str "json_paths") then
        match value with
        | Ast.List elts => flat_map element_entries elts
        | _ => []
        end
      else []
  | _ => []
  end.

(** Lines 71-82: one node of the walk. *)
Definition node_entries (n : Ast.node) : list Ast.constant :=
  match n with
  | Ast.Assign targets value => flat_map (target_entries value) targets
  | _ => []
  end.

(** Lines 69-82: the appends of the whole walk, in order. *)
Definition structural_paths (tree : Ast.node) : list Ast.constant :=
  flat_map node_entries (Ast.walk tree).

(** *** Step 5, second tier: the textual fallback *)

(** [s.split('\n')] *)
Fixpoint split_lines (s : list ascii) : list (list ascii) :=
  match s with
  | [] => [[]]
  | c :: s' =>
      if is_char newline c then [] :: split_lines s'
      else
        match split_lines s' with
        | l :: ls => (c :: l) :: ls
        | [] => [[c]]
        end
  end.

Fixpoint lstrip (p : ascii -> bool) (s : list ascii) : list ascii :=
  match s with
  | c :: s' => if p c then lstrip p s' else s
  | [] => []
  end.

Definition rstrip (p : ascii -> bool) (s : list ascii) : list ascii :=
  rev (lstrip p (rev s)).

(** [s.strip()] is [strip is_space s]; [s.strip(chars)] is
    [strip (one_of chars) s]. *)
Definition strip (p : ascii -> bool) (s : list ascii) : list ascii :=
  rstrip p (lstrip p s).

Definition one_of (chars : list ascii) (c : ascii) : bool :=
  existsb (fun a => is_char a c) chars.

(** [s.startswith(prefix)] *)
Fixpoint startswith (s prefix : list ascii) {struct prefix} : bool :=
  match prefix with
  | [] => true
  | a :: prefix' =>
      match s with
      | c :: s' => is_char a c && startswith s' prefix'
      | [] => false
      end
  end.

Definition nonempty (s : list ascii) : bool :=
  match s with [] => false | _ => true end.

(** Lines 89-94: what one line of the block appends. *)
Definition line_entries (line : list ascii) : list Ast.constant :=
  let line := strip is_space line in
  if nonempty line && negb (startswith line (str "#")) then
    let clean_path := strip (one_of (str "', ")) line in
    if nonempty clean_path then [Ast.CStr clean_path] else []
  else [].

(** Lines 86-94. *)
Definition textual_paths (content : list ascii) : list Ast.constant :=
  match Re.search json_block_re content with
  | Some json_block => flat_map line_entries (split_lines (Re.group1 json_block))
  | None => []
  end.

(** *** The structured configuration document *)

(** The [info] dict of [parse_yaml_config]. *)
Record yaml_info := YamlInfo {
  injection : pyval;
  use_calligraphy : pyval
}.

(** Lines 102-105. *)
Definition initial_yaml_info : yaml_info := {|
  injection := VStr (str "Unknown");
  use_calligraphy := VStr (str "Unknown")
|}.

Definition set_injection (v : pyval) (i : yaml_info) : yaml_info :=
  YamlInfo v (use_calligraphy i).
Definition set_use_calligraphy (v : pyval) (i : yaml_info) : yaml_info :=
  YamlInfo (injection i) v.

(** [v.get(key, dflt)]: only a dict has the method. *)
Definition py_get {S} (v : pyval) (key : list ascii) (dflt : pyval) : M S pyval :=
  match v with
  | VDict d => ret (default dflt (d !! key))
  | _ => raise AttributeError
  end.

(** [os.path.join(a, b)] on POSIX. *)
Definition path_join (a b : list ascii) : list ascii :=
  if startswith b (str "/") then b
  else if nonempty a && negb (startswith (rev a) (str "/")) then a ++ str "/" ++ b
  else a ++ b.

(** *** The report (lines 141-189)

    The text of the report is built from f-strings.  A field [{v}] is
    [format(v, '')], which is [str(v)] for every value here; a field
    [{k:<10}] is [format(k, '<10')].  The fields that hold a [str] of the
    script never raise and are left out. *)

(** [{n}] for an integer. *)
Definition format_int {S} (n : Z) : M S unit :=
  if int_printable n then ret tt else raise ValueError.

(** [{v}] for a value of the document. *)
Definition format_value {S} (v : pyval) : M S unit :=
  if unprintable v then raise ValueError else ret tt.

(** [{k:<10}] for a key of the document: strings, numbers and dates take
    the format; [None], bytes and containers have no format of their own
    and refuse one that is not empty. *)
Definition format_padded {S} (k : pyval) : M S unit :=
  match k with
  | VStr _ | VBool _ | VOther _ => ret tt
  | VInt n => format_int n
  | VNone | VBytes _ | VList _ | VDict _ => raise TypeError
  end.

(** Line 152: [{train_info['training_stage']}]. *)
Definition format_stage {S} (stage : option Z) : M S unit :=
  match stage with
  | Some n => format_int n
  | None => ret tt
  end.

(** Lines 161-162: [for k, v in inj.items(): ... f"{k:<10}: {v}"]. *)
Fixpoint format_items {S} (items : list (pyval * pyval)) : M S unit :=
  match items with
  | [] => ret tt
  | (k, v) :: items' => format_padded k ;; format_value v ;; format_items items'
  end.

(** Lines 159-164. *)
Definition format_injection {S} (inj : pyval) : M S unit :=
  match inj with
  | VDict items => format_items items
  | _ => format_value inj
  end.

(** Line 171: [{p}] for an entry of [json_paths]. *)
Definition format_constant {S} (p : Ast.constant) : M S unit :=
  match p with
  | Ast.CInt n => format_int n
  | _ => ret tt
  end.

(** Lines 170-171. *)
Fixpoint format_paths {S} (paths : list Ast.constant) : M S unit :=
  match paths with
  | [] => ret tt
  | p :: paths' => format_constant p ;; format_paths paths'
  end.

(** Lines 143-175, in the order of the lines. *)
Definition format_report {S} (train_info : train_info) (yaml_info : yaml_info)
  : M S unit :=
  format_stage (training_stage train_info) ;;
  format_value (use_calligraphy yaml_info) ;;
  format_injection (injection yaml_info) ;;
  format_paths (json_paths train_info).

(** [str(info['training_stage'])], the way the f-string of line 181 writes
    it (line 152 has written it before). *)
Definition stage_str (stage : option Z) : list ascii :=
  match stage with
  | Some n => py_str_int n
  | None => str "None"
  end.

(** Line 181; [timestamp] is what [time.strftime] returned at line 142. *)
Definition log_filename (timestamp : list ascii) (info : train_info) : list ascii :=
  str "config_check_" ++ timestamp ++ str "_Stage" ++
  stage_str (training_stage info) ++ str ".txt".

(** Lines 178 and 182. *)
Definition save_path (timestamp : list ascii) (info : train_info) : list ascii :=
  path_join (path_join (root_dir info) (str "manual_logs")) (log_filename timestamp info).

(** What [main] has computed when it returns: the two structures, the
    document it read, and where it wrote the report. *)
Record report := Report {
  r_train : train_info;
  r_yaml : yaml_info;
  r_yaml_file : list ascii;
  r_save_dir : list ascii;
  r_save_path : list ascii
}.

Section Script.

(** [ast.parse] and [yaml.safe_load], which return a value or raise. *)
Variable ast_parse : list ascii -> result Ast.node.
Variable yaml_safe_load : list ascii -> result pyval.

(** [os.makedirs(path, exist_ok=True)], and writing the report to a path
    ([with open(path, 'w', encoding='utf-8') as f: f.write(...)]), which
    succeed or raise; the time stamp that [time.strftime] returns at
    line 142. *)
Variable os_makedirs : list ascii -> result unit.
Variable write_report : list ascii -> result unit.
Variable timestamp : list ascii.

(** Lines 67-94: the two tiers. *)
Definition extract_json_paths (content : list ascii) : M train_info unit :=
  try_except
    (do tree <- lift (ast_parse content);
     modify (fun info => set_json_paths (json_paths info ++ structural_paths tree) info))
    (fun e =>
       print (AstFallback e) ;;
       modify (fun info => set_json_paths (json_paths info ++ textual_paths content) info)).

(** Lines 14-96.  [None] is [Ok None]; the dict of lines 25-32 is the
    initial state (nothing reads it before line 35). *)
Definition parse_train_py (fs : filesystem) (file_path : list ascii)
  : call_result (option train_info) :=
  run
    (if negb (path_exists fs file_path) then
       print (ScriptNotFound file_path) ;;
       ret None
     else
       do content <- read_file fs file_path;
       extract_training_stage content ;;
       modify (extract_config_path content) ;;
       modify (extract_root_dir content) ;;
       modify (extract_resume_path content) ;;
       extract_json_paths content ;;
       do info <- get;
       ret (Some info))
    initial_info.

(** Lines 98-127. *)
Definition parse_yaml_config (fs : filesystem) (yaml_path : list ascii)
  : call_result yaml_info :=
  run
    (if negb (path_exists fs yaml_path) then
       print (YamlNotFound yaml_path) ;;
       do info <- get;
       ret info
     else
       try_except
         (do f <- read_file fs yaml_path;
          do config <- lift (yaml_safe_load f);
          do model <- py_get config (str "model") (VDict []);
          do params <- py_get model (str "params") (VDict []);
          do inj <- py_get params (str "context_injection_config") (VStr (str "Not Set"));
          modify (set_injection inj) ;;
          do emb <- py_get params (str "embedding_manager_config") (VDict []);
          do emb_conf <- py_get emb (str "params") (VDict []);
          do cal <- py_get emb_conf (str "use_calligraphy_style") (VBool false);
          modify (set_use_calligraphy cal))
         (fun e => print (YamlFailed e)) ;;
       do info <- get;
       ret info)
    initial_yaml_info.

(** [x or y] on an optional string: [None] and the empty string are falsy. *)
Definition or_default (x : option (list ascii)) (y : list ascii) : list ascii :=
  match x with
  | Some (c :: s) => c :: s
  | Some [] => y
  | None => y
  end.

(** Lines 129-189.  [main] returns nothing in the script; here it returns
    what it has computed ([None] when it gives up at line 135). *)
Definition main (fs : filesystem) : call_result (option report) :=
  run
    (print Reading ;;
     do train_info <- call (parse_train_py fs TRAIN_SCRIPT_PATH);
     match train_info with
     | None => ret None
     | Some train_info =>
         let yaml_file := or_default (config_path train_info) DEFAULT_YAML_PATH in
         do yaml_info <- call (parse_yaml_config fs yaml_file);
         format_report train_info yaml_info ;;
         let save_dir := path_join (root_dir train_info) (str "manual_logs") in
         lift (os_makedirs save_dir) ;;
         lift (write_report (save_path timestamp train_info)) ;;
         print ReportShown ;;
         print (ReportSaved (save_path timestamp train_info)) ;;
         ret (Some (Report train_info yaml_info yaml_file save_dir
                      (save_path timestamp train_info)))
     end)
    tt.

End Script.

(** ** Vocabulary of the statements *)

(** [s.find(w)]: where the first occurrence of [w] in [s] starts. *)
Fixpoint find (s w : list ascii) : option nat :=
  if startswith s w then Some O
  else
    match s with
    | [] => None
    | _ :: s' => S <$> find s' w
    end.

(** The word [w] written right after [pre] is the first [w] of the text:
    none starts inside [pre]. *)
Definition first_at (w pre : list ascii) : Prop :=
  find (pre ++ w) w = Some (length pre).

(** The head of [t], if any, is outside the class [p]. *)
Definition stops (p : ascii -> bool) (t : list ascii) : Prop :=
  match t with
  | c :: _ => p c = false
  | [] => True
  end.

(** The pattern closes group 1 on its way: it holds the closing end after
    the opening one ([opened] tells whether the group is open already). *)
Fixpoint closes_group (pat : list Re.item) (opened : bool) : bool :=
  match pat with
  | [] => false
  | Re.GroupOpen :: rest => closes_group rest true
  | Re.GroupClose :: rest => opened || closes_group rest opened
  | _ :: rest => closes_group rest opened
  end.

(** The text of an assignment [name = 'value'], with any blanks around the
    sign and either quote on either side. *)
Definition assignment_text (name ws1 ws2 : list ascii) (q1 : ascii)
    (value : list ascii) (q2 : ascii) : list ascii :=
  name ++ ws1 ++ str "=" ++ ws2 ++ q1 :: value ++ [q2].

(** The digits of the stage line that the script reads, none when it finds
    no stage line; and the stage they stand for. *)
Definition stage_digits (content : list ascii) : list ascii :=
  match Re.search stage_re content with
  | Some m => Re.group1 m
  | None => []
  end.

Definition stage_value (content : list ascii) : option Z :=
  match Re.search stage_re content with
  | Some m => Some (int_of_digits (Re.group1 m))
  | None => None
  end.

(** The scalar fields after steps 1 to 4 of [parse_train_py], when [int]
    has accepted the digits of the stage. *)
Definition scalar_fields (content : list ascii) : train_info :=
  extract_resume_path content
    (extract_root_dir content
       (extract_config_path content
          (set_training_stage (stage_value content) initial_info))).

(** The lists assigned to [json_paths], one per assignment and target, in
    the order of the walk. *)
Definition target_lists (value target : Ast.node) : list (list Ast.node) :=
  match target with
  | Ast.Name id =>
      if decide (id = str "json_paths") then
        match value with
        | Ast.List elts => [elts]
        | _ => []
        end
      else []
  | _ => []
  end.

Definition node_lists (n : Ast.node) : list (list Ast.node) :=
  match n with
  | Ast.Assign targets value => flat_map (target_lists value) targets
  | _ => []
  end.

Definition json_lists (tree : Ast.node) : list (list Ast.node) :=
  flat_map node_lists (Ast.walk tree).

(** The lines between the brackets of a list written one item per line: an
    item ['path',] with blanks around it, a comment, or a blank line. *)
Inductive block_line :=
| Item (indent path trail : list ascii)
| Comment (indent note : list ascii)
| Blank (ws : list ascii).

Definition render (l : block_line) : list ascii :=
  match l with
  | Item indent path trail => indent ++ squote :: path ++ squote :: str "," ++ trail
  | Comment indent note => indent ++ str "#" ++ note
  | Blank ws => ws
  end.

(** [newline.join(lines)] *)
Fixpoint join_lines (lines : list (list ascii)) : list ascii :=
  match lines with
  | [] => []
  | [l] => l
  | l :: lines' => l ++ newline :: join_lines lines'
  end.



(** The characters the fallback strips from both ends of a line. *)
Definition padding : ascii -> bool := one_of (str "', ").

(** A character that ends neither the line nor the block. *)
Definition inside (c : ascii) : Prop := c <> newline /\ c <> "]"%char.


(** The text of a block: [json_paths = [ ... ]]. *)
Definition block_text (ws1 ws2 : list ascii) (ls : list block_line) : list ascii :=
  str "json_paths" ++ ws1 ++ str "=" ++ ws2 ++
  str "[" ++ join_lines (List.map render ls) ++ str "]".

(** The mapping under [key] in a mapping of the document: the empty one
    when the key is absent, none when the key holds something else. *)
Definition sub_mapping (d : list (pyval * pyval)) (key : list ascii)
  : option (list (pyval * pyval)) :=
  match d !! key with
  | None => Some []
  | Some (VDict m) => Some m
  | Some _ => None
  end.

Definition is_mapping (v : pyval) : bool :=
  match v with
  | VDict _ => true
  | _ => false
  end.

(** The text [pre] ends a line: what follows it starts a line. *)
Definition line_start (pre : list ascii) : Prop :=
  match last pre with
  | None => True
  | Some c => c = newline
  end.

(** The number of nodes in a list of trees. *)
Definition total_size (l : list Ast.node) : nat := list_sum (List.map Ast.size l).

(** What the walk keeps of a list element, and what it stores for it. *)
Definition kept (elt : Ast.node) : bool :=
  match elt with
  | Ast.Constant _ => true
  | Ast.Call _ _ _ => true
  | _ => false
  end.

Definition entry_of (elt : Ast.node) : Ast.constant :=
  match elt with
  | Ast.Constant value => value
  | _ => Ast.CStr DYNAMIC_PATH
  end.

(** The reading of the specification, to compare with: a literal string
    verbatim, any other expression the sentinel. *)
Definition spec_entry (elt : Ast.node) : Ast.constant :=
  match elt with
  | Ast.Constant (Ast.CStr s) => Ast.CStr s
  | _ => Ast.CStr DYNAMIC_PATH
  end.

Definition spec_paths (elts : list Ast.node) : list Ast.constant :=
  List.map spec_entry elts.

(** The report can be formatted: no conversion of lines 141-175 raises. *)
Definition formats (train : train_info) (yaml : yaml_info) : Prop :=
  outcome (run (format_report train yaml) tt) = Ok tt.

(** How [main] ends once it has the two structures (lines 141-189): with
    the first conversion, directory or write that raises, or with the
    report. *)
Definition finish (os_makedirs write_report : list ascii -> result unit)
    (timestamp : list ascii) (train : train_info) (yaml : yaml_info)
  : result (option report) :=
  match outcome (run (format_report train yaml) tt) with
  | Raise e => Raise e
  | Ok _ =>
      match os_makedirs (path_join (root_dir train) (str "manual_logs")) with
      | Raise e => Raise e
      | Ok _ =>
          match write_report (save_path timestamp train) with
          | Raise e => Raise e
          | Ok _ =>
              Ok (Some (Report train yaml
                          (or_default (config_path train) DEFAULT_YAML_PATH)
                          (path_join (root_dir train) (str "manual_logs"))
                          (save_path timestamp train)))
          end
      end
  end.

(** What a call returned, if it returned a structure. *)
Definition returned {A} (c : call_result (option A)) : option A :=
  match outcome c with
  | Ok (Some a) => Some a
  | _ => None
  end.

(** ** Sample inputs

    Scripts and documents for the examples, with what [ast.parse] and
    [yaml.safe_load] make of them. *)

Module Sample.

(** A file system with one or two files. *)
Definition one_file (path content : list ascii) : filesystem :=
  fun p => if decide (p = path) then File content else Missing.

Definition two_files (path1 content1 path2 content2 : list ascii) : filesystem :=
  fun p =>
    if decide (p = path1) then File content1
    else if decide (p = path2) then File content2
    else Missing.

Fixpoint lookup_text {A} (table : list (list ascii * A)) (content : list ascii)
  : option A :=
  match table with
  | [] => None
  | (text, a) :: table' =>
      if decide (content = text) then Some a else lookup_text table' content
  end.

(** *** A script with the two branches, cut where the statements cut it *)

Definition stage_line (n : string) : list ascii :=
  str "TRAINING_STAGE = " ++ str n ++ [newline].
Definition if_line : list ascii := str "if TRAINING_STAGE == 1:".
Definition indent : list ascii := newline :: str "    ".
Definition stage1_ckpt : list ascii := str "./models/anytext_v1.1.ckpt".
Definition stage2_ckpt : list ascii := str "./models/stage1_final.ckpt".
Definition stage1_assignment : list ascii :=
  assignment_text (str "resume_path") (str " ") (str " ") squote stage1_ckpt squote.
Definition stage2_assignment : list ascii :=
  assignment_text (str "resume_path") (str " ") (str " ") squote stage2_ckpt squote.

Definition branches (n : string) : list ascii :=
  stage_line n ++ if_line ++ indent ++ stage1_assignment ++
  newline :: str "else:" ++ indent ++ stage2_assignment ++ [newline].

Definition branches_tree (n : Z) : Ast.node :=
  Ast.Module
    [Ast.Assign [Ast.Name (str "TRAINING_STAGE")] (Ast.Constant (Ast.CInt n));
     Ast.Other "If"
       [Ast.Other "Compare"
          [Ast.Name (str "TRAINING_STAGE"); Ast.Constant (Ast.CInt 1)];
        Ast.Assign [Ast.Name (str "resume_path")] (Ast.Constant (Ast.CStr stage1_ckpt));
        Ast.Assign [Ast.Name (str "resume_path")] (Ast.Constant (Ast.CStr stage2_ckpt))]].

(** *** Lists of dataset paths *)

(** One literal and one concatenation. *)
Definition concat_text : list ascii :=
  str "json_paths = ['a.json', base + 'b.json']" ++ [newline].
Definition concat_elts : list Ast.node :=
  [Ast.Constant (Ast.CStr (str "a.json"));
   Ast.Other "BinOp" [Ast.Name (str "base"); Ast.Constant (Ast.CStr (str "b.json"))]].
Definition concat_tree : Ast.node :=
  Ast.Module [Ast.Assign [Ast.Name (str "json_paths")] (Ast.List concat_elts)].

(** Under the main guard, with a call among the literals. *)
Definition guarded_text : list ascii :=
  str "if __name__ == '__main__':" ++ newline ::
  str "    json_paths = ['data/a.json', make_path('b'), 'data/c.json']" ++ [newline].
Definition guarded_elts : list Ast.node :=
  [Ast.Constant (Ast.CStr (str "data/a.json"));
   Ast.Call (Ast.Name (str "make_path")) [Ast.Constant (Ast.CStr (str "b"))] [];
   Ast.Constant (Ast.CStr (str "data/c.json"))].
Definition guarded_tree : Ast.node :=
  Ast.Module
    [Ast.Other "If"
       [Ast.Other "Compare"
          [Ast.Name (str "__name__"); Ast.Constant (Ast.CStr (str "__main__"))];
        Ast.Assign [Ast.Name (str "json_paths")] (Ast.List guarded_elts)]].

(** Constants of several types. *)
Definition typed_text : list ascii :=
  str "json_paths = ['a.json', 7, True, None]" ++ [newline].
Definition typed_values : list Ast.constant :=
  [Ast.CStr (str "a.json"); Ast.CInt 7; Ast.CBool true; Ast.CNone].
Definition typed_tree : Ast.node :=
  Ast.Module
    [Ast.Assign [Ast.Name (str "json_paths")]
       (Ast.List (List.map Ast.Constant typed_values))].

(** *** A script that sets an empty [config_path] *)

Definition empty_config_script : list ascii :=
  stage_line "2" ++ assignment_text (str "config_path") (str " ") (str " ") squote [] squote
  ++ [newline].
Definition empty_config_tree : Ast.node :=
  Ast.Module
    [Ast.Assign [Ast.Name (str "TRAINING_STAGE")] (Ast.Constant (Ast.CInt 2));
     Ast.Assign [Ast.Name (str "config_path")] (Ast.Constant (Ast.CStr []))].

(** *** Two texts that are not Python (their last line), each with a block *)

Definition broken_line : list ascii := str "def broken(:" ++ [newline].


Definition padded_lines : list block_line :=
  [Blank [];
   Item (str "    ") (str "data/a.json") [];
   Item (str "    ") (str " data/b.json") [];
   Blank []].
Definition padded_script : list ascii :=
  block_text (str " ") (str " ") padded_lines ++ newline :: broken_line.

(** *** The scenario of the specification, end to end *)

Definition scenario_script : list ascii :=
  str "TRAINING_STAGE = 2" ++ newline ::
  str "config_path = 'cfg.yaml'" ++ newline ::
  str "root_dir = '/out'" ++ newline ::
  str "if TRAINING_STAGE == 1:" ++ newline ::
  str "    resume_path = '/ckpt/image.ckpt'" ++ newline ::
  str "else:" ++ newline ::
  str "    resume_path = '/ckpt/base.ckpt'" ++ newline ::
  str "json_paths = ['a.json', 'b.json']" ++ [newline].

Definition scenario_tree : Ast.node :=
  Ast.Module
    [Ast.Assign [Ast.Name (str "TRAINING_STAGE")] (Ast.Constant (Ast.CInt 2));
     Ast.Assign [Ast.Name (str "config_path")] (Ast.Constant (Ast.CStr (str "cfg.yaml")));
     Ast.Assign [Ast.Name (str "root_dir")] (Ast.Constant (Ast.CStr (str "/out")));
     Ast.Other "If"
       [Ast.Other "Compare"
          [Ast.Name (str "TRAINING_STAGE"); Ast.Constant (Ast.CInt 1)];
        Ast.Assign [Ast.Name (str "resume_path")]
          (Ast.Constant (Ast.CStr (str "/ckpt/image.ckpt")));
        Ast.Assign [Ast.Name (str "resume_path")]
          (Ast.Constant (Ast.CStr (str "/ckpt/base.ckpt")))];
     Ast.Assign [Ast.Name (str "json_paths")]
       (Ast.List [Ast.Constant (Ast.CStr (str "a.json"));
                  Ast.Constant (Ast.CStr (str "b.json"))])].

(** *** A directory tree where everything can be created and written, and
    a clock *)

Definition makedirs (path : list ascii) : result unit := Ok tt.
Definition writer (path : list ascii) : result unit := Ok tt.
Definition now : list ascii := str "20260101_120000".

(** *** The parser on the samples: any other text is a syntax error *)

Definition parser (content : list ascii) : result Ast.node :=
  match
    lookup_text
      [([], Ast.Module []);
       (branches "1", branches_tree 1);
       (branches "2", branches_tree 2);
       (concat_text, concat_tree);
       (guarded_text, guarded_tree);
       (typed_text, typed_tree);
       (empty_config_script, empty_config_tree);
       (scenario_script, scenario_tree)]
      content
  with
  | Some tree => Ok tree
  | None => Raise SyntaxError
  end.

(** *** Documents: one without the embedding manager, one where it is a
    string *)

Definition injection_config : pyval :=
  VDict [(VStr (str "mode"), VStr (str "concat"))].

Definition plain_params : list (pyval * pyval) :=
  [(VStr (str "context_injection_config"), injection_config)].

Definition odd_params : list (pyval * pyval) :=
  plain_params ++ [(VStr (str "embedding_manager_config"), VStr (str "disabled"))].

Definition model_of (params : list (pyval * pyval)) : list (pyval * pyval) :=
  [(VStr (str "params"), VDict params)].

Definition document (params : list (pyval * pyval)) : list (pyval * pyval) :=
  [(VStr (str "model"), VDict (model_of params))].

Definition plain_yaml : list ascii :=
  str "model:" ++ newline ::
  str "  params:" ++ newline ::
  str "    context_injection_config:" ++ newline ::
  str "      mode: concat" ++ [newline].

Definition odd_yaml : list ascii :=
  plain_yaml ++ str "    embedding_manager_config: disabled" ++ [newline].

Definition loader (content : list ascii) : result pyval :=
  match
    lookup_text
      [(plain_yaml, VDict (document plain_params));
       (odd_yaml, VDict (document odd_params))]
      content
  with
  | Some v => Ok v
  | None => Raise YAMLError
  end.

End Sample.

(** ** Further vocabulary *)

(** The text of a stage line: [TRAINING_STAGE = digits]. *)
Definition stage_text (ws1 ws2 digits : list ascii) : list ascii :=
  str "TRAINING_STAGE" ++ ws1 ++ str "=" ++ ws2 ++ digits.





(** The mapping that [model.params] leads to in a loaded document, each
    level empty when its key is absent; none when the document or a level is
    not a mapping. *)
Definition navigate (v : pyval) : option (list (pyval * pyval)) :=
  match v with
  | VDict config =>
      match sub_mapping config (str "model") with
      | Some model => sub_mapping model (str "params")
      | None => None
      end
  | _ => None
  end.

(** *** What a pattern can match, and where *)

(** The text [t] starts with a stage line: [TRAINING_STAGE], a sign with
    blanks around it, and a digit. *)
Definition stage_line (t : list ascii) : Prop :=
  exists ws1 ws2 d post,
    t = stage_text ws1 ws2 [d] ++ post /\
    Forall (fun c => is_space c = true) ws1 /\
    Forall (fun c => is_space c = true) ws2 /\
    is_digit d = true.

(** The text [t] starts with a quoted assignment to [name]: the name, a
    sign with blanks around it, a quote, a value without a quote, a quote.
    The value holds only what [.] stands for ([dot]). *)
Definition assignment (name : list ascii) (dot : ascii -> bool) (t : list ascii) : Prop :=
  exists ws1 ws2 q1 value q2 post,
    t = assignment_text name ws1 ws2 q1 value q2 ++ post /\
    Forall (fun c => is_space c = true) ws1 /\
    Forall (fun c => is_space c = true) ws2 /\
    is_quote q1 = true /\ is_quote q2 = true /\
    Forall (fun c => dot c = true /\ is_quote c = false) value.

(** Nothing that [P] describes starts inside [pre], when [rest] follows
    [pre]; and the same for the places of [pre] that start a line. *)
Definition none_inside (P : list ascii -> Prop) (pre rest : list ascii) : Prop :=
  forall a b, pre = a ++ b -> b <> [] -> ~ P (b ++ rest).

Definition no_line_inside (P : list ascii -> Prop) (pre rest : list ascii) : Prop :=
  forall a b, pre = a ++ b -> b <> [] -> line_start a -> ~ P (b ++ rest).

(** Whether a pattern fails at every place inside [pre] where [re.search]
    tries it ([bol]: [pre] starts a line), [rest] following. *)
Fixpoint fails_inside (re : Re.regex) (bol : bool) (pre rest : list ascii) : bool :=
  match pre with
  | [] => true
  | c :: pre' =>
      match
        (if Re.line_anchor re && negb bol then None
         else Re.exec (Re.items re) Re.no_group (pre ++ rest))
      with
      | Some _ => false
      | None => fails_inside re (is_char newline c) pre' rest
      end
  end.

(** *** What the report can show *)

(** A key that [{k:<10}] can write, a value that [{v}] can write, and the
    same for the injection configuration as line 160 tells its two cases
    apart, for an entry of [json_paths] and for the stage. *)
Definition key_formats (k : pyval) : Prop :=
  match k with
  | VStr _ | VBool _ | VOther _ => True
  | VInt n => int_printable n = true
  | VNone | VBytes _ | VList _ | VDict _ => False
  end.

Definition value_formats (v : pyval) : Prop := unprintable v = false.

Definition injection_formats (inj : pyval) : Prop :=
  match inj with
  | VDict items => Forall (fun item => key_formats item.1 /\ value_formats item.2) items
  | _ => value_formats inj
  end.

Definition constant_formats (p : Ast.constant) : Prop :=
  match p with
  | Ast.CInt n => int_printable n = true
  | _ => True
  end.

Definition stage_formats (stage : option Z) : Prop :=
  match stage with
  | Some n => int_printable n = true
  | None => True
  end.

(** ** Further sample inputs *)

Module More.



(** A script with a list inside a block and a list at the top level after
    it. *)
Definition order_text : list ascii :=
  str "if __name__ == '__main__':" ++ newline ::
  str "    json_paths = ['nested.json']" ++ newline ::
  str "json_paths = ['top.json']" ++ [newline].

Definition order_body : list Ast.node :=
  [Ast.Other "If"
     [Ast.Other "Compare"
        [Ast.Name (str "__name__"); Ast.Constant (Ast.CStr (str "__main__"))];
      Ast.Assign [Ast.Name (str "json_paths")]
        (Ast.List [Ast.Constant (Ast.CStr (str "nested.json"))])];
   Ast.Assign [Ast.Name (str "json_paths")]
     (Ast.List [Ast.Constant (Ast.CStr (str "top.json"))])].

(** A script with an [else:] of another statement before the two
    branches. *)
Definition early_else_head : list ascii :=
  str "TRAINING_STAGE = 2" ++ newline ::
  str "if DEBUG:" ++ newline ::
  str "    print('debug')" ++ [newline].

Definition early_else_script : list ascii :=
  early_else_head ++
  str "else:" ++ newline ::
  str "    print('quiet')" ++ newline ::
  Sample.if_line ++ Sample.indent ++ Sample.stage1_assignment ++
  newline :: str "else:" ++ Sample.indent ++ Sample.stage2_assignment ++ [newline].

Definition print_call (text : string) : Ast.node :=
  Ast.Other "Expr" [Ast.Call (Ast.Name (str "print")) [Ast.Constant (Ast.CStr (str text))] []].

Definition early_else_tree : Ast.node :=
  Ast.Module
    [Ast.Assign [Ast.Name (str "TRAINING_STAGE")] (Ast.Constant (Ast.CInt 2));
     Ast.Other "If" [Ast.Name (str "DEBUG"); print_call "debug"; print_call "quiet"];
     Ast.Other "If"
       [Ast.Other "Compare"
          [Ast.Name (str "TRAINING_STAGE"); Ast.Constant (Ast.CInt 1)];
        Ast.Assign [Ast.Name (str "resume_path")]
          (Ast.Constant (Ast.CStr Sample.stage1_ckpt));
        Ast.Assign [Ast.Name (str "resume_path")]
          (Ast.Constant (Ast.CStr Sample.stage2_ckpt))]].

(** A script that names the three variables in a comment, and in a longer
    name, before it sets them. *)
Definition commented_head : list ascii :=
  str "# TRAINING_STAGE, config_path and root_dir are read by the log tool" ++ newline ::
  str "TRAINING_STAGES = (1, 2)" ++ [newline].

Definition commented_stage : list ascii :=
  commented_head ++ str "TRAINING_STAGE = 2" ++ [newline].

Definition commented_config : list ascii :=
  commented_stage ++ str "config_path = 'cfg.yaml'" ++ [newline].

Definition commented_script : list ascii :=
  commented_config ++ str "root_dir = '/out'" ++ [newline].

Definition commented_tree : Ast.node :=
  Ast.Module
    [Ast.Assign [Ast.Name (str "TRAINING_STAGES")]
       (Ast.Other "Tuple" [Ast.Constant (Ast.CInt 1); Ast.Constant (Ast.CInt 2)]);
     Ast.Assign [Ast.Name (str "TRAINING_STAGE")] (Ast.Constant (Ast.CInt 2));
     Ast.Assign [Ast.Name (str "config_path")] (Ast.Constant (Ast.CStr (str "cfg.yaml")));
     Ast.Assign [Ast.Name (str "root_dir")] (Ast.Constant (Ast.CStr (str "/out")))].

(** A document whose injection configuration has a key without a name
    ([~: 1] under the key), and the loader on it. *)
Definition null_key_yaml : list ascii :=
  str "model:" ++ newline ::
  str "  params:" ++ newline ::
  str "    context_injection_config:" ++ newline ::
  str "      ~: 1" ++ [newline].

Definition null_key_params : list (pyval * pyval) :=
  [(VStr (str "context_injection_config"), VDict [(VNone, VInt 1)])].

(** A stage of 4301 digits. *)
Definition long_stage_script : list ascii :=
  str "TRAINING_STAGE = " ++ List.repeat "1"%char 4301 ++ [newline].

(** The parser on these scripts and on the samples.  (The digits of the
    long stage are more than [ast.parse] reads, too.) *)
Definition parser (content : list ascii) : result Ast.node :=
  if decide (content = order_text) then Ok (Ast.Module order_body)
  else if decide (content = early_else_script) then Ok early_else_tree
  else if decide (content = commented_script) then Ok commented_tree
  else Sample.parser content.

(** Documents: an empty file, one with every key, one where the [params]
    of the embedding manager is a number. *)
Definition full_yaml : list ascii :=
  Sample.plain_yaml ++
  str "    embedding_manager_config:" ++ newline ::
  str "      params:" ++ newline ::
  str "        use_calligraphy_style: true" ++ [newline].

Definition full_emb : list (pyval * pyval) :=
  [(VStr (str "params"), VDict [(VStr (str "use_calligraphy_style"), VBool true)])].

Definition full_params : list (pyval * pyval) :=
  Sample.plain_params ++ [(VStr (str "embedding_manager_config"), VDict full_emb)].

Definition odd_emb_yaml : list ascii :=
  Sample.plain_yaml ++
  str "    embedding_manager_config:" ++ newline ::
  str "      params: 3" ++ [newline].

Definition odd_emb : list (pyval * pyval) := [(VStr (str "params"), VInt 3)].

Definition odd_emb_params : list (pyval * pyval) :=
  Sample.plain_params ++ [(VStr (str "embedding_manager_config"), VDict odd_emb)].

Definition loader (content : list ascii) : result pyval :=
  if decide (content = []) then Ok VNone
  else if decide (content = null_key_yaml) then Ok (VDict (Sample.document null_key_params))
  else if decide (content = full_yaml) then Ok (VDict (Sample.document full_params))
  else if decide (content = odd_emb_yaml) then Ok (VDict (Sample.document odd_emb_params))
  else Sample.loader content.

End More.

(** * Properties *)

(** ** Text *)

Lemma is_char_true a c : is_char a c = true <-> a = c.
Proof. unfold is_char. apply Ascii.eqb_eq. Qed.

Lemma is_char_refl a : is_char a a = true.
Proof. by apply is_char_true. Qed.

Lemma startswith_app w t : startswith (w ++ t) w = true.
Proof. induction w as [|a w IH]; simpl; [done|]. by rewrite is_char_refl, IH. Qed.

Lemma startswith_inv s w : startswith s w = true -> exists t, s = w ++ t.
Proof.
  revert s. induction w as [|a w IH]; intros s H; simpl in *.
  - by exists s.
  - destruct s as [|c s]; [done|].
    apply andb_prop in H as [Hc Hs]. apply is_char_true in Hc as ->.
    destruct (IH _ Hs) as [t ->]. by exists t.
Qed.

(** [startswith] reads no further than the length of the word. *)
Lemma startswith_more w y t :
  (length w <= length y)%nat -> startswith (y ++ t) w = startswith y w.
Proof.
  revert y. induction w as [|a w IH]; intros y Hlen; simpl in *.
  - done.
  - destruct y as [|c y]; simpl in *; [lia|].
    rewrite IH; [done | lia].
Qed.

Lemma startswith_refl w : startswith w w = true.
Proof. induction w as [|a w IH]; simpl; [done|]. by rewrite is_char_refl, IH. Qed.

Lemma find_unfold s w :
  find s w =
  if startswith s w then Some O
  else match s with [] => None | _ :: s' => S <$> find s' w end.
Proof. by destruct s. Qed.

Lemma first_at_nil w : first_at w [].
Proof. unfold first_at. simpl. by rewrite find_unfold, startswith_refl. Qed.

Lemma first_at_cons w c pre :
  first_at w (c :: pre) ->
  (forall t, startswith (c :: pre ++ w ++ t) w = false) /\ first_at w pre.
Proof.
  unfold first_at. intros Hf.
  assert (Hm : forall t, startswith (c :: pre ++ w ++ t) w = startswith (c :: pre ++ w) w).
  { intros t. change (c :: pre ++ w ++ t) with ((c :: pre) ++ w ++ t).
    rewrite (assoc_L (++) (c :: pre) w t).
    apply startswith_more. simpl. rewrite length_app. lia. }
  rewrite find_unfold in Hf. simpl in Hf.
  destruct (startswith (c :: pre ++ w) w) eqn:Hs; [done|].
  split.
  - intros t. by rewrite Hm.
  - destruct (find (pre ++ w) w) as [n|]; simpl in Hf; [|done].
    by injection Hf as ->.
Qed.

(** ** The matcher *)

Section ReFacts.

Implicit Types (p : ascii -> bool) (rest : list Re.item) (st : Re.mstate).

Lemma exec_star_unfold p rest st s :
  Re.exec (Re.Star p :: rest) st s =
  match s with
  | c :: s' =>
      if p c then
        match Re.exec (Re.Star p :: rest) st s' with
        | Some m => Some m
        | None => Re.exec rest st s
        end
      else Re.exec rest st s
  | [] => Re.exec rest st s
  end.
Proof. by destruct s. Qed.

Lemma exec_lazy_unfold p rest st s :
  Re.exec (Re.LazyStar p :: rest) st s =
  match Re.exec rest st s with
  | Some m => Some m
  | None =>
      match s with
      | c :: s' => if p c then Re.exec (Re.LazyStar p :: rest) st s' else None
      | [] => None
      end
  end.
Proof. by destruct s. Qed.

Lemma exec_one p rest st c s :
  Re.exec (Re.One p :: rest) st (c :: s) = if p c then Re.exec rest st s else None.
Proof. done. Qed.

Lemma exec_open rest st s :
  Re.exec (Re.GroupOpen :: rest) st s = Re.exec rest (Re.open_group st s) s.
Proof. done. Qed.

Lemma exec_lit w rest st t :
  Re.exec (Re.lit w ++ rest) st (w ++ t) = Re.exec rest st t.
Proof. induction w as [|a w IH]; simpl; [done|]. by rewrite is_char_refl. Qed.

Lemma exec_lit_fail w rest st s :
  startswith s w = false -> Re.exec (Re.lit w ++ rest) st s = None.
Proof.
  revert s. induction w as [|a w IH]; intros s H; simpl in *; [done|].
  destruct s as [|c s]; [done|].
  destruct (is_char a c); simpl in H; [by apply IH | done].
Qed.

(** A greedy star in front of a rest that matches right after the run. *)
Lemma exec_star p rest st ws t m :
  Forall (fun c => p c = true) ws -> stops p t ->
  Re.exec rest st t = Some m ->
  Re.exec (Re.Star p :: rest) st (ws ++ t) = Some m.
Proof.
  intros Hws Ht Hm. induction Hws as [|c ws Hc _ IH]; simpl app.
  - rewrite exec_star_unfold. destruct t as [|c t]; [done|].
    simpl in Ht. by rewrite Ht.
  - rewrite exec_star_unfold, Hc. by rewrite IH.
Qed.

(** A lazy star hands over at the first place where the rest matches. *)
Lemma exec_lazy_here p rest st t m :
  Re.exec rest st t = Some m -> Re.exec (Re.LazyStar p :: rest) st t = Some m.
Proof. intros H. by rewrite exec_lazy_unfold, H. Qed.

Lemma exec_lazy_skip w rest st mid t :
  first_at w mid ->
  Re.exec (Re.LazyStar any_char :: Re.lit w ++ rest) st (mid ++ w ++ t) =
  Re.exec (Re.LazyStar any_char :: Re.lit w ++ rest) st (w ++ t).
Proof.
  induction mid as [|c mid IH]; intros Hf; [done|].
  apply first_at_cons in Hf as [Hc Hf].
  rewrite exec_lazy_unfold. simpl app.
  rewrite exec_lit_fail by apply Hc. simpl. by apply IH.
Qed.

(** The group [(x*?)] followed by a closing character [stop]: it holds the
    text up to the first [stop]. *)
Lemma exec_capture_from dot stop g v1 v2 q post :
  Forall (fun c => dot c = true /\ stop c = false) v2 -> stop q = true ->
  Re.exec [Re.LazyStar dot; Re.GroupClose; Re.One stop]
    (Re.MState (Some (v1 ++ v2 ++ q :: post)) g) (v2 ++ q :: post) =
  Some (Re.MState (Some (v1 ++ v2 ++ q :: post)) (Some (v1 ++ v2))).
Proof.
  intros Hv Hq. revert v1. induction Hv as [|c v2 [Hd Hs] _ IH]; intros v1.
  - rewrite exec_lazy_unfold. simpl. rewrite Hq.
    unfold Re.close_group. simpl. rewrite length_app. simpl.
    replace (length v1 + S (length post) - S (length post))%nat with (length v1) by lia.
    by rewrite take_app_length, app_nil_r.
  - rewrite exec_lazy_unfold. simpl. rewrite Hs, Hd.
    specialize (IH (v1 ++ [c])). rewrite <- !(assoc_L (++)) in IH. simpl in IH.
    apply IH.
Qed.

Lemma exec_capture dot stop st value q post :
  Forall (fun c => dot c = true /\ stop c = false) value -> stop q = true ->
  Re.exec [Re.GroupOpen; Re.LazyStar dot; Re.GroupClose; Re.One stop] st
    (value ++ q :: post) =
  Some (Re.MState (Some (value ++ q :: post)) (Some value)).
Proof.
  intros Hv Hq.
  change (Re.exec [Re.GroupOpen; Re.LazyStar dot; Re.GroupClose; Re.One stop] st
            (value ++ q :: post))
    with (Re.exec [Re.LazyStar dot; Re.GroupClose; Re.One stop]
            (Re.MState (Some ([] ++ value ++ q :: post)) (Re.g_text st)) (value ++ q :: post)).
  by rewrite exec_capture_from.
Qed.

Lemma search_from_unanchored its bol s :
  Re.search_from (Re.Regex false its) bol s = Re.search (Re.Regex false its) s.
Proof. unfold Re.search. by destruct s. Qed.

Lemma search_here its s m :
  Re.exec its Re.no_group s = Some m -> Re.search (Re.Regex false its) s = Some m.
Proof. intros H. unfold Re.search. destruct s; simpl; by rewrite H. Qed.

Lemma search_skip w rest pre t :
  first_at w pre ->
  Re.search (Re.Regex false (Re.lit w ++ rest)) (pre ++ w ++ t) =
  Re.search (Re.Regex false (Re.lit w ++ rest)) (w ++ t).
Proof.
  induction pre as [|c pre IH]; intros Hf; [done|].
  apply first_at_cons in Hf as [Hc Hf].
  unfold Re.search at 1. simpl.
  rewrite exec_lit_fail by apply Hc.
  rewrite search_from_unanchored. by apply IH.
Qed.

(** A pattern that starts with a word fails where the word is nowhere. *)
Lemma search_absent w rest s :
  find s w = None -> Re.search (Re.Regex false (Re.lit w ++ rest)) s = None.
Proof.
  induction s as [|c s IH]; intros Hf; rewrite find_unfold in Hf.
  - destruct (startswith [] w) eqn:Hs; [done|].
    unfold Re.search. simpl. by rewrite exec_lit_fail.
  - destruct (startswith (c :: s) w) eqn:Hs; [done|].
    unfold Re.search. simpl. rewrite exec_lit_fail by done.
    rewrite search_from_unanchored. apply IH.
    by destruct (find s w).
Qed.

End ReFacts.

(** ** The patterns of the script *)

Lemma is_quote_inv q : is_quote q = true -> q = squote \/ q = dquote.
Proof.
  unfold is_quote. intros H. apply orb_prop in H as [H|H]; apply is_char_true in H; auto.
Qed.

Lemma is_quote_not_space q : is_quote q = true -> is_space q = false.
Proof. intros H. by destruct (is_quote_inv q H) as [-> | ->]. Qed.

Lemma exec_quoted_assignment name dot st ws1 ws2 q1 value q2 post :
  Forall (fun c => is_space c = true) ws1 ->
  Forall (fun c => is_space c = true) ws2 ->
  is_quote q1 = true -> is_quote q2 = true ->
  Forall (fun c => dot c = true /\ is_quote c = false) value ->
  Re.exec (quoted_assignment name dot) st
    (assignment_text name ws1 ws2 q1 value q2 ++ post) =
  Some (Re.MState (Some (value ++ q2 :: post)) (Some value)).
Proof.
  intros H1 H2 Hq1 Hq2 Hv. unfold quoted_assignment, assignment_text, equals_sign.
  rewrite <- !(assoc_L (++)). rewrite exec_lit.
  change (str "=") with ["="%char]. cbn [app].
  apply exec_star; [done | done |].
  rewrite exec_one, is_char_refl.
  apply exec_star; [done | by apply is_quote_not_space |].
  rewrite exec_one, Hq1.
  rewrite <- (assoc_L (++)). by apply exec_capture.
Qed.

(** ** Group 1 of a match

    [Re.group1] reads the group of a match; the patterns of the script all
    close the group on the way to a match, so it is always there. *)

Lemma exec_keeps_group pat st s m :
  Re.exec pat st s = Some m ->
  is_Some (Re.g_text st) \/
    closes_group pat (bool_decide (is_Some (Re.g_open st))) = true ->
  is_Some (Re.g_text m).
Proof.
  revert st s m. induction pat as [|it pat IH]; intros st s m Hm Hst.
  - simpl in Hm. injection Hm as <-. by destruct Hst.
  - destruct it as [p|p|p| |].
    + destruct s as [|c s]; [done|]. rewrite exec_one in Hm.
      destruct (p c); [|done]. by apply (IH st s).
    + induction s as [|c s IHs]; rewrite exec_star_unfold in Hm.
      * by apply (IH st []).
      * destruct (p c); [|by apply (IH st (c :: s))].
        destruct (Re.exec (Re.Star p :: pat) st s) eqn:Hs.
        -- injection Hm as <-. by apply IHs.
        -- by apply (IH st (c :: s)).
    + induction s as [|c s IHs]; rewrite exec_lazy_unfold in Hm.
      * destruct (Re.exec pat st []) eqn:Hr; [|done].
        injection Hm as <-. by apply (IH st []).
      * destruct (Re.exec pat st (c :: s)) eqn:Hr.
        -- injection Hm as <-. by apply (IH st (c :: s)).
        -- destruct (p c); [by apply IHs | done].
    + rewrite exec_open in Hm. apply (IH _ _ _ Hm).
      destruct Hst as [Hst|Hst]; [by left|]. by right.
    + change (Re.exec pat (Re.close_group st s) s = Some m) in Hm.
      apply (IH _ _ _ Hm). unfold Re.close_group.
      destruct Hst as [Hst|Hst].
      * left. by destruct (Re.g_open st).
      * simpl in Hst. destruct (Re.g_open st) as [s0|] eqn:Ho; simpl.
        -- by left.
        -- right. rewrite Ho. rewrite bool_decide_eq_false_2 in *; [done | |];
             by intros [? ?].
Qed.

Lemma search_from_keeps_group re bol s m :
  closes_group (Re.items re) false = true ->
  Re.search_from re bol s = Some m -> is_Some (Re.g_text m).
Proof.
  intros Hre. revert bol. induction s as [|c s IH]; intros bol Hm; simpl in Hm.
  - destruct (Re.line_anchor re && negb bol); [done|].
    destruct (Re.exec (Re.items re) Re.no_group []) eqn:He; [|done].
    injection Hm as <-. apply (exec_keeps_group _ _ _ _ He). by right.
  - destruct (if Re.line_anchor re && negb bol then None
              else Re.exec (Re.items re) Re.no_group (c :: s)) eqn:He.
    + injection Hm as <-. destruct (Re.line_anchor re && negb bol); [done|].
      apply (exec_keeps_group _ _ _ _ He). by right.
    + by apply (IH _ Hm).
Qed.

Lemma script_patterns_close_group re s m :
  In re [stage_re; config_re; root_re; stage1_re; else_re; json_block_re] ->
  Re.search re s = Some m -> exists g, Re.g_text m = Some g /\ Re.group1 m = g.
Proof.
  intros Hre Hm.
  assert (Hc : closes_group (Re.items re) false = true).
  { simpl in Hre. by repeat destruct Hre as [<-|Hre]. }
  destruct (search_from_keeps_group re true s m Hc Hm) as [g Hg].
  exists g. split; [done|]. unfold Re.group1. by rewrite Hg.
Qed.

(** ** [parse_train_py] on a script that can be read *)

(** Which step writes which field. *)
Lemma scalar_fields_training_stage content :
  training_stage (scalar_fields content) =
  match Re.search stage_re content with
  | Some m => Some (int_of_digits (Re.group1 m))
  | None => None
  end.
Proof.
  unfold scalar_fields, extract_resume_path, extract_root_dir, extract_config_path,
    stage_value.
  by repeat case_match.
Qed.

Lemma scalar_fields_config_path content :
  config_path (scalar_fields content) =
  match Re.search config_re content with
  | Some m => Some (Re.group1 m)
  | None => None
  end.
Proof.
  unfold scalar_fields, extract_resume_path, extract_root_dir, extract_config_path,
    stage_value.
  by repeat case_match.
Qed.

Lemma scalar_fields_root_dir content :
  root_dir (scalar_fields content) =
  match Re.search root_re content with
  | Some m => Re.group1 m
  | None => str "./checkpoints"
  end.
Proof.
  unfold scalar_fields, extract_resume_path, extract_root_dir, extract_config_path,
    stage_value.
  by repeat case_match.
Qed.

Lemma scalar_fields_json_paths content : json_paths (scalar_fields content) = [].
Proof.
  unfold scalar_fields, extract_resume_path, extract_root_dir, extract_config_path,
    stage_value.
  by repeat case_match.
Qed.

(** Step 4 reads the stage that step 1 stored. *)
Lemma scalar_fields_resume content :
  let info := scalar_fields content in
  (resume_path info, base_ckpt_source info) =
  match
    (if decide (training_stage info = Some 1%Z)
     then Re.search stage1_re content else Re.search else_re content)
  with
  | Some m =>
      (Re.group1 m,
       if decide (training_stage info = Some 1%Z) then STAGE1_LABEL else STAGE2_LABEL)
  | None => (str "Unknown", str "Unknown")
  end.
Proof.
  unfold scalar_fields, extract_resume_path, extract_root_dir, extract_config_path,
    stage_value.
  repeat case_match; simpl in *; try done; congruence.
Qed.

Section ParseTrainPy.

Variable ast_parse : list ascii -> result Ast.node.

(** Step 1 on the initial structure: [int] refuses the digits, or the stage
    is stored. *)
Lemma extract_training_stage_initial content :
  extract_training_stage content initial_info =
  if (INT_MAX_STR_DIGITS <? length (stage_digits content))%nat
  then ([], initial_info, Raise ValueError)
  else ([], set_training_stage (stage_value content) initial_info, Ok tt).
Proof.
  unfold extract_training_stage, stage_digits, stage_value, py_int.
  destruct (Re.search stage_re content) as [m|].
  - unfold bind, lift, modify.
    by destruct (INT_MAX_STR_DIGITS <? length (Re.group1 m))%nat.
  - destruct (Nat.ltb_spec INT_MAX_STR_DIGITS (length (@nil ascii))) as [H|H]; [|done].
    simpl in H. lia.
Qed.

(** The whole function on a script that can be read, in three cases. *)
Lemma parse_train_py_read fs file_path content :
  fs file_path = File content ->
  parse_train_py ast_parse fs file_path =
  if (INT_MAX_STR_DIGITS <? length (stage_digits content))%nat
  then ([], Raise ValueError)
  else
    match ast_parse content with
    | Ok tree =>
        ([], Ok (Some (set_json_paths (structural_paths tree) (scalar_fields content))))
    | Raise e =>
        ([AstFallback e],
         Ok (Some (set_json_paths (textual_paths content) (scalar_fields content))))
    end.
Proof.
  intros Hf. unfold parse_train_py, run, path_exists, read_file. rewrite Hf.
  cbn [negb]. unfold bind at 1. unfold ret at 1. unfold bind at 1.
  rewrite extract_training_stage_initial.
  destruct (INT_MAX_STR_DIGITS <? length (stage_digits content))%nat; [done|].
  unfold bind, modify, extract_json_paths, try_except, bind, lift, get, ret, print, modify.
  fold (scalar_fields content).
  destruct (ast_parse content) as [tree|e]; simpl;
    by rewrite scalar_fields_json_paths.
Qed.

Lemma parse_train_py_file fs file_path content :
  fs file_path = File content ->
  (length (stage_digits content) <= INT_MAX_STR_DIGITS)%nat ->
  parse_train_py ast_parse fs file_path =
  match ast_parse content with
  | Ok tree =>
      ([], Ok (Some (set_json_paths (structural_paths tree) (scalar_fields content))))
  | Raise e =>
      ([AstFallback e],
       Ok (Some (set_json_paths (textual_paths content) (scalar_fields content))))
  end.
Proof.
  intros Hf Hfit. rewrite (parse_train_py_read _ _ _ Hf).
  by destruct (Nat.ltb_spec INT_MAX_STR_DIGITS (length (stage_digits content))); [lia|].
Qed.

(** [int] refuses a stage of more than 4300 digits, outside any handler. *)
Lemma parse_train_py_long_stage fs file_path content :
  fs file_path = File content ->
  (INT_MAX_STR_DIGITS < length (stage_digits content))%nat ->
  parse_train_py ast_parse fs file_path = ([], Raise ValueError).
Proof.
  intros Hf Hlong. rewrite (parse_train_py_read _ _ _ Hf).
  by destruct (Nat.ltb_spec INT_MAX_STR_DIGITS (length (stage_digits content))); [|lia].
Qed.

(** So the digits of the stage fit whenever the function returns. *)
Lemma parse_train_py_stage_fits fs file_path content r :
  fs file_path = File content ->
  outcome (parse_train_py ast_parse fs file_path) = Ok r ->
  (length (stage_digits content) <= INT_MAX_STR_DIGITS)%nat.
Proof.
  intros Hf Ho. rewrite (parse_train_py_read _ _ _ Hf) in Ho.
  by destruct (Nat.ltb_spec INT_MAX_STR_DIGITS (length (stage_digits content))).
Qed.

Lemma parse_train_py_missing fs file_path :
  fs file_path = Missing ->
  parse_train_py ast_parse fs file_path = ([ScriptNotFound file_path], Ok None).
Proof. intros Hf. unfold parse_train_py, run, path_exists. by rewrite Hf. Qed.

Lemma parse_train_py_unreadable fs file_path e :
  fs file_path = Unreadable e ->
  parse_train_py ast_parse fs file_path = ([], Raise e).
Proof. intros Hf. unfold parse_train_py, run, path_exists, read_file. by rewrite Hf. Qed.

(** The scalar fields of the result are those of steps 1 to 4. *)
Lemma parse_train_py_scalars fs file_path content info :
  fs file_path = File content ->
  outcome (parse_train_py ast_parse fs file_path) = Ok (Some info) ->
  exists paths, info = set_json_paths paths (scalar_fields content).
Proof.
  intros Hf Ho.
  rewrite (parse_train_py_file _ _ _ Hf (parse_train_py_stage_fits _ _ _ _ Hf Ho)) in Ho.
  destruct (ast_parse content); simpl in Ho; injection Ho as <-; eauto.
Qed.

End ParseTrainPy.

(** ** The branch resolver *)

(** A greedy star in front of a lazy [.*?] changes nothing when the rest
    cannot start inside the run the star would take. *)
Lemma exec_star_lazy p rest st s :
  (forall c t, p c = true -> Re.exec rest st (c :: t) = None) ->
  Re.exec (Re.Star p :: Re.LazyStar any_char :: rest) st s =
  Re.exec (Re.LazyStar any_char :: rest) st s.
Proof.
  intros Hrest. induction s as [|c s IH]; rewrite exec_star_unfold; [done|].
  destruct (p c) eqn:Hp; [|done].
  rewrite IH. destruct (Re.exec (Re.LazyStar any_char :: rest) st s) eqn:Hs; [|done].
  by rewrite (exec_lazy_unfold _ _ _ (c :: s)), Hrest, Hs.
Qed.

Lemma exec_lit_head a w rest st c t :
  c <> a -> Re.exec (Re.lit (a :: w) ++ rest) st (c :: t) = None.
Proof.
  intros Hne. simpl. destruct (is_char a c) eqn:E; [|done].
  apply is_char_true in E. congruence.
Qed.

Section Branches.

Variables (pre mid ws1 ws2 value post : list ascii) (q1 q2 : ascii).

Hypothesis blanks1 : Forall (fun c => is_space c = true) ws1.
Hypothesis blanks2 : Forall (fun c => is_space c = true) ws2.
Hypothesis quote1 : is_quote q1 = true.
Hypothesis quote2 : is_quote q2 = true.
Hypothesis plain : Forall (fun c => is_quote c = false) value.
Hypothesis no_assignment_before : first_at (str "resume_path") mid.

Lemma exec_first_assignment st :
  Re.exec (Re.LazyStar any_char :: quoted_assignment (str "resume_path") any_char) st
    (mid ++ assignment_text (str "resume_path") ws1 ws2 q1 value q2 ++ post) =
  Some (Re.MState (Some (value ++ q2 :: post)) (Some value)).
Proof.
  pose proof (exec_quoted_assignment (str "resume_path") any_char st
                ws1 ws2 q1 value q2 post blanks1 blanks2 quote1 quote2) as Hq.
  unfold assignment_text in *. unfold quoted_assignment in *.
  rewrite <- !(assoc_L (++)) in *.
  rewrite exec_lazy_skip by exact no_assignment_before.
  apply exec_lazy_here, Hq.
  eapply Forall_impl; [exact plain|]. by intros c ->.
Qed.

Lemma search_stage1_re :
  first_at (str "if TRAINING_STAGE == 1:") pre ->
  Re.group1 <$>
    Re.search stage1_re
      (pre ++ str "if TRAINING_STAGE == 1:" ++ mid ++
       assignment_text (str "resume_path") ws1 ws2 q1 value q2 ++ post)
  = Some value.
Proof.
  intros Hpre. unfold stage1_re.
  rewrite search_skip by done.
  rewrite (search_here _ _ (Re.MState (Some (value ++ q2 :: post)) (Some value))); [done|].
  rewrite exec_lit. apply exec_first_assignment.
Qed.

End Branches.

Lemma parse_train_py_resume ast_parse fs file_path content info :
  fs file_path = File content ->
  outcome (parse_train_py ast_parse fs file_path) = Ok (Some info) ->
  (resume_path info, base_ckpt_source info) =
  match
    (if decide (training_stage info = Some 1%Z)
     then Re.search stage1_re content else Re.search else_re content)
  with
  | Some m =>
      (Re.group1 m,
       if decide (training_stage info = Some 1%Z) then STAGE1_LABEL else STAGE2_LABEL)
  | None => (str "Unknown", str "Unknown")
  end.
Proof.
  intros Hf Ho.
  destruct (parse_train_py_scalars _ _ _ _ _ Hf Ho) as [paths ->].
  apply (scalar_fields_resume content).
Qed.



(** ** The stage line *)

Lemma is_digit_not_space c : is_digit c = true -> is_space c = false.
Proof. by destruct c as [[] [] [] [] [] [] [] []]. Qed.

Lemma search_anchored_skip w rest pre t bol :
  first_at w pre ->
  Re.search_from (Re.Regex true (Re.lit w ++ rest)) bol (pre ++ w ++ t) =
  Re.search_from (Re.Regex true (Re.lit w ++ rest))
    (match last pre with None => bol | Some c => is_char newline c end) (w ++ t).
Proof.
  revert bol. induction pre as [|c pre IH]; intros bol Hf; [done|].
  apply first_at_cons in Hf as [Hc Hf].
  cbn [app Re.search_from Re.line_anchor Re.items].
  rewrite exec_lit_fail by apply Hc.
  assert (Hnone : forall b : bool, (if b then None else None) = @None Re.mstate)
    by by intros [].
  rewrite Hnone, IH by done. rewrite last_cons. by destruct (last pre).
Qed.

(** The first line that starts with [TRAINING_STAGE], a sign and digits
    gives the stage. *)
Lemma search_stage_re pre ws1 ws2 d ds post :
  first_at (str "TRAINING_STAGE") pre -> line_start pre ->
  Forall (fun c => is_space c = true) ws1 ->
  Forall (fun c => is_space c = true) ws2 ->
  Forall (fun c => is_digit c = true) (d :: ds) -> stops is_digit post ->
  Re.group1 <$>
    Re.search stage_re
      (pre ++ str "TRAINING_STAGE" ++ ws1 ++ str "=" ++ ws2 ++ (d :: ds) ++ post)
  = Some (d :: ds).
Proof.
  intros Hpre Hline Hws1 Hws2 Hds Hpost. inversion_clear Hds as [|? ? Hd Hds'].
  unfold Re.search, stage_re. rewrite search_anchored_skip by done.
  set (bol := match last pre with None => true | Some c => is_char newline c end).
  assert (Hbol : bol = true).
  { unfold bol, line_start in *. destruct (last pre); [|done]. by apply is_char_true. }
  assert (Hexec :
    Re.exec (Re.lit (str "TRAINING_STAGE") ++ equals_sign ++
             [Re.GroupOpen] ++ Re.plus is_digit ++ [Re.GroupClose]) Re.no_group
      (str "TRAINING_STAGE" ++ ws1 ++ str "=" ++ ws2 ++ (d :: ds) ++ post) =
    Some (Re.MState (Some ((d :: ds) ++ post)) (Some (d :: ds)))).
  { rewrite exec_lit. unfold equals_sign. change (str "=") with ["="%char]. cbn [app].
    apply exec_star; [done | done |].
    rewrite exec_one, is_char_refl.
    apply exec_star; [done | by apply is_digit_not_space |].
    unfold Re.plus. cbn [app].
    rewrite exec_open, exec_one, Hd.
    apply exec_star; [done | done |].
    cbn [Re.exec]. unfold Re.close_group, Re.open_group. cbn [Re.g_open Re.g_text].
    do 2 f_equal. f_equal.
    replace (length (d :: ds ++ post) - length post)%nat with (length (d :: ds))
      by (simpl; rewrite length_app; lia).
    change (d :: ds ++ post) with ((d :: ds) ++ post). by rewrite take_app_length. }
  destruct (str "TRAINING_STAGE" ++ ws1 ++ str "=" ++ ws2 ++ (d :: ds) ++ post) eqn:Htext.
  - by destruct ws1.
  - cbn [Re.search_from Re.line_anchor Re.items].
    rewrite Hbol. cbn [negb andb]. by rewrite Hexec.
Qed.

Lemma first_stage_line_extracted pre ws1 ws2 d ds post :
  first_at (str "TRAINING_STAGE") pre -> line_start pre ->
  Forall (fun c => is_space c = true) ws1 ->
  Forall (fun c => is_space c = true) ws2 ->
  Forall (fun c => is_digit c = true) (d :: ds) -> stops is_digit post ->
  training_stage
    (scalar_fields
       (pre ++ str "TRAINING_STAGE" ++ ws1 ++ str "=" ++ ws2 ++ (d :: ds) ++ post))
  = Some (int_of_digits (d :: ds)).
Proof.
  intros Hpre Hline Hws1 Hws2 Hds Hpost.
  rewrite scalar_fields_training_stage.
  pose proof (search_stage_re pre ws1 ws2 d ds post Hpre Hline Hws1 Hws2 Hds Hpost) as Hs.
  destruct (Re.search stage_re _) as [m|]; [|done].
  simpl in Hs. by injection Hs as ->.
Qed.

(** A text whose first [TRAINING_STAGE] line reads [TRAINING_STAGE = 1]. *)
Example stage_one pre post :
  first_at (str "TRAINING_STAGE") pre -> line_start pre -> stops is_digit post ->
  training_stage (scalar_fields (pre ++ str "TRAINING_STAGE = 1" ++ post)) = Some 1%Z.
Proof.
  intros Hpre Hline Hpost.
  apply (first_stage_line_extracted pre (str " ") (str " ") "1"%char [] post);
    try done; repeat constructor.
Qed.

(** ** The walk over the syntax tree *)

Lemma total_size_app l1 l2 : total_size (l1 ++ l2) = (total_size l1 + total_size l2)%nat.
Proof. unfold total_size. by rewrite List.map_app, list_sum_app. Qed.

Lemma size_children n : Ast.size n = S (total_size (Ast.iter_child_nodes n)).
Proof.
  destruct n; unfold total_size; cbn [Ast.iter_child_nodes Ast.size]; try done.
  - rewrite List.map_app, list_sum_app. simpl. lia.
  - by rewrite <- Nat.add_assoc, <- list_sum_app, <- List.map_app.
Qed.

(** The fuel of [walk] is enough: with at least as many steps as there are
    nodes to visit, the walk visits that many nodes, and more steps change
    nothing. *)
Lemma walk_todo_length fuel todo :
  (total_size todo <= fuel)%nat -> length (Ast.walk_todo fuel todo) = total_size todo.
Proof.
  revert todo. induction fuel as [|fuel IH]; intros todo Hle.
  - destruct todo as [|n todo]; [done|].
    unfold total_size in Hle. simpl in Hle. rewrite size_children in Hle. lia.
  - destruct todo as [|n todo]; [done|]. simpl.
    assert (Hn : total_size (n :: todo) =
                 S (total_size (todo ++ Ast.iter_child_nodes n))).
    { rewrite total_size_app. unfold total_size at 1. simpl.
      rewrite size_children. unfold total_size. lia. }
    rewrite IH; lia.
Qed.

Lemma walk_todo_fuel fuel todo :
  (total_size todo <= fuel)%nat ->
  Ast.walk_todo fuel todo = Ast.walk_todo (total_size todo) todo.
Proof.
  revert todo. induction fuel as [|fuel IH]; intros todo Hle.
  - destruct todo as [|n todo]; [by destruct (total_size [])|].
    unfold total_size in Hle. simpl in Hle. rewrite size_children in Hle. lia.
  - destruct todo as [|n todo]; [by destruct (total_size [])|].
    assert (Hn : total_size (n :: todo) =
                 S (total_size (todo ++ Ast.iter_child_nodes n))).
    { rewrite total_size_app. unfold total_size at 1. simpl.
      rewrite size_children. unfold total_size. lia. }
    rewrite Hn. simpl. f_equal. apply IH. lia.
Qed.

Lemma walk_length tree : length (Ast.walk tree) = Ast.size tree.
Proof.
  unfold Ast.walk. rewrite walk_todo_length; unfold total_size; simpl; lia.
Qed.

(** The walk starts at the root and reaches the children of every node it
    reaches: no assignment of the tree is missed. *)
Lemma walk_todo_closed fuel todo :
  (total_size todo <= fuel)%nat ->
  (forall n, In n todo -> In n (Ast.walk_todo fuel todo)) /\
  (forall n c, In n (Ast.walk_todo fuel todo) -> In c (Ast.iter_child_nodes n) ->
               In c (Ast.walk_todo fuel todo)).
Proof.
  revert todo. induction fuel as [|fuel IH]; intros todo Hle.
  - destruct todo as [|n todo]; [done|].
    unfold total_size in Hle. simpl in Hle. rewrite size_children in Hle. lia.
  - destruct todo as [|n todo]; [done|]. simpl.
    assert (Hn : total_size (n :: todo) =
                 S (total_size (todo ++ Ast.iter_child_nodes n))).
    { rewrite total_size_app. unfold total_size at 1. simpl.
      rewrite size_children. unfold total_size. lia. }
    destruct (IH (todo ++ Ast.iter_child_nodes n)) as [Hin Hcl]; [lia|].
    split.
    + intros x [->|Hx]; [by left|]. right. apply Hin, in_or_app. by left.
    + intros x c [->|Hx] Hc; right.
      * apply Hin, in_or_app. by right.
      * by apply (Hcl x).
Qed.

Lemma walk_root tree : In tree (Ast.walk tree).
Proof.
  unfold Ast.walk. apply walk_todo_closed; [|by left].
  unfold total_size. simpl. lia.
Qed.

Lemma walk_children tree n c :
  In n (Ast.walk tree) -> In c (Ast.iter_child_nodes n) -> In c (Ast.walk tree).
Proof.
  unfold Ast.walk. apply walk_todo_closed. unfold total_size. simpl. lia.
Qed.

(** ** The structural tier *)

Lemma element_entries_kept elt :
  element_entries elt = if kept elt then [entry_of elt] else [].
Proof. by destruct elt. Qed.

Lemma flat_map_element_entries elts :
  flat_map element_entries elts = List.map entry_of (List.filter kept elts).
Proof.
  induction elts as [|elt elts IH]; [done|]. simpl.
  rewrite element_entries_kept, IH. by destruct (kept elt).
Qed.

Lemma target_entries_lists value target :
  target_entries value target =
  flat_map (flat_map element_entries) (target_lists value target).
Proof.
  destruct target; try done. simpl. case_decide; [|done].
  destruct value; try done. simpl. by rewrite app_nil_r.
Qed.

Lemma node_entries_lists n :
  node_entries n = flat_map (flat_map element_entries) (node_lists n).
Proof.
  destruct n; try done. simpl.
  induction targets as [|t targets IH]; [done|]. simpl.
  by rewrite flat_map_app, <- IH, target_entries_lists.
Qed.

Lemma structural_paths_lists tree :
  structural_paths tree = flat_map (flat_map element_entries) (json_lists tree).
Proof.
  unfold structural_paths, json_lists.
  induction (Ast.walk tree) as [|n l IH]; [done|]. simpl.
  by rewrite flat_map_app, <- IH, node_entries_lists.
Qed.

Lemma parse_train_py_structural ast_parse fs file_path content tree info :
  fs file_path = File content ->
  ast_parse content = Ok tree ->
  outcome (parse_train_py ast_parse fs file_path) = Ok (Some info) ->
  json_paths info = flat_map (flat_map element_entries) (json_lists tree).
Proof.
  intros Hf Hp Ho. rewrite (parse_train_py_file _ _ _ _ Hf (parse_train_py_stage_fits _ _ _ _ _ Hf Ho)), Hp
    in Ho.
  simpl in Ho. injection Ho as <-. simpl. apply structural_paths_lists.
Qed.

(** C3, as the specification states it, fails: an element that is neither a
    constant nor a call is dropped, not replaced by the sentinel.  For
    [json_paths = ['a.json', base + 'b.json']] the walk stores one entry,
    the specification two. *)
Lemma structural_paths_drop_other :
  let result :=
    json_paths <$>
      returned (parse_train_py Sample.parser
                  (Sample.one_file TRAIN_SCRIPT_PATH Sample.concat_text)
                  TRAIN_SCRIPT_PATH) in
  json_lists Sample.concat_tree = [Sample.concat_elts] /\
  result = Some [Ast.CStr (str "a.json")] /\
  result <> Some (spec_paths Sample.concat_elts) /\
  length <$> result <> Some (length Sample.concat_elts).
Proof. repeat split; vm_compute; done. Qed.

(** C3, amended: on a parseable script the result is made, assignment by
    assignment in the order of the walk, of the lists assigned to
    [json_paths]; of each list it holds, in order, the value of every
    constant element and the sentinel for every call, and leaves out every
    other element.  For one assignment the result is as long as the list
    exactly when the list holds constants and calls only. *)
Theorem structural_paths_of_list ast_parse fs file_path content tree info :
  fs file_path = File content ->
  ast_parse content = Ok tree ->
  outcome (parse_train_py ast_parse fs file_path) = Ok (Some info) ->
  json_paths info =
    flat_map (fun elts => List.map entry_of (List.filter kept elts)) (json_lists tree) /\
  (forall elts,
      json_lists tree = [elts] ->
      json_paths info = List.map entry_of (List.filter kept elts) /\
      (forallb kept elts = true <-> length (json_paths info) = length elts) /\
      (forallb kept elts = true -> json_paths info = List.map entry_of elts)).
Proof.
  intros Hf Hp Ho.
  rewrite (parse_train_py_structural _ _ _ _ _ _ Hf Hp Ho).
  assert (Hall : forall elts, forallb kept elts = true -> List.filter kept elts = elts).
  { induction elts as [|e l IH]; [done|]. simpl.
    intros [-> Hl]%andb_prop. by rewrite IH. }
  split.
  - induction (json_lists tree) as [|elts lists IH]; [done|]. simpl.
    by rewrite IH, flat_map_element_entries.
  - intros elts ->. simpl. rewrite app_nil_r, flat_map_element_entries.
    split; [done|]. split.
    + rewrite length_map. split.
      * intros H. by rewrite (Hall _ H).
      * intros Hlen. clear -Hlen. induction elts as [|e l IH]; [done|].
        simpl in *. pose proof (List.filter_length_le kept l).
        destruct (kept e); simpl in *; [apply IH; lia | lia].
    + intros H. by rewrite (Hall _ H).
Qed.

Lemma structural_paths_of_list_witness :
  exists info,
    outcome (parse_train_py Sample.parser
               (Sample.one_file TRAIN_SCRIPT_PATH Sample.guarded_text)
               TRAIN_SCRIPT_PATH) = Ok (Some info) /\
    json_paths info =
      [Ast.CStr (str "data/a.json"); Ast.CStr DYNAMIC_PATH; Ast.CStr (str "data/c.json")].
Proof.
  eexists. split; [vm_compute; reflexivity|].
  refine (proj2 (proj2 (proj2 (structural_paths_of_list
           Sample.parser
           (Sample.one_file TRAIN_SCRIPT_PATH Sample.guarded_text) TRAIN_SCRIPT_PATH
           Sample.guarded_text Sample.guarded_tree _ _ _ _) Sample.guarded_elts _)) _).
  - vm_compute; reflexivity.
  - vm_compute; reflexivity.
  - vm_compute; reflexivity.
  - vm_compute; reflexivity.
  - reflexivity.
Defined.

(** C10: every constant element is stored as it is, whatever its type: a
    list of constants gives exactly their values, so an integer, a boolean
    or [None] in the list is an entry of [json_paths] that is not a string. *)
Theorem structural_paths_constants ast_parse fs file_path content tree values info :
  fs file_path = File content ->
  ast_parse content = Ok tree ->
  json_lists tree = [List.map Ast.Constant values] ->
  outcome (parse_train_py ast_parse fs file_path) = Ok (Some info) ->
  json_paths info = values.
Proof.
  intros Hf Hp Hl Ho.
  rewrite (parse_train_py_structural _ _ _ _ _ _ Hf Hp Ho), Hl. simpl.
  rewrite app_nil_r. clear. induction values as [|v l IH]; [done|].
  simpl. by rewrite IH.
Qed.

Lemma structural_paths_constants_witness :
  exists info,
    outcome (parse_train_py Sample.parser
               (Sample.one_file TRAIN_SCRIPT_PATH Sample.typed_text)
               TRAIN_SCRIPT_PATH) = Ok (Some info) /\
    json_paths info = [Ast.CStr (str "a.json"); Ast.CInt 7; Ast.CBool true; Ast.CNone].
Proof.
  eexists. split; [vm_compute; reflexivity|].
  apply (structural_paths_constants
           Sample.parser
           (Sample.one_file TRAIN_SCRIPT_PATH Sample.typed_text) TRAIN_SCRIPT_PATH
           Sample.typed_text Sample.typed_tree Sample.typed_values).
  - vm_compute; reflexivity.
  - vm_compute; reflexivity.
  - vm_compute; reflexivity.
  - vm_compute; reflexivity.
Defined.

(** ** The textual tier *)






















(** ** The configuration document *)

Section ParseYamlConfig.

Variable yaml_safe_load : list ascii -> result pyval.

Lemma parse_yaml_config_missing fs yaml_path :
  fs yaml_path = Missing ->
  parse_yaml_config yaml_safe_load fs yaml_path =
  ([YamlNotFound yaml_path], Ok initial_yaml_info).
Proof. intros Hf. unfold parse_yaml_config, run, path_exists. by rewrite Hf. Qed.

Lemma sub_mapping_get d key m :
  sub_mapping d key = Some m -> default (VDict []) (d !! key) = VDict m.
Proof.
  unfold sub_mapping. destruct (d !! key) as [[]|]; simpl; congruence.
Qed.

(** The document as far as [model.params]. *)
Lemma parse_yaml_config_params fs yaml_path f config model params :
  fs yaml_path = File f ->
  yaml_safe_load f = Ok (VDict config) ->
  sub_mapping config (str "model") = Some model ->
  sub_mapping model (str "params") = Some params ->
  parse_yaml_config yaml_safe_load fs yaml_path =
  let inj := default (VStr (str "Not Set")) (params !! str "context_injection_config") in
  match default (VDict []) (params !! str "embedding_manager_config") with
  | VDict emb =>
      match default (VDict []) (emb !! str "params") with
      | VDict emb_conf =>
          ([], Ok (YamlInfo inj
                     (default (VBool false) (emb_conf !! str "use_calligraphy_style"))))
      | _ => ([YamlFailed AttributeError], Ok (YamlInfo inj (VStr (str "Unknown"))))
      end
  | _ => ([YamlFailed AttributeError], Ok (YamlInfo inj (VStr (str "Unknown"))))
  end.
Proof.
  intros Hf Hl Hm Hp. unfold parse_yaml_config, run, path_exists, read_file.
  rewrite Hf. cbn [negb].
  unfold bind, try_except, lift, ret, raise, get, print, modify, py_get; simpl.
  rewrite Hl. simpl.
  rewrite (sub_mapping_get _ _ _ Hm). simpl.
  rewrite (sub_mapping_get _ _ _ Hp). simpl.
  destruct (default (VDict []) (params !! str "embedding_manager_config")) as [| | | | |emb| |];
    try done.
  destruct (default (VDict []) (emb !! str "params")); done.
Qed.

(** [parse_yaml_config] returns, whatever the file and the loader do. *)
Lemma parse_yaml_config_returns fs yaml_path :
  exists info, outcome (parse_yaml_config yaml_safe_load fs yaml_path) = Ok info.
Proof.
  unfold parse_yaml_config, run, path_exists, read_file.
  destruct (fs yaml_path) as [|e|f]; cbn [negb];
    unfold bind, try_except, lift, ret, raise, get, print, modify, py_get; simpl;
    [by eexists | by eexists |].
  destruct (yaml_safe_load f) as [config|e]; simpl; [|by eexists].
  destruct config as [| | | | |d| |]; simpl; try by eexists.
  destruct (default (VDict []) (d !! str "model")) as [| | | | |d1| |]; simpl; try by eexists.
  destruct (default (VDict []) (d1 !! str "params")) as [| | | | |d2| |]; simpl; try by eexists.
  destruct (default (VDict []) (d2 !! str "embedding_manager_config")) as [| | | | |d3| |];
    simpl; try by eexists.
  destruct (default (VDict []) (d3 !! str "params")) as [| | | | |d4| |];
    simpl; by eexists.
Qed.

End ParseYamlConfig.

(** C5: when the document file does not exist, the resolver returns, and
    both fields are ["Unknown"]. *)
Theorem missing_document_unknown yaml_safe_load fs yaml_path :
  fs yaml_path = Missing ->
  exists info,
    outcome (parse_yaml_config yaml_safe_load fs yaml_path) = Ok info /\
    injection info = VStr (str "Unknown") /\
    use_calligraphy info = VStr (str "Unknown").
Proof.
  intros Hf. rewrite (parse_yaml_config_missing _ _ _ Hf). by eexists.
Qed.

Lemma missing_document_unknown_witness :
  exists info,
    outcome (parse_yaml_config Sample.loader
               (Sample.one_file TRAIN_SCRIPT_PATH (Sample.branches "1"))
               DEFAULT_YAML_PATH) = Ok info /\
    injection info = VStr (str "Unknown") /\
    use_calligraphy info = VStr (str "Unknown").
Proof.
  apply (missing_document_unknown Sample.loader
           (Sample.one_file TRAIN_SCRIPT_PATH (Sample.branches "1")) DEFAULT_YAML_PATH).
  vm_compute; reflexivity.
Defined.

(** C6: in a document of nested mappings ([model] and [params] are mappings
    where they are present) without [embedding_manager_config], the resolver
    returns without a diagnostic and [use_calligraphy] is [False]. *)
Theorem absent_embedding_config_false yaml_safe_load fs yaml_path f config model params :
  fs yaml_path = File f ->
  yaml_safe_load f = Ok (VDict config) ->
  sub_mapping config (str "model") = Some model ->
  sub_mapping model (str "params") = Some params ->
  params !! str "embedding_manager_config" = None ->
  exists info,
    parse_yaml_config yaml_safe_load fs yaml_path = ([], Ok info) /\
    use_calligraphy info = VBool false.
Proof.
  intros Hf Hl Hm Hp He.
  rewrite (parse_yaml_config_params _ _ _ _ _ _ _ Hf Hl Hm Hp), He. simpl.
  by eexists.
Qed.

Lemma absent_embedding_config_false_witness :
  exists info,
    parse_yaml_config Sample.loader
      (Sample.one_file DEFAULT_YAML_PATH Sample.plain_yaml) DEFAULT_YAML_PATH
    = ([], Ok info) /\
    use_calligraphy info = VBool false.
Proof.
  apply (absent_embedding_config_false
           Sample.loader
           (Sample.one_file DEFAULT_YAML_PATH Sample.plain_yaml) DEFAULT_YAML_PATH
           Sample.plain_yaml (Sample.document Sample.plain_params)
           (Sample.model_of Sample.plain_params) Sample.plain_params).
  - vm_compute; reflexivity.
  - reflexivity.
  - vm_compute; reflexivity.
  - vm_compute; reflexivity.
  - vm_compute; reflexivity.
Defined.

(** C9: when [context_injection_config] can be read and
    [embedding_manager_config] holds a value that is not a mapping, the
    lookup on it raises, the resolver reports it and returns: [injection]
    holds the value read before, [use_calligraphy] is still ["Unknown"]. *)
Theorem partial_degradation yaml_safe_load fs yaml_path f config model params v :
  fs yaml_path = File f ->
  yaml_safe_load f = Ok (VDict config) ->
  sub_mapping config (str "model") = Some model ->
  sub_mapping model (str "params") = Some params ->
  params !! str "embedding_manager_config" = Some v ->
  is_mapping v = false ->
  exists info,
    parse_yaml_config yaml_safe_load fs yaml_path =
      ([YamlFailed AttributeError], Ok info) /\
    injection info =
      default (VStr (str "Not Set")) (params !! str "context_injection_config") /\
    use_calligraphy info = VStr (str "Unknown").
Proof.
  intros Hf Hl Hm Hp He Hv.
  rewrite (parse_yaml_config_params _ _ _ _ _ _ _ Hf Hl Hm Hp), He. simpl.
  destruct v; try done; by eexists.
Qed.

Lemma partial_degradation_witness :
  exists info,
    parse_yaml_config Sample.loader
      (Sample.one_file DEFAULT_YAML_PATH Sample.odd_yaml) DEFAULT_YAML_PATH
    = ([YamlFailed AttributeError], Ok info) /\
    injection info = Sample.injection_config /\
    use_calligraphy info = VStr (str "Unknown").
Proof.
  apply (partial_degradation
           Sample.loader
           (Sample.one_file DEFAULT_YAML_PATH Sample.odd_yaml) DEFAULT_YAML_PATH
           Sample.odd_yaml (Sample.document Sample.odd_params)
           (Sample.model_of Sample.odd_params) Sample.odd_params
           (VStr (str "disabled"))).
  - vm_compute; reflexivity.
  - reflexivity.
  - vm_compute; reflexivity.
  - vm_compute; reflexivity.
  - vm_compute; reflexivity.
  - reflexivity.
Defined.

(** ** [main] *)

Section Main.

Variable ast_parse : list ascii -> result Ast.node.
Variable yaml_safe_load : list ascii -> result pyval.
Variable os_makedirs write_report : list ascii -> result unit.
Variable timestamp : list ascii.

Lemma main_missing fs :
  fs TRAIN_SCRIPT_PATH = Missing ->
  main ast_parse yaml_safe_load os_makedirs write_report timestamp fs =
  ([Reading; ScriptNotFound TRAIN_SCRIPT_PATH], Ok None).
Proof.
  intros Hf. unfold main, run, bind, call, print.
  by rewrite (parse_train_py_missing _ _ _ Hf).
Qed.

Lemma main_unreadable fs e :
  fs TRAIN_SCRIPT_PATH = Unreadable e ->
  outcome (main ast_parse yaml_safe_load os_makedirs write_report timestamp fs) = Raise e.
Proof.
  intros Hf. unfold main, run, bind, call, print.
  by rewrite (parse_train_py_unreadable _ _ _ _ Hf).
Qed.

Lemma main_long_stage fs content :
  fs TRAIN_SCRIPT_PATH = File content ->
  (INT_MAX_STR_DIGITS < length (stage_digits content))%nat ->
  outcome (main ast_parse yaml_safe_load os_makedirs write_report timestamp fs)
  = Raise ValueError.
Proof.
  intros Hf Hlong. unfold main, run, bind, call, print.
  by rewrite (parse_train_py_long_stage _ _ _ _ Hf Hlong).
Qed.

(** After the two calls, [main] ends as [finish] says. *)
Lemma main_finish fs train yaml :
  outcome (parse_train_py ast_parse fs TRAIN_SCRIPT_PATH) = Ok (Some train) ->
  outcome (parse_yaml_config yaml_safe_load fs
             (or_default (config_path train) DEFAULT_YAML_PATH)) = Ok yaml ->
  outcome (main ast_parse yaml_safe_load os_makedirs write_report timestamp fs) =
  finish os_makedirs write_report timestamp train yaml.
Proof.
  intros Ht Hy. unfold main, finish, run, bind, call, print, ret, lift, outcome in *.
  destruct (parse_train_py ast_parse fs TRAIN_SCRIPT_PATH) as [out r].
  simpl in Ht. subst r. cbn [fst snd].
  destruct (parse_yaml_config yaml_safe_load fs _) as [out' r'].
  simpl in Hy. subst r'. cbn [fst snd].
  destruct (format_report train yaml tt) as [[out1 s1] [[]|e1]]; cbn [fst snd]; [|done].
  destruct (os_makedirs _) as [[]|e2]; cbn [fst snd]; [|done].
  by destruct (write_report _) as [[]|e3].
Qed.

(** On a script that can be read and whose stage [int] accepts, [main] has
    the structure of [parse_train_py] and that of [parse_yaml_config] for
    the path chosen at line 138, and ends as [finish] says. *)
Lemma main_file fs content :
  fs TRAIN_SCRIPT_PATH = File content ->
  (length (stage_digits content) <= INT_MAX_STR_DIGITS)%nat ->
  exists train_info yaml_info,
    outcome (parse_train_py ast_parse fs TRAIN_SCRIPT_PATH) = Ok (Some train_info) /\
    outcome (parse_yaml_config yaml_safe_load fs
               (or_default (config_path train_info) DEFAULT_YAML_PATH)) = Ok yaml_info /\
    outcome (main ast_parse yaml_safe_load os_makedirs write_report timestamp fs) =
      finish os_makedirs write_report timestamp train_info yaml_info.
Proof.
  intros Hf Hfit.
  assert (exists info,
             outcome (parse_train_py ast_parse fs TRAIN_SCRIPT_PATH) = Ok (Some info))
    as [info Hi].
  { rewrite (parse_train_py_file ast_parse _ _ _ Hf Hfit).
    destruct (ast_parse content); by eexists. }
  destruct (parse_yaml_config_returns yaml_safe_load fs
              (or_default (config_path info) DEFAULT_YAML_PATH)) as [yi Hy].
  exists info, yi. split; [done|]. split; [done|]. by apply main_finish.
Qed.

(** What a report that [main] returns holds, and what went well on the
    way. *)
Lemma main_report fs content r :
  fs TRAIN_SCRIPT_PATH = File content ->
  outcome (main ast_parse yaml_safe_load os_makedirs write_report timestamp fs)
  = Ok (Some r) ->
  outcome (parse_train_py ast_parse fs TRAIN_SCRIPT_PATH) = Ok (Some (r_train r)) /\
  r_yaml_file r = or_default (config_path (r_train r)) DEFAULT_YAML_PATH /\
  outcome (parse_yaml_config yaml_safe_load fs (r_yaml_file r)) = Ok (r_yaml r) /\
  r_save_dir r = path_join (root_dir (r_train r)) (str "manual_logs") /\
  r_save_path r = save_path timestamp (r_train r) /\
  formats (r_train r) (r_yaml r) /\
  os_makedirs (r_save_dir r) = Ok tt /\
  write_report (r_save_path r) = Ok tt.
Proof.
  intros Hf Hm.
  destruct (le_lt_dec (length (stage_digits content)) INT_MAX_STR_DIGITS) as [Hfit|Hlong];
    [|by rewrite (main_long_stage _ _ Hf Hlong) in Hm].
  destruct (main_file _ _ Hf Hfit) as (ti & yi & Ht & Hy & Hr).
  rewrite Hr in Hm. unfold finish in Hm. unfold formats.
  destruct (outcome (run (format_report ti yi) tt)) as [[]|e1] eqn:Hfmt; [|done].
  destruct (os_makedirs _) as [[]|e2] eqn:Hd; [|done].
  destruct (write_report _) as [[]|e3] eqn:Hw; [|done].
  injection Hm as <-. cbn [r_train r_yaml r_yaml_file r_save_dir r_save_path].
  by repeat split.
Qed.

End Main.

(** The first quoted assignment to [config_path] on one line gives the
    path; [config_path = ''] gives the empty string. *)
Lemma search_config_re pre ws1 ws2 q1 value q2 post :
  first_at (str "config_path") pre ->
  Forall (fun c => is_space c = true) ws1 ->
  Forall (fun c => is_space c = true) ws2 ->
  is_quote q1 = true -> is_quote q2 = true ->
  Forall (fun c => not_newline c = true /\ is_quote c = false) value ->
  Re.group1 <$>
    Re.search config_re
      (pre ++ assignment_text (str "config_path") ws1 ws2 q1 value q2 ++ post)
  = Some value.
Proof.
  intros Hpre Hws1 Hws2 Hq1 Hq2 Hv. unfold config_re.
  pose proof (exec_quoted_assignment (str "config_path") not_newline Re.no_group
                ws1 ws2 q1 value q2 post Hws1 Hws2 Hq1 Hq2 Hv) as Hq.
  unfold assignment_text, quoted_assignment in *.
  rewrite <- !(assoc_L (++)) in *.
  rewrite search_skip by done.
  by rewrite (search_here _ _ _ Hq).
Qed.

(** C8: when the [config_path] of the script is absent or empty, [main]
    resolves the configuration from the default path: the report names it,
    and its configuration fields are those of the default document. *)
Theorem falsy_config_path_uses_default ast_parse yaml_safe_load os_makedirs write_report
    timestamp fs content r :
  fs TRAIN_SCRIPT_PATH = File content ->
  outcome (main ast_parse yaml_safe_load os_makedirs write_report timestamp fs)
  = Ok (Some r) ->
  config_path (r_train r) = None \/ config_path (r_train r) = Some [] ->
  r_yaml_file r = DEFAULT_YAML_PATH /\
  outcome (parse_yaml_config yaml_safe_load fs DEFAULT_YAML_PATH) = Ok (r_yaml r).
Proof.
  intros Hf Hm Hc.
  destruct (main_report _ _ _ _ _ _ _ _ Hf Hm) as (_ & Hfile & Hy & _).
  assert (Hd : r_yaml_file r = DEFAULT_YAML_PATH).
  { rewrite Hfile. by destruct Hc as [-> | ->]. }
  split; [done|]. by rewrite <- Hd.
Qed.

Lemma falsy_config_path_uses_default_witness :
  exists r,
    outcome (main Sample.parser Sample.loader Sample.makedirs Sample.writer Sample.now
               (Sample.two_files TRAIN_SCRIPT_PATH Sample.empty_config_script
                  DEFAULT_YAML_PATH Sample.plain_yaml)) = Ok (Some r) /\
    config_path (r_train r) = Some [] /\
    r_yaml_file r = DEFAULT_YAML_PATH /\
    injection (r_yaml r) = Sample.injection_config.
Proof.
  eexists. split; [vm_compute; reflexivity|]. split; [reflexivity|].
  destruct (falsy_config_path_uses_default Sample.parser
              Sample.loader Sample.makedirs Sample.writer Sample.now
              (Sample.two_files TRAIN_SCRIPT_PATH Sample.empty_config_script
                 DEFAULT_YAML_PATH Sample.plain_yaml)
              Sample.empty_config_script _ eq_refl eq_refl (or_intror eq_refl))
    as [Hfile Hyaml].
  split; [exact Hfile|]. reflexivity.
Defined.

(** ** Whole scripts *)

(** The usual layout: the stage line first, the branch after it. *)
Lemma stage1_layout ast_parse fs file_path
    head between mid ws1 ws2 q1 value q2 post info :
  let pre := head ++ str "TRAINING_STAGE = 1" ++ newline :: between in
  fs file_path =
    File (pre ++ str "if TRAINING_STAGE == 1:" ++ mid ++
          assignment_text (str "resume_path") ws1 ws2 q1 value q2 ++ post) ->
  outcome (parse_train_py ast_parse fs file_path) = Ok (Some info) ->
  first_at (str "TRAINING_STAGE") head -> line_start head ->
  first_at (str "if TRAINING_STAGE == 1:") pre ->
  first_at (str "resume_path") mid ->
  Forall (fun c => is_space c = true) ws1 ->
  Forall (fun c => is_space c = true) ws2 ->
  is_quote q1 = true -> is_quote q2 = true ->
  Forall (fun c => is_quote c = false) value ->
  training_stage info = Some 1%Z /\
  resume_path info = value /\ base_ckpt_source info = STAGE1_LABEL.
Proof.
  intros pre Hf Ho Hhead Hline Hpre Hmid Hws1 Hws2 Hq1 Hq2 Hv.
  assert (Hstage : training_stage info = Some 1%Z).
  { destruct (parse_train_py_scalars _ _ _ _ _ Hf Ho) as [paths ->]. simpl.
    unfold pre. rewrite <- !(assoc_L (++)).
    by apply (stage_one head). }
  split; [done|].
  pose proof (parse_train_py_resume _ _ _ _ _ Hf Ho) as Hr.
  pose proof (search_stage1_re pre mid ws1 ws2 value post q1 q2
                Hws1 Hws2 Hq1 Hq2 Hv Hmid Hpre) as Hs.
  destruct (decide (training_stage info = Some 1%Z)); [|done].
  destruct (Re.search stage1_re _) as [m|]; [|done].
  simpl in Hs. injection Hs as Hs. injection Hr as -> ->. by rewrite Hs.
Qed.

(** The scenario of the specification: stage 2, the path of the [else:]
    branch, the injection mapping of the document, calligraphy [False], two
    dataset paths, and a report under [/out/manual_logs]. *)
Example scenario :
  main Sample.parser Sample.loader Sample.makedirs Sample.writer Sample.now
    (Sample.two_files TRAIN_SCRIPT_PATH Sample.scenario_script
       (str "cfg.yaml") Sample.plain_yaml) =
  ([Reading; ReportShown;
    ReportSaved (str "/out/manual_logs/config_check_20260101_120000_Stage2.txt")],
   Ok (Some {|
     r_train := {|
       training_stage := Some 2%Z;
       resume_path := str "/ckpt/base.ckpt";
       config_path := Some (str "cfg.yaml");
       root_dir := str "/out";
       json_paths := [Ast.CStr (str "a.json"); Ast.CStr (str "b.json")];
       base_ckpt_source := STAGE2_LABEL |};
     r_yaml := {|
       injection := Sample.injection_config;
       use_calligraphy := VBool false |};
     r_yaml_file := str "cfg.yaml";
     r_save_dir := str "/out/manual_logs";
     r_save_path := str "/out/manual_logs/config_check_20260101_120000_Stage2.txt" |})).
Proof. vm_compute. reflexivity. Qed.

(** * Further properties *)

(** ** What a match tells about the text *)

Section ReInversion.

Implicit Types (p : ascii -> bool) (rest : list Re.item) (st : Re.mstate).

Lemma exec_one_inv p rest st s m :
  Re.exec (Re.One p :: rest) st s = Some m ->
  exists c t, s = c :: t /\ p c = true /\ Re.exec rest st t = Some m.
Proof.
  destruct s as [|c t]; [done|]. rewrite exec_one.
  destruct (p c) eqn:Hp; [|done]. intros H. by exists c, t.
Qed.

Lemma exec_lit_inv w rest st s m :
  Re.exec (Re.lit w ++ rest) st s = Some m ->
  exists t, s = w ++ t /\ Re.exec rest st t = Some m.
Proof.
  revert s. induction w as [|a w IH]; intros s H.
  - by exists s.
  - change (Re.lit (a :: w) ++ rest) with (Re.One (is_char a) :: Re.lit w ++ rest) in H.
    apply exec_one_inv in H as (c & t & -> & Hc & H).
    apply is_char_true in Hc as <-.
    destruct (IH _ H) as (t' & -> & H'). by exists t'.
Qed.

Lemma exec_star_inv p rest st s m :
  Re.exec (Re.Star p :: rest) st s = Some m ->
  exists ws t, s = ws ++ t /\ Forall (fun c => p c = true) ws /\
               Re.exec rest st t = Some m.
Proof.
  induction s as [|c s IH]; rewrite exec_star_unfold; intros H.
  - by exists [], [].
  - destruct (p c) eqn:Hp; [|by exists [], (c :: s)].
    destruct (Re.exec (Re.Star p :: rest) st s) as [m'|] eqn:Hs.
    + injection H as <-. destruct (IH eq_refl) as (ws & t & -> & Hws & Ht).
      exists (c :: ws), t. split; [done|]. split; [by constructor | done].
    + by exists [], (c :: s).
Qed.

Lemma exec_lazy_inv p rest st s m :
  Re.exec (Re.LazyStar p :: rest) st s = Some m ->
  exists mid t, s = mid ++ t /\ Forall (fun c => p c = true) mid /\
                Re.exec rest st t = Some m.
Proof.
  induction s as [|c s IH]; rewrite exec_lazy_unfold; intros H.
  - destruct (Re.exec rest st []) eqn:Hr; [|done].
    injection H as <-. by exists [], [].
  - destruct (Re.exec rest st (c :: s)) eqn:Hr.
    + injection H as <-. by exists [], (c :: s).
    + destruct (p c) eqn:Hp; [|done].
      destruct (IH H) as (mid & t & -> & Hmid & Ht).
      exists (c :: mid), t. split; [done|]. split; [by constructor | done].
Qed.

(** The group [(x*?)] before a closing character: it holds what stands
    before the first closing character. *)
Lemma exec_capture_from_inv dot stop g v1 s m :
  Re.exec [Re.LazyStar dot; Re.GroupClose; Re.One stop]
    (Re.MState (Some (v1 ++ s)) g) s = Some m ->
  exists v2 q post,
    s = v2 ++ q :: post /\
    Forall (fun c => dot c = true /\ stop c = false) v2 /\ stop q = true /\
    Re.g_text m = Some (v1 ++ v2).
Proof.
  revert v1. induction s as [|c s IH]; intros v1; rewrite exec_lazy_unfold.
  - done.
  - change (Re.exec [Re.GroupClose; Re.One stop] ?st (c :: s))
      with (Re.exec [Re.One stop] (Re.close_group (Re.MState (Some (v1 ++ c :: s)) g) (c :: s))
              (c :: s)).
    rewrite exec_one. destruct (stop c) eqn:Hs.
    + intros [= <-]. exists [], c, s. split; [done|]. split; [done|]. split; [done|].
      unfold Re.close_group. cbn [Re.g_open Re.g_text]. rewrite length_app.
      replace (length v1 + length (c :: s) - length (c :: s))%nat with (length v1) by lia.
      by rewrite take_app_length, app_nil_r.
    + destruct (dot c) eqn:Hd; [|done]. intros H.
      specialize (IH (v1 ++ [c])). rewrite <- (assoc_L (++)) in IH.
      destruct (IH H) as (v2 & q & post & -> & Hv & Hq & Hg).
      exists (c :: v2), q, post. split; [done|]. split; [by constructor|].
      split; [done|]. by rewrite Hg, <- (assoc_L (++)).
Qed.

Lemma exec_capture_inv dot stop st s m :
  Re.exec [Re.GroupOpen; Re.LazyStar dot; Re.GroupClose; Re.One stop] st s = Some m ->
  exists value q post,
    s = value ++ q :: post /\
    Forall (fun c => dot c = true /\ stop c = false) value /\ stop q = true /\
    Re.g_text m = Some value.
Proof.
  rewrite exec_open. unfold Re.open_group. intros H.
  by apply (exec_capture_from_inv dot stop (Re.g_text st) []) in H.
Qed.

(** A search that succeeds matched at some place of the text; under [^]
    that place starts a line. *)
Lemma search_from_inv re bol s m :
  Re.search_from re bol s = Some m ->
  exists pre t,
    s = pre ++ t /\ Re.exec (Re.items re) Re.no_group t = Some m /\
    (Re.line_anchor re = true ->
     match last pre with None => bol = true | Some c => c = newline end).
Proof.
  revert bol. induction s as [|c s IH]; intros bol; simpl.
  - destruct (Re.line_anchor re && negb bol) eqn:Ha; [done|].
    destruct (Re.exec (Re.items re) Re.no_group []) eqn:He; [|done].
    intros [= <-]. exists [], []. split; [done|]. split; [done|].
    intros Hl. rewrite Hl in Ha. simpl in *. by destruct bol.
  - destruct (Re.line_anchor re && negb bol) eqn:Ha.
    + intros H. destruct (IH _ H) as (pre & t & -> & He & Hl).
      exists (c :: pre), t. split; [done|]. split; [done|].
      intros Hanc. specialize (Hl Hanc). rewrite last_cons.
      destruct (last pre); [done|]. by apply is_char_true in Hl.
    + destruct (Re.exec (Re.items re) Re.no_group (c :: s)) eqn:He.
      * intros [= <-]. exists [], (c :: s). split; [done|]. split; [done|].
        intros Hl. rewrite Hl in Ha. simpl in *. by destruct bol.
      * intros H. destruct (IH _ H) as (pre & t & -> & He' & Hl).
        exists (c :: pre), t. split; [done|]. split; [done|].
        intros Hanc. specialize (Hl Hanc). rewrite last_cons.
        destruct (last pre); [done|]. by apply is_char_true in Hl.
Qed.

Lemma search_inv re s m :
  Re.search re s = Some m ->
  exists pre t,
    s = pre ++ t /\ Re.exec (Re.items re) Re.no_group t = Some m /\
    (Re.line_anchor re = true -> line_start pre).
Proof.
  intros H. destruct (search_from_inv _ _ _ _ H) as (pre & t & -> & He & Hl).
  exists pre, t. split; [done|]. split; [done|].
  intros Ha. specialize (Hl Ha). unfold line_start. by destruct (last pre).
Qed.

End ReInversion.

(** ** The scalar fields, read back from the text *)

Lemma exec_equals_sign_inv rest st s m :
  Re.exec (equals_sign ++ rest) st s = Some m ->
  exists ws1 ws2 t,
    s = ws1 ++ str "=" ++ ws2 ++ t /\
    Forall (fun c => is_space c = true) ws1 /\
    Forall (fun c => is_space c = true) ws2 /\
    Re.exec rest st t = Some m.
Proof.
  unfold equals_sign. cbn [app]. intros H.
  apply exec_star_inv in H as (ws1 & t1 & -> & Hws1 & H).
  apply exec_one_inv in H as (c & t2 & -> & Hc & H).
  apply is_char_true in Hc as <-.
  apply exec_star_inv in H as (ws2 & t & -> & Hws2 & H).
  by exists ws1, ws2, t.
Qed.

Lemma exec_quoted_assignment_inv name dot st s m :
  Re.exec (quoted_assignment name dot) st s = Some m ->
  exists ws1 ws2 q1 value q2 post,
    s = assignment_text name ws1 ws2 q1 value q2 ++ post /\
    Forall (fun c => is_space c = true) ws1 /\
    Forall (fun c => is_space c = true) ws2 /\
    is_quote q1 = true /\ is_quote q2 = true /\
    Forall (fun c => dot c = true /\ is_quote c = false) value /\
    Re.g_text m = Some value.
Proof.
  unfold quoted_assignment. intros H.
  apply exec_lit_inv in H as (t0 & -> & H).
  apply exec_equals_sign_inv in H as (ws1 & ws2 & t1 & -> & Hws1 & Hws2 & H).
  apply exec_one_inv in H as (q1 & t2 & -> & Hq1 & H).
  apply exec_capture_inv in H as (value & q2 & post & -> & Hv & Hq2 & Hg).
  exists ws1, ws2, q1, value, q2, post.
  split; [|done]. unfold assignment_text.
  rewrite <- !(assoc_L (++)). simpl. by rewrite <- (assoc_L (++)).
Qed.

(** A greedy star at the end of the pattern takes the whole run. *)
Lemma exec_star_end p st s :
  exists ws t,
    s = ws ++ t /\ Forall (fun c => p c = true) ws /\ stops p t /\
    Re.exec [Re.Star p; Re.GroupClose] st s = Some (Re.close_group st t).
Proof.
  induction s as [|c s IH]; rewrite exec_star_unfold.
  - by exists [], [].
  - destruct (p c) eqn:Hp; [|by exists [], (c :: s)].
    destruct IH as (ws & t & -> & Hws & Ht & ->).
    exists (c :: ws), t. split; [done|]. split; [by constructor | done].
Qed.

Lemma exec_digits_inv st s m :
  Re.exec ([Re.GroupOpen] ++ Re.plus is_digit ++ [Re.GroupClose]) st s = Some m ->
  exists d ds post,
    s = (d :: ds) ++ post /\ Forall (fun c => is_digit c = true) (d :: ds) /\
    stops is_digit post /\ Re.g_text m = Some (d :: ds).
Proof.
  unfold Re.plus. cbn [app]. rewrite exec_open. intros H.
  apply exec_one_inv in H as (d & t & -> & Hd & H).
  destruct (exec_star_end is_digit (Re.open_group st (d :: t)) t)
    as (ds & post & -> & Hds & Hpost & He).
  rewrite He in H. injection H as <-.
  exists d, ds, post. split; [done|]. split; [by constructor|]. split; [done|].
  unfold Re.close_group, Re.open_group. cbn [Re.g_open Re.g_text].
  f_equal. change (d :: ds ++ post) with ((d :: ds) ++ post).
  rewrite length_app.
  replace (length (d :: ds) + length post - length post)%nat with (length (d :: ds)) by lia.
  by rewrite take_app_length.
Qed.

Lemma digit_value_range c : is_digit c = true -> (0 <= digit_value c <= 9)%Z.
Proof.
  unfold is_digit, digit_value. intros [H1 H2]%andb_prop.
  apply N.leb_le in H1, H2. lia.
Qed.

Lemma int_of_digits_nonneg ds :
  Forall (fun c => is_digit c = true) ds -> (0 <= int_of_digits ds)%Z.
Proof.
  unfold int_of_digits. intros H.
  assert (Hacc : forall acc, (0 <= acc)%Z ->
            (0 <= fold_left (fun acc c => 10 * acc + digit_value c) ds acc)%Z).
  { induction H as [|c ds Hc _ IH]; intros acc Ha; [done|]. simpl.
    apply IH. pose proof (digit_value_range c Hc). lia. }
  by apply Hacc.
Qed.

(** ** The first place where a pattern matches *)

Section FirstMatch.

Implicit Types (re : Re.regex) (pre t rest : list ascii).

(** A search finds the match at the first place where the pattern does not
    fail; under [^] only the places that start a line are tried ([bol]
    tells whether the text itself starts one). *)
Lemma search_from_first re bol pre t m :
  (forall a b, pre = a ++ b -> b <> [] ->
     (Re.line_anchor re = true ->
      match last a with None => bol = true | Some c => c = newline end) ->
     Re.exec (Re.items re) Re.no_group (b ++ t) = None) ->
  (Re.line_anchor re = true ->
   match last pre with None => bol = true | Some c => c = newline end) ->
  Re.exec (Re.items re) Re.no_group t = Some m ->
  Re.search_from re bol (pre ++ t) = Some m.
Proof.
  revert bol. induction pre as [|c pre IH]; intros bol Hnone Hbol Hm.
  - simpl app. destruct t as [|c t]; simpl.
    + destruct (Re.line_anchor re) eqn:Ha; simpl.
      * rewrite (Hbol eq_refl). simpl. by rewrite Hm.
      * by rewrite Hm.
    + destruct (Re.line_anchor re) eqn:Ha; simpl.
      * rewrite (Hbol eq_refl). simpl. by rewrite Hm.
      * by rewrite Hm.
  - cbn [app Re.search_from].
    assert (Hhere : (if Re.line_anchor re && negb bol then None
                     else Re.exec (Re.items re) Re.no_group (c :: pre ++ t)) = None).
    { destruct (Re.line_anchor re && negb bol) eqn:Ha; [done|].
      apply (Hnone [] (c :: pre)); [done | done |].
      intros Hl. rewrite Hl in Ha. simpl in *. by destruct bol. }
    rewrite Hhere. apply IH; [| |done].
    + intros a b -> Hb Hl. apply (Hnone (c :: a) b); [done | done |].
      intros Ha. specialize (Hl Ha). rewrite last_cons.
      destruct (last a); [done|]. by apply is_char_true.
    + intros Ha. specialize (Hbol Ha). rewrite last_cons in Hbol.
      destruct (last pre); [done|]. by apply is_char_true.
Qed.

Lemma search_first re pre t m :
  (forall a b, pre = a ++ b -> b <> [] ->
     (Re.line_anchor re = true -> line_start a) ->
     Re.exec (Re.items re) Re.no_group (b ++ t) = None) ->
  (Re.line_anchor re = true -> line_start pre) ->
  Re.exec (Re.items re) Re.no_group t = Some m ->
  Re.search re (pre ++ t) = Some m.
Proof.
  intros Hnone Hl Hm. apply search_from_first; [| |done].
  - intros a b Hpre Hb Ha. apply (Hnone a b Hpre Hb).
    intros Hanc. specialize (Ha Hanc). unfold line_start. by destruct (last a).
  - intros Hanc. specialize (Hl Hanc). unfold line_start in Hl. by destruct (last pre).
Qed.

(** The places where a pattern fails, computed. *)
Lemma fails_inside_spec re bol pre rest :
  fails_inside re bol pre rest = true ->
  forall a b, pre = a ++ b -> b <> [] ->
    (Re.line_anchor re = true ->
     match last a with None => bol = true | Some c => c = newline end) ->
    Re.exec (Re.items re) Re.no_group (b ++ rest) = None.
Proof.
  revert bol. induction pre as [|c pre IH]; intros bol Hf a b Hpre Hb Hl.
  - symmetry in Hpre. apply app_eq_nil in Hpre as [_ ->]. done.
  - cbn [fails_inside] in Hf.
    destruct (if Re.line_anchor re && negb bol then None
              else Re.exec (Re.items re) Re.no_group ((c :: pre) ++ rest)) eqn:Hhere;
      [done|].
    destruct a as [|c' a]; simpl in Hpre.
    + subst b. destruct (Re.line_anchor re) eqn:Ha; simpl in Hhere.
      * rewrite (Hl eq_refl) in Hhere. done.
      * done.
    + injection Hpre as <- ->. apply (IH _ Hf a b eq_refl Hb).
      intros Ha. specialize (Hl Ha). rewrite last_cons in Hl.
      destruct (last a); [done|]. by apply is_char_true.
Qed.

End FirstMatch.

(** ** Where the patterns of the script match *)

(** A quoted assignment is what the assignment pattern matches. *)
Lemma exec_assignment_inv name dot st s m :
  Re.exec (quoted_assignment name dot) st s = Some m -> assignment name dot s.
Proof.
  intros H. apply exec_quoted_assignment_inv in H
    as (ws1 & ws2 & q1 & value & q2 & post & -> & H1 & H2 & Hq1 & Hq2 & Hv & _).
  by exists ws1, ws2, q1, value, q2, post.
Qed.

Lemma exec_assignment name dot st s :
  assignment name dot s -> Re.exec (quoted_assignment name dot) st s <> None.
Proof.
  intros (ws1 & ws2 & q1 & value & q2 & post & -> & H1 & H2 & Hq1 & Hq2 & Hv).
  by rewrite (exec_quoted_assignment name dot st ws1 ws2 q1 value q2 post).
Qed.

Lemma exec_no_assignment name dot st s :
  ~ assignment name dot s -> Re.exec (quoted_assignment name dot) st s = None.
Proof.
  intros Hn. destruct (Re.exec _ st s) as [m|] eqn:He; [|done].
  by apply exec_assignment_inv in He.
Qed.

(** A stage line is what the stage pattern matches. *)
Lemma exec_stage_line_inv st s m :
  Re.exec (Re.items stage_re) st s = Some m -> stage_line s.
Proof.
  unfold stage_re. cbn [Re.items]. intros He.
  apply exec_lit_inv in He as (t0 & -> & He).
  apply exec_equals_sign_inv in He as (ws1 & ws2 & t1 & -> & Hws1 & Hws2 & He).
  apply exec_digits_inv in He as (d & ds & post & -> & Hds & _ & _).
  exists ws1, ws2, d, (ds ++ post). split.
  - unfold stage_text. by rewrite <- !(assoc_L (++)).
  - by inversion_clear Hds.
Qed.

Lemma exec_stage_line st s :
  stage_line s -> Re.exec (Re.items stage_re) st s <> None.
Proof.
  intros (ws1 & ws2 & d & post & -> & Hws1 & Hws2 & Hd).
  unfold stage_re, stage_text. cbn [Re.items]. rewrite <- !(assoc_L (++)).
  rewrite exec_lit. unfold equals_sign. change (str "=") with ["="%char]. cbn [app].
  destruct (exec_star_end is_digit (Re.open_group st (d :: post)) post)
    as (ds & t & _ & _ & _ & He).
  erewrite exec_star; [done | done | done |].
  rewrite exec_one, is_char_refl.
  erewrite exec_star; [done | done | by apply is_digit_not_space |].
  rewrite exec_open. unfold Re.plus. cbn [app]. rewrite exec_one, Hd. exact He.
Qed.

Lemma exec_no_stage_line st s :
  ~ stage_line s -> Re.exec (Re.items stage_re) st s = None.
Proof.
  intros Hn. destruct (Re.exec _ st s) as [m|] eqn:He; [|done].
  by apply exec_stage_line_inv in He.
Qed.

(** The places computed by [fails_inside] are those of the two forms. *)
Lemma none_inside_checked name dot pre rest :
  fails_inside (Re.Regex false (quoted_assignment name dot)) true pre rest = true ->
  none_inside (assignment name dot) pre rest.
Proof.
  intros Hf a b Hpre Hb HP.
  apply (exec_assignment name dot Re.no_group) in HP. apply HP.
  by apply (fails_inside_spec _ _ _ _ Hf a b Hpre Hb).
Qed.

Lemma no_line_inside_checked pre rest :
  fails_inside stage_re true pre rest = true ->
  no_line_inside stage_line pre rest.
Proof.
  intros Hf a b Hpre Hb Hl HP.
  apply (exec_stage_line Re.no_group) in HP. apply HP.
  apply (fails_inside_spec _ _ _ _ Hf a b Hpre Hb).
  intros _. unfold line_start in Hl. by destruct (last a).
Qed.

(** A word that is not inside [pre] starts nothing there. *)
Lemma none_inside_first_at name dot pre rest :
  first_at name pre -> none_inside (assignment name dot) pre (name ++ rest).
Proof.
  intros Hf a b -> Hb (ws1 & ws2 & q1 & value & q2 & post & Heq & _).
  induction a as [|c a IH].
  - destruct b as [|c b]; [done|]. simpl in Hf.
    apply first_at_cons in Hf as [Hc _]. specialize (Hc rest).
    change (c :: b ++ name ++ rest) with ((c :: b) ++ name ++ rest) in Hc.
    rewrite Heq in Hc. unfold assignment_text in Hc.
    rewrite <- !(assoc_L (++)) in Hc. by rewrite startswith_app in Hc.
  - apply IH. simpl in Hf. by apply first_at_cons in Hf as [_ Hf].
Qed.

(** The first quoted assignment on one line. *)
Lemma search_first_assignment name dot pre ws1 ws2 q1 value q2 post :
  none_inside (assignment name dot) pre
    (assignment_text name ws1 ws2 q1 value q2 ++ post) ->
  Forall (fun c => is_space c = true) ws1 ->
  Forall (fun c => is_space c = true) ws2 ->
  is_quote q1 = true -> is_quote q2 = true ->
  Forall (fun c => dot c = true /\ is_quote c = false) value ->
  Re.group1 <$>
    Re.search (Re.Regex false (quoted_assignment name dot))
      (pre ++ assignment_text name ws1 ws2 q1 value q2 ++ post)
  = Some value.
Proof.
  intros Hnone Hws1 Hws2 Hq1 Hq2 Hv.
  rewrite (search_first _ pre _ (Re.MState (Some (value ++ q2 :: post)) (Some value)));
    [done | | done |].
  - intros a b Hpre Hb _. cbn [Re.items]. apply exec_no_assignment.
    by apply (Hnone a b).
  - cbn [Re.items]. by apply exec_quoted_assignment.
Qed.

(** The first stage line. *)
Lemma search_first_stage_line pre ws1 ws2 d ds post :
  line_start pre ->
  no_line_inside stage_line pre (stage_text ws1 ws2 (d :: ds) ++ post) ->
  Forall (fun c => is_space c = true) ws1 ->
  Forall (fun c => is_space c = true) ws2 ->
  Forall (fun c => is_digit c = true) (d :: ds) -> stops is_digit post ->
  Re.group1 <$> Re.search stage_re (pre ++ stage_text ws1 ws2 (d :: ds) ++ post)
  = Some (d :: ds).
Proof.
  intros Hline Hnone Hws1 Hws2 Hds Hpost.
  pose proof (search_stage_re [] ws1 ws2 d ds post (first_at_nil _) I
                Hws1 Hws2 Hds Hpost) as Hhere.
  destruct (Re.exec (Re.items stage_re) Re.no_group
              (stage_text ws1 ws2 (d :: ds) ++ post)) as [m|] eqn:Hm.
  2:{ exfalso. revert Hm. apply exec_stage_line.
      exists ws1, ws2, d, (ds ++ post). inversion_clear Hds. split; [|done].
      unfold stage_text. by rewrite <- !(assoc_L (++)). }
  assert (Hs0 : Re.search stage_re ([] ++ stage_text ws1 ws2 (d :: ds) ++ post) = Some m).
  { apply search_first; [|done|done]. intros a b Hab Hb.
    symmetry in Hab. by apply app_eq_nil in Hab as [_ ->]. }
  unfold stage_text in Hs0. rewrite <- !(assoc_L (++)) in Hs0. rewrite Hs0 in Hhere.
  rewrite (search_first _ pre _ m); [exact Hhere | | done | exact Hm].
  intros a b Hpre Hb Hl. apply exec_no_stage_line. apply (Hnone a b Hpre Hb).
  by apply Hl.
Qed.

Section Fields.

Variable ast_parse : list ascii -> result Ast.node.
Variables (fs : filesystem) (file_path content : list ascii) (info : train_info).
Hypothesis readable : fs file_path = File content.
Hypothesis returned_info :
  outcome (parse_train_py ast_parse fs file_path) = Ok (Some info).

Lemma info_training_stage :
  training_stage info =
  match Re.search stage_re content with
  | Some m => Some (int_of_digits (Re.group1 m))
  | None => None
  end.
Proof.
  destruct (parse_train_py_scalars _ _ _ _ _ readable returned_info) as [paths ->].
  apply scalar_fields_training_stage.
Qed.

Lemma info_config_path :
  config_path info =
  match Re.search config_re content with
  | Some m => Some (Re.group1 m)
  | None => None
  end.
Proof.
  destruct (parse_train_py_scalars _ _ _ _ _ readable returned_info) as [paths ->].
  apply scalar_fields_config_path.
Qed.

Lemma info_root_dir :
  root_dir info =
  match Re.search root_re content with
  | Some m => Re.group1 m
  | None => str "./checkpoints"
  end.
Proof.
  destruct (parse_train_py_scalars _ _ _ _ _ readable returned_info) as [paths ->].
  apply scalar_fields_root_dir.
Qed.

End Fields.

(** X1: a stage that is extracted is written in the script: at the start of
    a line stands [TRAINING_STAGE], a sign with blanks around it and a run of
    digits, taken whole; the stage is its decimal value, so it is never
    negative. *)
Theorem stage_is_written ast_parse fs file_path content info n :
  fs file_path = File content ->
  outcome (parse_train_py ast_parse fs file_path) = Ok (Some info) ->
  training_stage info = Some n ->
  exists pre ws1 ws2 digits post,
    content = pre ++ stage_text ws1 ws2 digits ++ post /\
    line_start pre /\
    Forall (fun c => is_space c = true) ws1 /\
    Forall (fun c => is_space c = true) ws2 /\
    digits <> [] /\ Forall (fun c => is_digit c = true) digits /\
    stops is_digit post /\
    n = int_of_digits digits /\ (0 <= n)%Z.
Proof.
  intros Hf Ho Hn. rewrite (info_training_stage _ _ _ _ _ Hf Ho) in Hn.
  destruct (Re.search stage_re content) as [m|] eqn:Hs; [|done].
  injection Hn as <-.
  apply search_inv in Hs as (pre & t & -> & He & Hl).
  unfold stage_re in He. cbn [Re.items] in He.
  apply exec_lit_inv in He as (t0 & -> & He).
  apply exec_equals_sign_inv in He as (ws1 & ws2 & t1 & -> & Hws1 & Hws2 & He).
  apply exec_digits_inv in He as (d & ds & post & -> & Hds & Hpost & Hg).
  exists pre, ws1, ws2, (d :: ds), post.
  split; [unfold stage_text; by rewrite <- !(assoc_L (++))|].
  split; [by apply Hl|]. split; [done|]. split; [done|]. split; [done|].
  split; [done|]. split; [done|].
  unfold Re.group1. rewrite Hg. simpl. split; [done|].
  by apply int_of_digits_nonneg.
Qed.

Lemma stage_is_written_witness :
  exists pre ws1 ws2 digits post,
    Sample.branches "2" = pre ++ stage_text ws1 ws2 digits ++ post /\
    line_start pre /\
    Forall (fun c => is_space c = true) ws1 /\
    Forall (fun c => is_space c = true) ws2 /\
    digits <> [] /\ Forall (fun c => is_digit c = true) digits /\
    stops is_digit post /\
    2%Z = int_of_digits digits /\ (0 <= 2)%Z.
Proof.
  apply (stage_is_written Sample.parser
           (Sample.one_file TRAIN_SCRIPT_PATH (Sample.branches "2")) TRAIN_SCRIPT_PATH
           (Sample.branches "2")
           (set_json_paths [] (scalar_fields (Sample.branches "2"))) 2%Z).
  - vm_compute; reflexivity.
  - vm_compute; reflexivity.
  - vm_compute; reflexivity.
Defined.

(** X2: the first line that starts with [TRAINING_STAGE], a sign and digits
    decides the stage, whatever stands before it (a comment that names the
    variable, a line that starts with a longer name) and after it: the stage
    is the decimal value of the whole run of digits. *)
Theorem first_stage_line_decides ast_parse fs file_path
    pre ws1 ws2 d ds post info :
  fs file_path = File (pre ++ stage_text ws1 ws2 (d :: ds) ++ post) ->
  outcome (parse_train_py ast_parse fs file_path) = Ok (Some info) ->
  line_start pre ->
  no_line_inside stage_line pre (stage_text ws1 ws2 (d :: ds) ++ post) ->
  Forall (fun c => is_space c = true) ws1 ->
  Forall (fun c => is_space c = true) ws2 ->
  Forall (fun c => is_digit c = true) (d :: ds) -> stops is_digit post ->
  training_stage info = Some (int_of_digits (d :: ds)).
Proof.
  intros Hf Ho Hline Hnone Hws1 Hws2 Hds Hpost.
  rewrite (info_training_stage _ _ _ _ _ Hf Ho).
  pose proof (search_first_stage_line pre ws1 ws2 d ds post
                Hline Hnone Hws1 Hws2 Hds Hpost) as Hs.
  destruct (Re.search stage_re _) as [m|]; [|done].
  simpl in Hs. by injection Hs as ->.
Qed.

Lemma first_stage_line_decides_witness :
  exists info,
    outcome (parse_train_py More.parser
               (Sample.one_file TRAIN_SCRIPT_PATH More.commented_script)
               TRAIN_SCRIPT_PATH) = Ok (Some info) /\
    training_stage info = Some 2%Z.
Proof.
  eexists. split; [vm_compute; reflexivity|].
  apply (first_stage_line_decides More.parser
           (Sample.one_file TRAIN_SCRIPT_PATH More.commented_script) TRAIN_SCRIPT_PATH
           More.commented_head (str " ") (str " ") "2"%char []
           (newline :: str "config_path = 'cfg.yaml'" ++ newline ::
            str "root_dir = '/out'" ++ [newline])).
  - vm_compute; reflexivity.
  - vm_compute; reflexivity.
  - reflexivity.
  - apply no_line_inside_checked. vm_compute; reflexivity.
  - repeat constructor.
  - repeat constructor.
  - repeat constructor.
  - reflexivity.
Defined.

Lemma not_newline_true c : not_newline c = true <-> c <> newline.
Proof.
  unfold not_newline. rewrite negb_true_iff. split.
  - intros H ->. by rewrite is_char_refl in H.
  - intros H. destruct (is_char newline c) eqn:E; [|done].
    apply is_char_true in E. congruence.
Qed.

(** A one-line quoted assignment found by a pattern of lines 40 and 45. *)
Lemma search_one_line_inv name content m :
  Re.search (Re.Regex false (quoted_assignment name not_newline)) content = Some m ->
  exists pre ws1 ws2 q1 q2 post,
    content = pre ++ assignment_text name ws1 ws2 q1 (Re.group1 m) q2 ++ post /\
    Forall (fun c => is_space c = true) ws1 /\
    Forall (fun c => is_space c = true) ws2 /\
    is_quote q1 = true /\ is_quote q2 = true /\
    Forall (fun c => c <> newline /\ is_quote c = false) (Re.group1 m).
Proof.
  intros Hs. apply search_inv in Hs as (pre & t & -> & He & _).
  cbn [Re.items] in He.
  apply exec_quoted_assignment_inv in He
    as (ws1 & ws2 & q1 & value & q2 & post & -> & Hws1 & Hws2 & Hq1 & Hq2 & Hv & Hg).
  unfold Re.group1. rewrite Hg. simpl.
  exists pre, ws1, ws2, q1, q2, post. repeat (split; [done|]).
  eapply Forall_impl; [exact Hv|]. intros c [Hc ?]. split; [|done].
  by apply not_newline_true.
Qed.

(** X3: a [config_path] that is extracted is written in the script as a
    quoted assignment on one line: the value holds neither a newline nor a
    quote of either kind. *)
Theorem config_path_is_written ast_parse fs file_path content info value :
  fs file_path = File content ->
  outcome (parse_train_py ast_parse fs file_path) = Ok (Some info) ->
  config_path info = Some value ->
  exists pre ws1 ws2 q1 q2 post,
    content = pre ++ assignment_text (str "config_path") ws1 ws2 q1 value q2 ++ post /\
    Forall (fun c => is_space c = true) ws1 /\
    Forall (fun c => is_space c = true) ws2 /\
    is_quote q1 = true /\ is_quote q2 = true /\
    Forall (fun c => c <> newline /\ is_quote c = false) value.
Proof.
  intros Hf Ho Hc. rewrite (info_config_path _ _ _ _ _ Hf Ho) in Hc.
  destruct (Re.search config_re content) as [m|] eqn:Hs; [|done].
  injection Hc as <-. by apply search_one_line_inv.
Qed.

Lemma config_path_is_written_witness :
  exists pre ws1 ws2 q1 q2 post,
    Sample.scenario_script =
      pre ++ assignment_text (str "config_path") ws1 ws2 q1 (str "cfg.yaml") q2 ++ post /\
    Forall (fun c => is_space c = true) ws1 /\
    Forall (fun c => is_space c = true) ws2 /\
    is_quote q1 = true /\ is_quote q2 = true /\
    Forall (fun c => c <> newline /\ is_quote c = false) (str "cfg.yaml").
Proof.
  apply (config_path_is_written Sample.parser
           (Sample.one_file TRAIN_SCRIPT_PATH Sample.scenario_script) TRAIN_SCRIPT_PATH
           Sample.scenario_script
           (set_json_paths [Ast.CStr (str "a.json"); Ast.CStr (str "b.json")]
              (scalar_fields Sample.scenario_script))).
  - vm_compute; reflexivity.
  - vm_compute; reflexivity.
  - vm_compute; reflexivity.
Defined.

Lemma plain_value_one_line value :
  Forall (fun c => c <> newline /\ is_quote c = false) value ->
  Forall (fun c => not_newline c = true /\ is_quote c = false) value.
Proof.
  intros H. eapply Forall_impl; [exact H|]. intros c [Hn Hq]. split; [|done].
  by apply not_newline_true.
Qed.

(** X4: the first place of the text where [config_path], a sign and a value
    quoted on one line stand gives [config_path], whatever stands before it
    (the name in a comment, in a longer name, with a value that is not
    quoted): the quotes need not be of the same kind, and later assignments
    are not read. *)
Theorem first_config_path_decides ast_parse fs file_path
    pre ws1 ws2 q1 value q2 post info :
  fs file_path =
    File (pre ++ assignment_text (str "config_path") ws1 ws2 q1 value q2 ++ post) ->
  outcome (parse_train_py ast_parse fs file_path) = Ok (Some info) ->
  none_inside (assignment (str "config_path") not_newline) pre
    (assignment_text (str "config_path") ws1 ws2 q1 value q2 ++ post) ->
  Forall (fun c => is_space c = true) ws1 ->
  Forall (fun c => is_space c = true) ws2 ->
  is_quote q1 = true -> is_quote q2 = true ->
  Forall (fun c => c <> newline /\ is_quote c = false) value ->
  config_path info = Some value.
Proof.
  intros Hf Ho Hnone Hws1 Hws2 Hq1 Hq2 Hv.
  rewrite (info_config_path _ _ _ _ _ Hf Ho).
  pose proof (search_first_assignment (str "config_path") not_newline
                pre ws1 ws2 q1 value q2 post
                Hnone Hws1 Hws2 Hq1 Hq2 (plain_value_one_line _ Hv)) as Hs.
  fold config_re in Hs.
  destruct (Re.search config_re _) as [m|]; [|done].
  simpl in Hs. by injection Hs as ->.
Qed.

Lemma first_config_path_decides_witness :
  exists info,
    outcome (parse_train_py More.parser
               (Sample.one_file TRAIN_SCRIPT_PATH More.commented_script)
               TRAIN_SCRIPT_PATH) = Ok (Some info) /\
    config_path info = Some (str "cfg.yaml").
Proof.
  eexists. split; [vm_compute; reflexivity|].
  apply (first_config_path_decides More.parser
           (Sample.one_file TRAIN_SCRIPT_PATH More.commented_script) TRAIN_SCRIPT_PATH
           More.commented_stage (str " ") (str " ")
           squote (str "cfg.yaml") squote
           (newline :: str "root_dir = '/out'" ++ [newline])).
  - vm_compute; reflexivity.
  - vm_compute; reflexivity.
  - apply none_inside_checked. vm_compute; reflexivity.
  - repeat constructor.
  - repeat constructor.
  - reflexivity.
  - reflexivity.
  - repeat (constructor; [split; [discriminate | reflexivity]|]). constructor.
Defined.

(** X5: [root_dir] is the value at the first place of the text where
    [root_dir], a sign and a value quoted on one line stand, whatever stands
    before it; a [root_dir] other than the default ["./checkpoints"] is
    always written in the script in that form. *)
Theorem root_dir_from_first_assignment ast_parse fs file_path content info :
  fs file_path = File content ->
  outcome (parse_train_py ast_parse fs file_path) = Ok (Some info) ->
  (forall pre ws1 ws2 q1 value q2 post,
      content = pre ++ assignment_text (str "root_dir") ws1 ws2 q1 value q2 ++ post ->
      none_inside (assignment (str "root_dir") not_newline) pre
        (assignment_text (str "root_dir") ws1 ws2 q1 value q2 ++ post) ->
      Forall (fun c => is_space c = true) ws1 ->
      Forall (fun c => is_space c = true) ws2 ->
      is_quote q1 = true -> is_quote q2 = true ->
      Forall (fun c => c <> newline /\ is_quote c = false) value ->
      root_dir info = value) /\
  (root_dir info <> str "./checkpoints" ->
   exists pre ws1 ws2 q1 q2 post,
     content =
       pre ++ assignment_text (str "root_dir") ws1 ws2 q1 (root_dir info) q2 ++ post /\
     Forall (fun c => is_space c = true) ws1 /\
     Forall (fun c => is_space c = true) ws2 /\
     is_quote q1 = true /\ is_quote q2 = true /\
     Forall (fun c => c <> newline /\ is_quote c = false) (root_dir info)).
Proof.
  intros Hf Ho. rewrite (info_root_dir _ _ _ _ _ Hf Ho). split.
  - intros pre ws1 ws2 q1 value q2 post -> Hnone Hws1 Hws2 Hq1 Hq2 Hv.
    pose proof (search_first_assignment (str "root_dir") not_newline
                  pre ws1 ws2 q1 value q2 post
                  Hnone Hws1 Hws2 Hq1 Hq2 (plain_value_one_line _ Hv)) as Hs.
    fold root_re in Hs.
    destruct (Re.search root_re _) as [m|]; [|done].
    simpl in Hs. by injection Hs as ->.
  - destruct (Re.search root_re content) as [m|] eqn:Hs; [|done].
    intros _. by apply search_one_line_inv.
Qed.

Lemma root_dir_from_first_assignment_witness :
  exists info,
    outcome (parse_train_py More.parser
               (Sample.one_file TRAIN_SCRIPT_PATH More.commented_script)
               TRAIN_SCRIPT_PATH) = Ok (Some info) /\
    root_dir info = str "/out".
Proof.
  eexists. split; [vm_compute; reflexivity|].
  refine (proj1 (root_dir_from_first_assignment More.parser
           (Sample.one_file TRAIN_SCRIPT_PATH More.commented_script) TRAIN_SCRIPT_PATH
           More.commented_script _ _ _)
           More.commented_config (str " ") (str " ")
           squote (str "/out") squote [newline]
           _ _ _ _ _ _ _).
  - vm_compute; reflexivity.
  - vm_compute; reflexivity.
  - vm_compute; reflexivity.
  - apply none_inside_checked. vm_compute; reflexivity.
  - repeat constructor.
  - repeat constructor.
  - reflexivity.
  - reflexivity.
  - repeat (constructor; [split; [discriminate | reflexivity]|]). constructor.
Defined.

(** ** The branch resolver, read back from the result *)

Lemma labels_differ :
  STAGE1_LABEL <> STAGE2_LABEL /\ STAGE1_LABEL <> str "Unknown" /\
  STAGE2_LABEL <> str "Unknown".
Proof. repeat split; discriminate. Qed.

(** What a match of the two branch patterns tells about the text. *)
Lemma search_branch_inv (keyword : list ascii) (gap : list Re.item) content m :
  In gap [[Re.LazyStar any_char]; [Re.Star is_space; Re.LazyStar any_char]] ->
  Re.search
    (Re.Regex false (Re.lit keyword ++ gap ++ quoted_assignment (str "resume_path") any_char))
    content = Some m ->
  exists pre mid ws1 ws2 q1 q2 post,
    content = pre ++ keyword ++ mid ++
              assignment_text (str "resume_path") ws1 ws2 q1 (Re.group1 m) q2 ++ post /\
    Forall (fun c => is_space c = true) ws1 /\
    Forall (fun c => is_space c = true) ws2 /\
    is_quote q1 = true /\ is_quote q2 = true /\
    Forall (fun c => is_quote c = false) (Re.group1 m).
Proof.
  intros Hgap Hs. apply search_inv in Hs as (pre & t & -> & He & _).
  cbn [Re.items] in He.
  apply exec_lit_inv in He as (t0 & -> & He).
  assert (exists mid t1, t0 = mid ++ t1 /\
            Re.exec (quoted_assignment (str "resume_path") any_char) Re.no_group t1 = Some m)
    as (mid & t1 & -> & Hq).
  { simpl in Hgap. destruct Hgap as [<-|[<-|[]]]; cbn [app] in He.
    - apply exec_lazy_inv in He as (mid & t1 & -> & _ & He). by exists mid, t1.
    - apply exec_star_inv in He as (ws & t1 & -> & _ & He).
      apply exec_lazy_inv in He as (mid & t2 & -> & _ & He).
      exists (ws ++ mid), t2. by rewrite <- (assoc_L (++)). }
  apply exec_quoted_assignment_inv in Hq
    as (ws1 & ws2 & q1 & value & q2 & post & -> & Hws1 & Hws2 & Hq1 & Hq2 & Hv & Hg).
  unfold Re.group1. rewrite Hg. simpl.
  exists pre, mid, ws1, ws2, q1, q2, post. repeat (split; [done|]).
  eapply Forall_impl; [exact Hv|]. by intros c [_ ?].
Qed.

(** X6: the label always agrees with the stage and with the path: the
    stage-1 label stands only with stage 1, the stage-2 label only with
    another or no stage, and a label ["Unknown"] only with a path
    ["Unknown"]. *)
Theorem label_agrees_with_stage ast_parse fs file_path content info :
  fs file_path = File content ->
  outcome (parse_train_py ast_parse fs file_path) = Ok (Some info) ->
  (base_ckpt_source info = STAGE1_LABEL /\ training_stage info = Some 1%Z) \/
  (base_ckpt_source info = STAGE2_LABEL /\ training_stage info <> Some 1%Z) \/
  (base_ckpt_source info = str "Unknown" /\ resume_path info = str "Unknown").
Proof.
  intros Hf Ho. pose proof (parse_train_py_resume _ _ _ _ _ Hf Ho) as Hr.
  destruct (decide (training_stage info = Some 1%Z)) as [Hs|Hs].
  - destruct (Re.search stage1_re content); injection Hr as -> ->; auto.
  - destruct (Re.search else_re content); injection Hr as -> ->; auto.
Qed.

Lemma label_agrees_with_stage_witness :
  exists info,
    outcome (parse_train_py Sample.parser
               (Sample.one_file TRAIN_SCRIPT_PATH (Sample.branches "2"))
               TRAIN_SCRIPT_PATH) = Ok (Some info) /\
    ((base_ckpt_source info = STAGE1_LABEL /\ training_stage info = Some 1%Z) \/
     (base_ckpt_source info = STAGE2_LABEL /\ training_stage info <> Some 1%Z) \/
     (base_ckpt_source info = str "Unknown" /\ resume_path info = str "Unknown")).
Proof.
  eexists. split; [vm_compute; reflexivity|].
  apply (label_agrees_with_stage Sample.parser
           (Sample.one_file TRAIN_SCRIPT_PATH (Sample.branches "2")) TRAIN_SCRIPT_PATH
           (Sample.branches "2")).
  - vm_compute; reflexivity.
  - vm_compute; reflexivity.
Defined.

(** X7: a path with a branch label is written in the script after the
    keyword of that branch: somewhere after an [if TRAINING_STAGE == 1:]
    (stage-1 label) or after an [else:] (stage-2 label) stands a quoted
    [resume_path] assignment with that value, and the value holds no quote
    of either kind. *)
Theorem labelled_path_is_written ast_parse fs file_path content info :
  fs file_path = File content ->
  outcome (parse_train_py ast_parse fs file_path) = Ok (Some info) ->
  forall keyword,
    (base_ckpt_source info = STAGE1_LABEL /\ keyword = str "if TRAINING_STAGE == 1:") \/
    (base_ckpt_source info = STAGE2_LABEL /\ keyword = str "else:") ->
    exists pre mid ws1 ws2 q1 q2 post,
      content = pre ++ keyword ++ mid ++
                assignment_text (str "resume_path") ws1 ws2 q1 (resume_path info) q2
                ++ post /\
      Forall (fun c => is_space c = true) ws1 /\
      Forall (fun c => is_space c = true) ws2 /\
      is_quote q1 = true /\ is_quote q2 = true /\
      Forall (fun c => is_quote c = false) (resume_path info).
Proof.
  intros Hf Ho keyword Hk.
  pose proof (parse_train_py_resume _ _ _ _ _ Hf Ho) as Hr.
  destruct labels_differ as (H12 & H1u & H2u).
  destruct (decide (training_stage info = Some 1%Z)) as [Hs|Hs].
  - destruct (Re.search stage1_re content) as [m|] eqn:Hm; injection Hr as Hp Hl.
    + destruct Hk as [[_ ->]|[Hl2 _]]; [|congruence].
      rewrite Hp. apply (search_branch_inv _ [Re.LazyStar any_char]); [by left|done].
    + destruct Hk as [[Hl' _]|[Hl' _]]; congruence.
  - destruct (Re.search else_re content) as [m|] eqn:Hm; injection Hr as Hp Hl.
    + destruct Hk as [[Hl1 _]|[_ ->]]; [congruence|].
      rewrite Hp.
      apply (search_branch_inv _ [Re.Star is_space; Re.LazyStar any_char]);
        [by right; left|done].
    + destruct Hk as [[Hl' _]|[Hl' _]]; congruence.
Qed.

Lemma labelled_path_is_written_witness :
  exists pre mid ws1 ws2 q1 q2 post,
    Sample.branches "2" =
      pre ++ str "else:" ++ mid ++
      assignment_text (str "resume_path") ws1 ws2 q1 Sample.stage2_ckpt q2 ++ post /\
    Forall (fun c => is_space c = true) ws1 /\
    Forall (fun c => is_space c = true) ws2 /\
    is_quote q1 = true /\ is_quote q2 = true /\
    Forall (fun c => is_quote c = false) Sample.stage2_ckpt.
Proof.
  apply (labelled_path_is_written Sample.parser
           (Sample.one_file TRAIN_SCRIPT_PATH (Sample.branches "2")) TRAIN_SCRIPT_PATH
           (Sample.branches "2")
           (set_json_paths [] (scalar_fields (Sample.branches "2")))).
  - vm_compute; reflexivity.
  - vm_compute; reflexivity.
  - right. split; reflexivity.
Defined.

(** ** The [else:] branch *)

(** A lazy [.*?] hands over at the first place where the rest matches. *)
Lemma exec_lazy_first rest st mid t m :
  (forall a b, mid = a ++ b -> b <> [] -> Re.exec rest st (b ++ t) = None) ->
  Re.exec rest st t = Some m ->
  Re.exec (Re.LazyStar any_char :: rest) st (mid ++ t) = Some m.
Proof.
  intros Hnone Hm. induction mid as [|c mid IH]; [by apply exec_lazy_here|].
  rewrite exec_lazy_unfold.
  rewrite (Hnone [] (c :: mid)) by done. cbn [app any_char]. apply IH.
  intros a b -> Hb. by apply (Hnone (c :: a) b).
Qed.

Lemma plain_value_any value :
  Forall (fun c => is_quote c = false) value ->
  Forall (fun c => any_char c = true /\ is_quote c = false) value.
Proof. intros H. eapply Forall_impl; [exact H|]. by intros c ->. Qed.

(** After the first [else:], the first quoted assignment to [resume_path]. *)
Lemma search_else_first pre mid ws1 ws2 q1 value q2 post :
  first_at (str "else:") pre ->
  none_inside (assignment (str "resume_path") any_char) mid
    (assignment_text (str "resume_path") ws1 ws2 q1 value q2 ++ post) ->
  Forall (fun c => is_space c = true) ws1 ->
  Forall (fun c => is_space c = true) ws2 ->
  is_quote q1 = true -> is_quote q2 = true ->
  Forall (fun c => is_quote c = false) value ->
  Re.group1 <$>
    Re.search else_re
      (pre ++ str "else:" ++ mid ++
       assignment_text (str "resume_path") ws1 ws2 q1 value q2 ++ post)
  = Some value.
Proof.
  intros Hpre Hnone Hws1 Hws2 Hq1 Hq2 Hv. unfold else_re.
  rewrite search_skip by done.
  rewrite (search_here _ _ (Re.MState (Some (value ++ q2 :: post)) (Some value))); [done|].
  rewrite exec_lit. cbn [app].
  rewrite exec_star_lazy.
  - apply exec_lazy_first.
    + intros a b Hmid Hb. apply exec_no_assignment. by apply (Hnone a b).
    + apply exec_quoted_assignment; try done. by apply plain_value_any.
  - intros c t Hc. apply exec_lit_head. by intros ->.
Qed.

(** No [else:] of the text is followed by a quoted assignment. *)
Lemma search_else_none content :
  (forall a b c, content = a ++ str "else:" ++ b ++ c ->
                 ~ assignment (str "resume_path") any_char c) ->
  Re.search else_re content = None.
Proof.
  intros Hnone. destruct (Re.search else_re content) as [m|] eqn:Hs; [|done].
  apply (search_branch_inv (str "else:") [Re.Star is_space; Re.LazyStar any_char]) in Hs
    as (pre & mid & ws1 & ws2 & q1 & q2 & post & Heq & Hws1 & Hws2 & Hq1 & Hq2 & Hv);
    [|simpl; auto].
  exfalso. apply (Hnone _ _ _ Heq).
  exists ws1, ws2, q1, (Re.group1 m), q2, post. repeat (split; [done|]).
  by apply plain_value_any.
Qed.

(** C2, as the specification states it, fails: the pattern of line 60 is
    not tied to the stage test.  In a script where another statement has an
    [else:] before the two branches, the first assignment after that
    [else:] is the one of the stage-1 branch: with stage 2 the result holds
    the stage-1 literal under the stage-2 label. *)
Lemma else_branch_not_scoped :
  exists info,
    outcome (parse_train_py More.parser
               (Sample.one_file TRAIN_SCRIPT_PATH More.early_else_script)
               TRAIN_SCRIPT_PATH) = Ok (Some info) /\
    training_stage info = Some 2%Z /\
    resume_path info = Sample.stage1_ckpt /\
    resume_path info <> Sample.stage2_ckpt /\
    base_ckpt_source info = STAGE2_LABEL.
Proof.
  eexists. split; [vm_compute; reflexivity|].
  repeat split; vm_compute; done.
Qed.

(** C2, amended: when the extracted stage is absent or not 1,
    [resume_path] is the value of the first quoted [resume_path] assignment
    after the first [else:] of the text, whatever statement that [else:]
    belongs to and whatever stands before it and between the two, with the
    stage-2 label; and when no [else:] of the text is followed by such an
    assignment, both fields keep their default ["Unknown"]. *)
Theorem else_branch_selected ast_parse fs file_path content info :
  fs file_path = File content ->
  outcome (parse_train_py ast_parse fs file_path) = Ok (Some info) ->
  training_stage info <> Some 1%Z ->
  (forall pre mid ws1 ws2 q1 value q2 post,
      content = pre ++ str "else:" ++ mid ++
                assignment_text (str "resume_path") ws1 ws2 q1 value q2 ++ post ->
      first_at (str "else:") pre ->
      none_inside (assignment (str "resume_path") any_char) mid
        (assignment_text (str "resume_path") ws1 ws2 q1 value q2 ++ post) ->
      Forall (fun c => is_space c = true) ws1 ->
      Forall (fun c => is_space c = true) ws2 ->
      is_quote q1 = true -> is_quote q2 = true ->
      Forall (fun c => is_quote c = false) value ->
      resume_path info = value /\ base_ckpt_source info = STAGE2_LABEL) /\
  ((forall a b c, content = a ++ str "else:" ++ b ++ c ->
                  ~ assignment (str "resume_path") any_char c) ->
   resume_path info = str "Unknown" /\ base_ckpt_source info = str "Unknown").
Proof.
  intros Hf Ho Hstage.
  pose proof (parse_train_py_resume _ _ _ _ _ Hf Ho) as Hr.
  destruct (decide (training_stage info = Some 1%Z)); [done|].
  split.
  - intros pre mid ws1 ws2 q1 value q2 post -> Hpre Hmid Hws1 Hws2 Hq1 Hq2 Hv.
    pose proof (search_else_first pre mid ws1 ws2 q1 value q2 post
                  Hpre Hmid Hws1 Hws2 Hq1 Hq2 Hv) as Hs.
    destruct (Re.search else_re _) as [m|]; [|done].
    simpl in Hs. injection Hs as Hs. injection Hr as -> ->. by rewrite Hs.
  - intros Hnone. rewrite (search_else_none _ Hnone) in Hr. by injection Hr as -> ->.
Qed.

Lemma else_branch_selected_witness :
  exists info,
    outcome (parse_train_py More.parser
               (Sample.one_file TRAIN_SCRIPT_PATH More.early_else_script)
               TRAIN_SCRIPT_PATH) = Ok (Some info) /\
    resume_path info = Sample.stage1_ckpt /\
    base_ckpt_source info = STAGE2_LABEL.
Proof.
  eexists. split; [vm_compute; reflexivity|].
  refine (proj1 (else_branch_selected More.parser
           (Sample.one_file TRAIN_SCRIPT_PATH More.early_else_script) TRAIN_SCRIPT_PATH
           More.early_else_script _ _ _ _)
           More.early_else_head
           (newline :: str "    print('quiet')" ++ newline :: Sample.if_line ++ Sample.indent)
           (str " ") (str " ") squote Sample.stage1_ckpt squote
           (newline :: str "else:" ++ Sample.indent ++ Sample.stage2_assignment ++ [newline])
           _ _ _ _ _ _ _ _).
  - vm_compute; reflexivity.
  - vm_compute; reflexivity.
  - vm_compute; discriminate.
  - vm_compute; reflexivity.
  - vm_compute; reflexivity.
  - apply none_inside_checked. vm_compute; reflexivity.
  - repeat constructor.
  - repeat constructor.
  - reflexivity.
  - reflexivity.
  - repeat constructor.
Defined.

(** ** The textual tier, line by line *)

Lemma lstrip_suffix p s : exists u, s = u ++ lstrip p s.
Proof.
  induction s as [|c s [u IH]]; [by exists []|]. simpl.
  destruct (p c); [|by exists []]. exists (c :: u). simpl. by rewrite <- IH.
Qed.

Lemma lstrip_stopped p s : stops p (lstrip p s).
Proof.
  induction s as [|c s IH]; [done|]. simpl.
  destruct (p c) eqn:Hp; [done|]. by simpl.
Qed.

Lemma rstrip_prefix p s : exists u, s = rstrip p s ++ u.
Proof.
  unfold rstrip. destruct (lstrip_suffix p (rev s)) as [u Hu].
  exists (rev u). rewrite <- rev_app_distr, <- Hu. by rewrite rev_involutive.
Qed.

Lemma rstrip_stopped p s : stops p (rev (rstrip p s)).
Proof. unfold rstrip. rewrite rev_involutive. apply lstrip_stopped. Qed.

Lemma stops_prefix p t u : stops p (t ++ u) -> stops p t.
Proof. by destruct t. Qed.

(** [strip] takes a piece of the text that neither starts nor ends in the
    class. *)
Lemma strip_piece p s :
  exists u v, s = u ++ strip p s ++ v /\
              stops p (strip p s) /\ stops p (rev (strip p s)).
Proof.
  unfold strip. destruct (lstrip_suffix p s) as [u Hu].
  destruct (rstrip_prefix p (lstrip p s)) as [v Hv].
  exists u, v. split; [by rewrite <- Hv|]. split; [|apply rstrip_stopped].
  apply (stops_prefix p _ v). rewrite <- Hv. apply lstrip_stopped.
Qed.

Lemma split_lines_Forall (P : ascii -> Prop) s :
  Forall P s -> Forall (Forall (fun c => P c /\ c <> newline)) (split_lines s).
Proof.
  intros H. induction H as [|c s Hc _ IH]; simpl; [by repeat constructor|].
  destruct (is_char newline c) eqn:E; [by constructor|].
  assert (c <> newline).
  { intros ->. by rewrite is_char_refl in E. }
  destruct (split_lines s) as [|l ls]; [by repeat constructor|].
  inversion_clear IH. constructor; [by constructor | done].
Qed.


(** A line gives at most one entry; an entry is a piece of the line. *)
Lemma line_entries_cases line :
  line_entries line = [] \/
  exists p u v,
    line_entries line = [Ast.CStr p] /\ line = u ++ p ++ v /\
    p <> [] /\ stops padding p /\ stops padding (rev p).
Proof.
  unfold line_entries.
  destruct (nonempty (strip is_space line) &&
            negb (startswith (strip is_space line) (str "#"))); [|by left].
  fold padding.
  destruct (nonempty (strip padding (strip is_space line))) eqn:Hn; [|by left].
  right.
  destruct (strip_piece is_space line) as (u1 & v1 & H1 & _).
  destruct (strip_piece padding (strip is_space line)) as (u2 & v2 & H2 & Hs & He).
  exists (strip padding (strip is_space line)), (u1 ++ u2), (v2 ++ v1).
  split; [done|]. split.
  - rewrite H1 at 1. rewrite H2 at 1. by rewrite <- !(assoc_L (++)).
  - split; [|done]. by destruct (strip padding (strip is_space line)).
Qed.


Lemma flat_map_line_entries_Forall (P : ascii -> Prop) lines :
  Forall (Forall P) lines ->
  Forall (fun entry => exists p,
            entry = Ast.CStr p /\ p <> [] /\ stops padding p /\
            stops padding (rev p) /\ Forall P p)
    (flat_map line_entries lines).
Proof.
  intros H. induction H as [|l ls Hl _ IH]; [done|]. simpl.
  apply Forall_app. split; [|done].
  destruct (line_entries_cases l) as [->|(p & u & v & -> & Hline & Hne & Hs & He)];
    [done|].
  constructor; [|done]. exists p. repeat (split; [done|]).
  rewrite Hline in Hl. apply Forall_app in Hl as [_ Hl].
  by apply Forall_app in Hl as [Hl _].
Qed.

(** The block pattern, read back: the group is what stands between the
    opening bracket and the first closing one. *)
Lemma search_json_block_inv content m :
  Re.search json_block_re content = Some m ->
  exists pre ws1 ws2 post,
    content = pre ++ (str "json_paths" ++ ws1 ++ str "=" ++ ws2 ++
                      str "[" ++ Re.group1 m ++ str "]") ++ post /\
    Forall (fun c => is_space c = true) ws1 /\
    Forall (fun c => is_space c = true) ws2 /\
    Forall (fun c => c <> "]"%char) (Re.group1 m).
Proof.
  intros Hs. apply search_inv in Hs as (pre & t & -> & He & _).
  unfold json_block_re in He. cbn [Re.items] in He.
  apply exec_lit_inv in He as (t0 & -> & He).
  apply exec_equals_sign_inv in He as (ws1 & ws2 & t1 & -> & Hws1 & Hws2 & He).
  apply exec_one_inv in He as (b & t2 & -> & Hb & He).
  apply is_char_true in Hb as <-.
  apply exec_capture_inv in He as (value & q & post & -> & Hv & Hq & Hg).
  apply is_char_true in Hq as <-.
  unfold Re.group1. rewrite Hg. simpl.
  exists pre, ws1, ws2, post. split.
  - change (str "[") with ["["%char]. change (str "]") with ["]"%char].
    rewrite <- !(assoc_L (++)). simpl. rewrite <- ?(assoc_L (++)).
    simpl. by rewrite <- ?(assoc_L (++)).
  - repeat (split; [done|]). eapply Forall_impl; [exact Hv|].
    intros c [_ Hc] ->. by rewrite is_char_refl in Hc.
Qed.

Lemma parse_train_py_textual ast_parse fs file_path content e info :
  fs file_path = File content ->
  ast_parse content = Raise e ->
  outcome (parse_train_py ast_parse fs file_path) = Ok (Some info) ->
  json_paths info = textual_paths content.
Proof.
  intros Hf Hp Ho. rewrite (parse_train_py_file _ _ _ _ Hf (parse_train_py_stage_fits _ _ _ _ _ Hf Ho)), Hp
    in Ho.
  simpl in Ho. by injection Ho as <-.
Qed.


(** X8: whatever the text, the entries of the fallback are strings that are
    not empty, hold neither a newline nor a closing bracket, and neither
    start nor end with a quote, a comma or a space. *)
Theorem fallback_entries_are_stripped ast_parse fs file_path content e info :
  fs file_path = File content ->
  ast_parse content = Raise e ->
  outcome (parse_train_py ast_parse fs file_path) = Ok (Some info) ->
  Forall (fun entry => exists p,
            entry = Ast.CStr p /\ p <> [] /\
            stops padding p /\ stops padding (rev p) /\ Forall inside p)
    (json_paths info).
Proof.
  intros Hf Hp Ho. rewrite (parse_train_py_textual _ _ _ _ _ _ Hf Hp Ho).
  unfold textual_paths.
  destruct (Re.search json_block_re content) as [m|] eqn:Hs; [|done].
  apply search_json_block_inv in Hs as (_ & _ & _ & _ & _ & _ & _ & Hin).
  apply flat_map_line_entries_Forall.
  eapply Forall_impl; [apply (split_lines_Forall _ _ Hin)|].
  intros l Hl. eapply Forall_impl; [exact Hl|]. by intros c [? ?].
Qed.

Lemma fallback_entries_are_stripped_witness :
  exists info,
    outcome (parse_train_py Sample.parser
               (Sample.one_file TRAIN_SCRIPT_PATH Sample.padded_script)
               TRAIN_SCRIPT_PATH) = Ok (Some info) /\
    Forall (fun entry => exists p,
              entry = Ast.CStr p /\ p <> [] /\
              stops padding p /\ stops padding (rev p) /\ Forall inside p)
      (json_paths info).
Proof.
  eexists. split; [vm_compute; reflexivity|].
  apply (fallback_entries_are_stripped Sample.parser
           (Sample.one_file TRAIN_SCRIPT_PATH Sample.padded_script) TRAIN_SCRIPT_PATH
           Sample.padded_script SyntaxError).
  - vm_compute; reflexivity.
  - vm_compute; reflexivity.
  - vm_compute; reflexivity.
Defined.






(** ** The order of the walk *)

(** The walk takes the nodes that wait in the order they wait, and their
    children after all of them. *)
Lemma walk_todo_app fuel l q :
  (length l <= fuel)%nat ->
  Ast.walk_todo fuel (l ++ q) =
  l ++ Ast.walk_todo (fuel - length l) (q ++ flat_map Ast.iter_child_nodes l).
Proof.
  revert fuel q. induction l as [|n l IH]; intros fuel q Hle.
  - simpl. by rewrite Nat.sub_0_r, app_nil_r.
  - destruct fuel as [|fuel]; [simpl in Hle; lia|].
    cbn [app Ast.walk_todo length flat_map].
    rewrite <- (assoc_L (++)), IH by (simpl in Hle; lia).
    by rewrite <- (assoc_L (++)).
Qed.

Lemma total_size_cons n l : total_size (n :: l) = (Ast.size n + total_size l)%nat.
Proof. done. Qed.

Lemma total_size_ge_length l : (length l <= total_size l)%nat.
Proof.
  induction l as [|n l IH]; [done|]. rewrite total_size_cons, size_children.
  simpl. lia.
Qed.

Lemma total_size_children l :
  total_size l = (length l + total_size (flat_map Ast.iter_child_nodes l))%nat.
Proof.
  induction l as [|n l IH]; [done|]. cbn [flat_map length].
  rewrite total_size_app, total_size_cons, size_children, IH. lia.
Qed.

Lemma walk_module body :
  Ast.walk (Ast.Module body) =
  Ast.Module body :: body ++
  Ast.walk_todo (total_size body) (flat_map Ast.iter_child_nodes body).
Proof.
  unfold Ast.walk. cbn [Ast.size Ast.walk_todo app Ast.iter_child_nodes].
  fold (total_size body). f_equal.
  rewrite <- (app_nil_r body) at 2.
  rewrite walk_todo_app by apply total_size_ge_length. f_equal. cbn [app].
  rewrite walk_todo_fuel; [symmetry; apply walk_todo_fuel|];
    pose proof (total_size_children body); lia.
Qed.

(** X11: the walk is breadth first, so the entries of the assignments at the
    top level of the script come first, in the order of the source, and
    those of every assignment inside a block come after them, wherever the
    block stands. *)
Theorem top_level_entries_come_first ast_parse fs file_path content body info :
  fs file_path = File content ->
  ast_parse content = Ok (Ast.Module body) ->
  outcome (parse_train_py ast_parse fs file_path) = Ok (Some info) ->
  json_paths info =
    flat_map node_entries body ++
    flat_map node_entries
      (Ast.walk_todo (total_size body) (flat_map Ast.iter_child_nodes body)).
Proof.
  intros Hf Hp Ho. rewrite (parse_train_py_file _ _ _ _ Hf (parse_train_py_stage_fits _ _ _ _ _ Hf Ho)), Hp
    in Ho.
  simpl in Ho. injection Ho as <-. cbn [json_paths set_json_paths].
  unfold structural_paths. rewrite walk_module. cbn [flat_map node_entries app].
  by rewrite flat_map_app.
Qed.

Lemma flat_map_all_nil {A B} (f : A -> list B) l :
  (forall x, In x l -> f x = []) -> flat_map f l = [].
Proof.
  induction l as [|x l IH]; intros H; [done|]. simpl.
  rewrite H by (by left). apply IH. intros y Hy. apply H. by right.
Qed.

(** X12: when no node of the tree is the name [json_paths], the walk finds
    no dataset path. *)
Theorem no_json_paths_name_no_entry ast_parse fs file_path content tree info :
  fs file_path = File content ->
  ast_parse content = Ok tree ->
  outcome (parse_train_py ast_parse fs file_path) = Ok (Some info) ->
  List.Forall (fun n => n <> Ast.Name (str "json_paths")) (Ast.walk tree) ->
  json_paths info = [].
Proof.
  intros Hf Hp Ho Hname. rewrite (parse_train_py_file _ _ _ _ Hf (parse_train_py_stage_fits _ _ _ _ _ Hf Ho)), Hp
    in Ho.
  simpl in Ho. injection Ho as <-. cbn [json_paths set_json_paths].
  unfold structural_paths.
  rewrite List.Forall_forall in Hname.
  apply flat_map_all_nil. intros n Hn.
  destruct n as [| targets value | | | | |]; try done. simpl.
  apply flat_map_all_nil. intros t Ht.
  destruct t as [| |id| | | |]; try done. simpl.
  case_decide as Hid; [|done]. subst id. exfalso.
  apply (Hname (Ast.Name (str "json_paths"))); [|done].
  apply (walk_children tree _ _ Hn). simpl. apply in_or_app. by left.
Qed.

Lemma top_level_entries_come_first_witness :
  exists info,
    outcome (parse_train_py More.parser
               (Sample.one_file TRAIN_SCRIPT_PATH More.order_text)
               TRAIN_SCRIPT_PATH) = Ok (Some info) /\
    json_paths info = [Ast.CStr (str "top.json"); Ast.CStr (str "nested.json")].
Proof.
  eexists. split; [vm_compute; reflexivity|].
  apply (top_level_entries_come_first More.parser
           (Sample.one_file TRAIN_SCRIPT_PATH More.order_text) TRAIN_SCRIPT_PATH
           More.order_text More.order_body).
  - vm_compute; reflexivity.
  - vm_compute; reflexivity.
  - vm_compute; reflexivity.
Defined.

Lemma no_json_paths_name_no_entry_witness :
  exists info,
    outcome (parse_train_py Sample.parser
               (Sample.one_file TRAIN_SCRIPT_PATH (Sample.branches "2"))
               TRAIN_SCRIPT_PATH) = Ok (Some info) /\
    json_paths info = [].
Proof.
  eexists. split; [vm_compute; reflexivity|].
  apply (no_json_paths_name_no_entry Sample.parser
           (Sample.one_file TRAIN_SCRIPT_PATH (Sample.branches "2")) TRAIN_SCRIPT_PATH
           (Sample.branches "2") (Sample.branches_tree 2)).
  - vm_compute; reflexivity.
  - vm_compute; reflexivity.
  - vm_compute; reflexivity.
  - vm_compute. repeat (constructor; [discriminate|]). constructor.
Defined.

(** ** The configuration document, case by case *)

Lemma navigate_params config params :
  navigate (VDict config) = Some params ->
  exists model,
    sub_mapping config (str "model") = Some model /\
    sub_mapping model (str "params") = Some params.
Proof.
  simpl. destruct (sub_mapping config (str "model")) as [model|]; [|done].
  intros H. by exists model.
Qed.

Section YamlCases.

Variable yaml_safe_load : list ascii -> result pyval.
Variables (fs : filesystem) (yaml_path : list ascii).

Lemma parse_yaml_config_unreadable e :
  fs yaml_path = Unreadable e ->
  parse_yaml_config yaml_safe_load fs yaml_path =
  ([YamlFailed e], Ok initial_yaml_info).
Proof.
  intros Hf. unfold parse_yaml_config, run, path_exists, read_file. by rewrite Hf.
Qed.

Lemma parse_yaml_config_malformed f e :
  fs yaml_path = File f -> yaml_safe_load f = Raise e ->
  parse_yaml_config yaml_safe_load fs yaml_path =
  ([YamlFailed e], Ok initial_yaml_info).
Proof.
  intros Hf Hl. unfold parse_yaml_config, run, path_exists, read_file. rewrite Hf.
  cbn [negb]. unfold bind, try_except, lift, ret, raise, get, print, modify; simpl.
  by rewrite Hl.
Qed.

Lemma parse_yaml_config_no_params f v :
  fs yaml_path = File f -> yaml_safe_load f = Ok v -> navigate v = None ->
  parse_yaml_config yaml_safe_load fs yaml_path =
  ([YamlFailed AttributeError], Ok initial_yaml_info).
Proof.
  intros Hf Hl Hn. unfold parse_yaml_config, run, path_exists, read_file. rewrite Hf.
  cbn [negb]. unfold bind, try_except, lift, ret, raise, get, print, modify, py_get; simpl.
  rewrite Hl. simpl.
  destruct v as [| | | | |config| |]; try done. simpl in *.
  unfold sub_mapping in Hn.
  destruct (config !! str "model") as [[| | | | |model| |]|] eqn:Hm; simpl in *; try done.
  destruct (model !! str "params") as [[]|]; simpl in *; done.
Qed.

End YamlCases.

(** X13: the resolver never raises: whatever the file system and the loader
    do, it returns a structure, after at most one diagnostic; and after a
    diagnostic [use_calligraphy] is ["Unknown"]. *)
Theorem config_resolver_always_returns yaml_safe_load fs yaml_path :
  exists info,
    outcome (parse_yaml_config yaml_safe_load fs yaml_path) = Ok info /\
    (output (parse_yaml_config yaml_safe_load fs yaml_path) = [] \/
     (output (parse_yaml_config yaml_safe_load fs yaml_path) = [YamlNotFound yaml_path] \/
      exists e, output (parse_yaml_config yaml_safe_load fs yaml_path) = [YamlFailed e]) /\
     use_calligraphy info = VStr (str "Unknown")).
Proof.
  destruct (fs yaml_path) as [|e|f] eqn:Hf.
  - rewrite (parse_yaml_config_missing _ _ _ Hf). eexists. split; [done|]. right. auto.
  - rewrite (parse_yaml_config_unreadable _ _ _ _ Hf). eexists. split; [done|].
    right. eauto.
  - destruct (yaml_safe_load f) as [v|e] eqn:Hl.
    2:{ rewrite (parse_yaml_config_malformed _ _ _ _ _ Hf Hl). eexists. split; [done|].
        right. eauto. }
    destruct (navigate v) as [params|] eqn:Hn.
    2:{ rewrite (parse_yaml_config_no_params _ _ _ _ _ Hf Hl Hn). eexists.
        split; [done|]. right. eauto. }
    destruct v as [| | | | |config| |]; try done.
    destruct (navigate_params config params Hn) as (model & Hm & Hp).
    rewrite (parse_yaml_config_params _ _ _ _ _ _ _ Hf Hl Hm Hp). cbv zeta.
    destruct (default (VDict []) (params !! str "embedding_manager_config"))
      as [| | | | |emb| |]; try (eexists; split; [done|]; right; eauto).
    destruct (default (VDict []) (emb !! str "params"));
      eexists; (split; [done|]); eauto.
Qed.

(** X14: when the document cannot be read or the loader rejects it, both
    fields are ["Unknown"] and the error is reported once. *)
Theorem unloadable_document_unknown yaml_safe_load fs yaml_path e :
  fs yaml_path = Unreadable e \/
  (exists f, fs yaml_path = File f /\ yaml_safe_load f = Raise e) ->
  parse_yaml_config yaml_safe_load fs yaml_path =
  ([YamlFailed e],
   Ok {| injection := VStr (str "Unknown"); use_calligraphy := VStr (str "Unknown") |}).
Proof.
  intros [Hf|(f & Hf & Hl)].
  - by apply parse_yaml_config_unreadable.
  - by apply (parse_yaml_config_malformed _ _ _ f).
Qed.

Lemma unloadable_document_unknown_witness :
  parse_yaml_config Sample.loader
    (Sample.one_file DEFAULT_YAML_PATH (str "model: [")) DEFAULT_YAML_PATH =
  ([YamlFailed YAMLError],
   Ok {| injection := VStr (str "Unknown"); use_calligraphy := VStr (str "Unknown") |}).
Proof.
  apply (unloadable_document_unknown Sample.loader
           (Sample.one_file DEFAULT_YAML_PATH (str "model: [")) DEFAULT_YAML_PATH YAMLError).
  right. exists (str "model: ["). split; vm_compute; reflexivity.
Defined.

(** X15: when the loaded document is not a mapping (an empty file loads as
    [None]), or [model] or [model.params] is present and not a mapping (a
    key without a value holds [None]), the first lookup on it raises: both
    fields stay ["Unknown"], unlike for an absent key. *)
Theorem non_mapping_document_unknown yaml_safe_load fs yaml_path f v :
  fs yaml_path = File f ->
  yaml_safe_load f = Ok v ->
  navigate v = None ->
  parse_yaml_config yaml_safe_load fs yaml_path =
  ([YamlFailed AttributeError],
   Ok {| injection := VStr (str "Unknown"); use_calligraphy := VStr (str "Unknown") |}).
Proof. apply parse_yaml_config_no_params. Qed.

(** X16: in a document of nested mappings the two fields are the values
    stored under [model.params.context_injection_config] and
    [model.params.embedding_manager_config.params.use_calligraphy_style],
    whatever their type, with ["Not Set"] and [False] for an absent key, and
    nothing is reported. *)
Theorem nested_document_values yaml_safe_load fs yaml_path f v params emb emb_conf :
  fs yaml_path = File f ->
  yaml_safe_load f = Ok v ->
  navigate v = Some params ->
  sub_mapping params (str "embedding_manager_config") = Some emb ->
  sub_mapping emb (str "params") = Some emb_conf ->
  parse_yaml_config yaml_safe_load fs yaml_path =
  ([],
   Ok {| injection :=
           default (VStr (str "Not Set")) (params !! str "context_injection_config");
         use_calligraphy :=
           default (VBool false) (emb_conf !! str "use_calligraphy_style") |}).
Proof.
  intros Hf Hl Hn He Hc.
  destruct v as [| | | | |config| |]; try done.
  destruct (navigate_params config params Hn) as (model & Hm & Hp).
  rewrite (parse_yaml_config_params _ _ _ _ _ _ _ Hf Hl Hm Hp). cbv zeta.
  by rewrite (sub_mapping_get _ _ _ He), (sub_mapping_get _ _ _ Hc).
Qed.

(** X17: when [embedding_manager_config] is a mapping whose [params] is
    present and not a mapping, the last lookup raises: [injection] holds the
    value read before and [use_calligraphy] stays ["Unknown"]. *)
Theorem odd_embedding_params yaml_safe_load fs yaml_path f v params emb :
  fs yaml_path = File f ->
  yaml_safe_load f = Ok v ->
  navigate v = Some params ->
  sub_mapping params (str "embedding_manager_config") = Some emb ->
  sub_mapping emb (str "params") = None ->
  parse_yaml_config yaml_safe_load fs yaml_path =
  ([YamlFailed AttributeError],
   Ok {| injection :=
           default (VStr (str "Not Set")) (params !! str "context_injection_config");
         use_calligraphy := VStr (str "Unknown") |}).
Proof.
  intros Hf Hl Hn He Hc.
  destruct v as [| | | | |config| |]; try done.
  destruct (navigate_params config params Hn) as (model & Hm & Hp).
  rewrite (parse_yaml_config_params _ _ _ _ _ _ _ Hf Hl Hm Hp). cbv zeta.
  rewrite (sub_mapping_get _ _ _ He).
  unfold sub_mapping in Hc.
  destruct (emb !! str "params") as [[]|]; simpl in *; done.
Qed.

Lemma non_mapping_document_unknown_witness :
  parse_yaml_config More.loader (Sample.one_file DEFAULT_YAML_PATH []) DEFAULT_YAML_PATH =
  ([YamlFailed AttributeError],
   Ok {| injection := VStr (str "Unknown"); use_calligraphy := VStr (str "Unknown") |}).
Proof.
  apply (non_mapping_document_unknown More.loader
           (Sample.one_file DEFAULT_YAML_PATH []) DEFAULT_YAML_PATH [] VNone).
  - vm_compute; reflexivity.
  - vm_compute; reflexivity.
  - reflexivity.
Defined.

Lemma nested_document_values_witness :
  parse_yaml_config More.loader
    (Sample.one_file DEFAULT_YAML_PATH More.full_yaml) DEFAULT_YAML_PATH =
  ([], Ok {| injection := Sample.injection_config; use_calligraphy := VBool true |}).
Proof.
  etransitivity.
  - apply (nested_document_values More.loader
             (Sample.one_file DEFAULT_YAML_PATH More.full_yaml) DEFAULT_YAML_PATH
             More.full_yaml (VDict (Sample.document More.full_params)) More.full_params
             More.full_emb [(VStr (str "use_calligraphy_style"), VBool true)]);
      vm_compute; reflexivity.
  - vm_compute; reflexivity.
Defined.

Lemma odd_embedding_params_witness :
  parse_yaml_config More.loader
    (Sample.one_file DEFAULT_YAML_PATH More.odd_emb_yaml) DEFAULT_YAML_PATH =
  ([YamlFailed AttributeError],
   Ok {| injection := Sample.injection_config; use_calligraphy := VStr (str "Unknown") |}).
Proof.
  etransitivity.
  - apply (odd_embedding_params More.loader
             (Sample.one_file DEFAULT_YAML_PATH More.odd_emb_yaml) DEFAULT_YAML_PATH
             More.odd_emb_yaml (VDict (Sample.document More.odd_emb_params))
             More.odd_emb_params More.odd_emb);
      vm_compute; reflexivity.
  - vm_compute; reflexivity.
Defined.

(** ** [main], case by case *)

(** X19: a [config_path] that is not empty is the document [main] reads,
    and the only one: when no file has that name both configuration fields
    are ["Unknown"], whether or not the default document exists. *)
Theorem config_path_names_the_document ast_parse yaml_safe_load os_makedirs write_report
    timestamp fs content r c path :
  fs TRAIN_SCRIPT_PATH = File content ->
  outcome (main ast_parse yaml_safe_load os_makedirs write_report timestamp fs)
  = Ok (Some r) ->
  config_path (r_train r) = Some (c :: path) ->
  r_yaml_file r = c :: path /\
  outcome (parse_yaml_config yaml_safe_load fs (c :: path)) = Ok (r_yaml r) /\
  (fs (c :: path) = Missing ->
   injection (r_yaml r) = VStr (str "Unknown") /\
   use_calligraphy (r_yaml r) = VStr (str "Unknown")).
Proof.
  intros Hf Hm Hc.
  destruct (main_report _ _ _ _ _ _ _ _ Hf Hm) as (_ & Hfile & Hy & _).
  rewrite Hc in Hfile. simpl in Hfile. rewrite Hfile in *.
  split; [done|]. split; [done|].
  intros Hmiss. rewrite (parse_yaml_config_missing _ _ _ Hmiss) in Hy.
  simpl in Hy. by injection Hy as <-.
Qed.

Lemma config_path_names_the_document_witness :
  exists r,
    outcome (main Sample.parser Sample.loader Sample.makedirs Sample.writer Sample.now
               (Sample.two_files TRAIN_SCRIPT_PATH Sample.scenario_script
                  DEFAULT_YAML_PATH Sample.plain_yaml)) = Ok (Some r) /\
    r_yaml_file r = str "cfg.yaml" /\
    injection (r_yaml r) = VStr (str "Unknown") /\
    use_calligraphy (r_yaml r) = VStr (str "Unknown").
Proof.
  eexists. split; [vm_compute; reflexivity|].
  destruct (config_path_names_the_document Sample.parser Sample.loader
              Sample.makedirs Sample.writer Sample.now
              (Sample.two_files TRAIN_SCRIPT_PATH Sample.scenario_script
                 DEFAULT_YAML_PATH Sample.plain_yaml)
              Sample.scenario_script _ "c"%char (str "fg.yaml")
              eq_refl eq_refl eq_refl) as (Hfile & _ & Hmissing).
  split; [exact Hfile|]. apply Hmissing. reflexivity.
Defined.

(** X20: the report goes to the directory [manual_logs] under [root_dir]:
    the two are joined by one slash, none when [root_dir] is empty or ends
    with a slash already. *)
Theorem save_dir_under_root_dir ast_parse yaml_safe_load os_makedirs write_report
    timestamp fs content r :
  fs TRAIN_SCRIPT_PATH = File content ->
  outcome (main ast_parse yaml_safe_load os_makedirs write_report timestamp fs)
  = Ok (Some r) ->
  let root := root_dir (r_train r) in
  (root = [] \/ last root = Some "/"%char ->
   r_save_dir r = root ++ str "manual_logs") /\
  (root <> [] /\ last root <> Some "/"%char ->
   r_save_dir r = root ++ str "/manual_logs").
Proof.
  intros Hf Hm root.
  destruct (main_report _ _ _ _ _ _ _ _ Hf Hm) as (_ & _ & _ & -> & _). fold root.
  unfold path_join. change (startswith (str "manual_logs") (str "/")) with false.
  cbn iota.
  assert (Hlast : startswith (rev root) (str "/") = true <-> last root = Some "/"%char).
  { destruct (rev root) as [|c l] eqn:Hr.
    - apply (f_equal (@rev _)) in Hr. rewrite rev_involutive in Hr. simpl in Hr.
      rewrite Hr. done.
    - apply (f_equal (@rev _)) in Hr. rewrite rev_involutive in Hr. simpl in Hr.
      rewrite Hr, last_snoc. change (startswith (c :: l) (str "/"))
        with (is_char "/" c && true). rewrite andb_true_r, is_char_true.
      split; congruence. }
  split.
  - intros [->|Hl]; [done|].
    apply Hlast in Hl. rewrite Hl. by destruct root.
  - intros [Hne Hl]. destruct (startswith (rev root) (str "/")) eqn:Hs.
    + exfalso. apply Hl. by apply Hlast.
    + by destruct root.
Qed.

Lemma save_dir_under_root_dir_witness :
  exists r,
    outcome (main Sample.parser Sample.loader Sample.makedirs Sample.writer Sample.now
               (Sample.two_files TRAIN_SCRIPT_PATH Sample.scenario_script
                  (str "cfg.yaml") Sample.plain_yaml)) = Ok (Some r) /\
    r_save_dir r = str "/out/manual_logs".
Proof.
  eexists. split; [vm_compute; reflexivity|].
  refine (proj2 (save_dir_under_root_dir Sample.parser Sample.loader
                   Sample.makedirs Sample.writer Sample.now
                   (Sample.two_files TRAIN_SCRIPT_PATH Sample.scenario_script
                      (str "cfg.yaml") Sample.plain_yaml)
                   Sample.scenario_script _ eq_refl eq_refl) _).
  split; discriminate.
Defined.

(** ** The name of the report file *)

Lemma digit_char_spec d :
  (0 <= d <= 9)%Z ->
  is_digit (digit_char d) = true /\ digit_value (digit_char d) = d.
Proof.
  intros Hd.
  assert (d = 0 \/ d = 1 \/ d = 2 \/ d = 3 \/ d = 4 \/ d = 5 \/ d = 6 \/ d = 7 \/
          d = 8 \/ d = 9)%Z as Hcases by lia.
  repeat (destruct Hcases as [->|Hcases]; [by split|]). by subst d.
Qed.

Lemma int_of_digits_snoc ds c :
  int_of_digits (ds ++ [c]) = (10 * int_of_digits ds + digit_value c)%Z.
Proof. unfold int_of_digits. by rewrite fold_left_app. Qed.

(** With a step for every binary digit, [decimal_digits] writes the whole
    number: what it puts in front reads back as the number. *)
Lemma decimal_digits_spec fuel n acc :
  (1 <= n < 2 ^ Z.of_nat fuel)%Z ->
  exists front,
    decimal_digits fuel n acc = front ++ acc /\ front <> [] /\
    Forall (fun c => is_digit c = true) front /\ int_of_digits front = n.
Proof.
  revert n acc. induction fuel as [|fuel IH]; intros n acc Hn.
  - simpl in Hn. lia.
  - cbn [decimal_digits].
    assert (Hmod : (0 <= n mod 10 <= 9)%Z) by (pose proof (Z.mod_pos_bound n 10); lia).
    destruct (digit_char_spec _ Hmod) as [Hdig Hval].
    destruct (n <? 10)%Z eqn:Hlt.
    + apply Z.ltb_lt in Hlt. exists [digit_char (n mod 10)].
      split; [done|]. split; [done|]. split; [by repeat constructor|].
      unfold int_of_digits. simpl. rewrite Hval. rewrite Z.mod_small; lia.
    + apply Z.ltb_ge in Hlt.
      assert (Hdiv : (1 <= n / 10 < 2 ^ Z.of_nat fuel)%Z).
      { rewrite Nat2Z.inj_succ, Z.pow_succ_r in Hn by lia. split.
        - apply Z.div_le_lower_bound; lia.
        - apply Z.div_lt_upper_bound; lia. }
      destruct (IH (n / 10)%Z (digit_char (n mod 10) :: acc) Hdiv)
        as (front & -> & _ & Hfront & Hint).
      exists (front ++ [digit_char (n mod 10)]).
      split; [by rewrite <- (assoc_L (++))|].
      split; [by destruct front|].
      split; [apply Forall_app; split; [done | by repeat constructor]|].
      rewrite int_of_digits_snoc, Hint, Hval.
      pose proof (Z.div_mod n 10). lia.
Qed.

(** [int(str(n))] is [n] for a number that is not negative, and [str(n)] is
    a run of digits. *)
Lemma py_str_int_spec n :
  (0 <= n)%Z ->
  py_str_int n <> [] /\ Forall (fun c => is_digit c = true) (py_str_int n) /\
  int_of_digits (py_str_int n) = n.
Proof.
  intros Hn. unfold py_str_int.
  destruct (n <? 0)%Z eqn:Hneg; [apply Z.ltb_lt in Hneg; lia|].
  destruct (Z.eq_dec n 0%Z) as [->|Hz].
  - split; [done|]. split; [by repeat constructor | done].
  - destruct (decimal_digits_spec (S (Z.to_nat (Z.log2 n))) n []) as (front & -> & H).
    + pose proof (Z.log2_spec n ltac:(lia)) as Hlog.
      pose proof (Z.log2_nonneg n).
      rewrite Nat2Z.inj_succ, Z2Nat.id by done. lia.
    + by rewrite app_nil_r.
Qed.

Lemma stage_str_None_no_digit n :
  (0 <= n)%Z -> py_str_int n <> str "None".
Proof.
  intros Hn Heq. destruct (py_str_int_spec n Hn) as (_ & Hd & _).
  rewrite Heq in Hd. by inversion Hd.
Qed.

(** The stage of a result is not negative. *)
Lemma info_stage_nonneg ast_parse fs file_path content info n :
  fs file_path = File content ->
  outcome (parse_train_py ast_parse fs file_path) = Ok (Some info) ->
  training_stage info = Some n -> (0 <= n)%Z.
Proof.
  intros Hf Ho Hn. rewrite (info_training_stage _ _ _ _ _ Hf Ho) in Hn.
  destruct (Re.search stage_re content) as [m|] eqn:Hs; [|done].
  injection Hn as <-.
  apply search_inv in Hs as (pre & t & -> & He & _).
  unfold stage_re in He. cbn [Re.items] in He.
  apply exec_lit_inv in He as (t0 & -> & He).
  apply exec_equals_sign_inv in He as (ws1 & ws2 & t1 & -> & _ & _ & He).
  apply exec_digits_inv in He as (d & ds & post & -> & Hds & _ & Hg).
  unfold Re.group1. rewrite Hg. by apply int_of_digits_nonneg.
Qed.



(** X22: reports of the same second get the same name only when their
    stages are the same: for one time stamp the name of the file tells the
    stage. *)
Theorem file_name_tells_stage ast_parse1 ast_parse2 fs1 fs2 path1 path2
    content1 content2 info1 info2 timestamp :
  fs1 path1 = File content1 ->
  outcome (parse_train_py ast_parse1 fs1 path1) = Ok (Some info1) ->
  fs2 path2 = File content2 ->
  outcome (parse_train_py ast_parse2 fs2 path2) = Ok (Some info2) ->
  log_filename timestamp info1 = log_filename timestamp info2 ->
  training_stage info1 = training_stage info2.
Proof.
  intros Hf1 Ho1 Hf2 Ho2 Hname. unfold log_filename in Hname.
  do 3 apply app_inv_head in Hname. apply app_inv_tail in Hname.
  pose proof (fun n => info_stage_nonneg _ _ _ _ _ n Hf1 Ho1) as H1.
  pose proof (fun n => info_stage_nonneg _ _ _ _ _ n Hf2 Ho2) as H2.
  destruct (training_stage info1) as [n1|], (training_stage info2) as [n2|];
    simpl in Hname; try done.
  - f_equal.
    destruct (py_str_int_spec n1 (H1 _ eq_refl)) as (_ & _ & <-).
    destruct (py_str_int_spec n2 (H2 _ eq_refl)) as (_ & _ & <-).
    by rewrite Hname.
  - by apply stage_str_None_no_digit in Hname; [|apply H1].
  - symmetry in Hname. by apply stage_str_None_no_digit in Hname; [|apply H2].
Qed.

Lemma file_name_tells_stage_witness :
  training_stage (scalar_fields (Sample.branches "2")) =
  training_stage (scalar_fields Sample.scenario_script).
Proof.
  apply (file_name_tells_stage Sample.parser Sample.parser
           (Sample.one_file TRAIN_SCRIPT_PATH (Sample.branches "2"))
           (Sample.one_file TRAIN_SCRIPT_PATH Sample.scenario_script)
           TRAIN_SCRIPT_PATH TRAIN_SCRIPT_PATH
           (Sample.branches "2") Sample.scenario_script
           (set_json_paths [] (scalar_fields (Sample.branches "2")))
           (set_json_paths [Ast.CStr (str "a.json"); Ast.CStr (str "b.json")]
              (scalar_fields Sample.scenario_script))
           (str "20260101_120000")).
  - vm_compute; reflexivity.
  - vm_compute; reflexivity.
  - vm_compute; reflexivity.
  - vm_compute; reflexivity.
  - vm_compute; reflexivity.
Defined.

(** X23: the report is written straight into the directory [manual_logs]
    under [root_dir]: its path is that directory, one slash and the name of
    the file. *)
Theorem save_path_inside_save_dir timestamp info :
  save_path timestamp info =
  path_join (root_dir info) (str "manual_logs") ++ str "/" ++ log_filename timestamp info.
Proof.
  unfold save_path. set (dir := path_join (root_dir info) (str "manual_logs")).
  assert (Hdir : exists front, dir = front ++ str "manual_logs").
  { unfold dir, path_join. change (startswith (str "manual_logs") (str "/")) with false.
    cbn iota.
    destruct (nonempty (root_dir info) && negb (startswith (rev (root_dir info)) (str "/"))).
    - exists (root_dir info ++ str "/"). by rewrite <- (assoc_L (++)).
    - by exists (root_dir info). }
  destruct Hdir as [front Hdir]. unfold path_join at 1.
  change (startswith (log_filename timestamp info) (str "/")) with false. cbn iota.
  assert (Hne : nonempty dir = true).
  { rewrite Hdir. by destruct front. }
  assert (Hend : startswith (rev dir) (str "/") = false).
  { rewrite Hdir, rev_app_distr. done. }
  by rewrite Hne, Hend.
Qed.

(** ** What a script that does not parse changes *)



(** ** What the report can show *)

Section Formats.

Context {S : Type}.
Implicit Types (s : S).

Lemma format_int_ok n s :
  format_int n s = ([], s, if int_printable n then Ok tt else Raise ValueError).
Proof. unfold format_int. by destruct (int_printable n). Qed.

Lemma format_value_ok v s :
  format_value v s = ([], s, if unprintable v then Raise ValueError else Ok tt).
Proof. unfold format_value. by destruct (unprintable v). Qed.

Lemma format_padded_formats k s :
  snd (format_padded k s) = Ok tt <-> key_formats k.
Proof.
  destruct k; simpl; try done; try (split; [by intros [=] | done]).
  rewrite format_int_ok. simpl. destruct (int_printable n); split; done.
Qed.

Lemma format_padded_silent k s : fst (format_padded k s) = ([], s).
Proof.
  destruct k; try done. simpl. by rewrite format_int_ok.
Qed.

Lemma format_items_formats items s :
  snd (format_items items s) = Ok tt <->
  Forall (fun item => key_formats item.1 /\ value_formats item.2) items.
Proof.
  induction items as [|[k v] items IH]; [done|].
  cbn [format_items]. unfold bind.
  pose proof (format_padded_formats k s) as Hk.
  pose proof (format_padded_silent k s) as Hs.
  destruct (format_padded k s) as [[out s'] [[]|e]]; simpl in Hs; injection Hs as -> ->.
  - rewrite format_value_ok. rewrite Forall_cons. unfold value_formats at 1. simpl.
    destruct (unprintable v).
    + split; [done | by intros [[_ ?] _]].
    + specialize (IH). destruct (format_items items s) as [[out' s''] r] eqn:Hi.
      simpl in *. rewrite <- IH. split; [intros ->|]; intuition.
  - rewrite Forall_cons. simpl. split; [done|]. intros [[Hf _] _].
    apply Hk in Hf. done.
Qed.

Lemma format_items_silent items s : fst (format_items items s) = ([], s).
Proof.
  induction items as [|[k v] items IH]; [done|].
  cbn [format_items]. unfold bind.
  pose proof (format_padded_silent k s) as Hs.
  destruct (format_padded k s) as [[out s'] [[]|e]]; simpl in Hs; injection Hs as -> ->;
    [|done].
  rewrite format_value_ok. destruct (unprintable v); [done|].
  destruct (format_items items s) as [[out' s''] r]. simpl in *. by injection IH as -> ->.
Qed.


Lemma format_injection_formats inj s :
  snd (format_injection inj s) = Ok tt <-> injection_formats inj.
Proof.
  destruct inj; try (by apply format_items_formats);
    simpl; rewrite ?format_value_ok; unfold value_formats; simpl;
    try done; try (split; done).
  - destruct (negb (int_printable n)); split; done.
  - destruct (existsb unprintable l); split; done.
Qed.

Lemma format_injection_silent inj s : fst (format_injection inj s) = ([], s).
Proof.
  destruct inj; try (by apply format_items_silent);
    simpl; rewrite ?format_value_ok; done.
Qed.

Lemma format_paths_formats paths s :
  snd (format_paths paths s) = Ok tt <-> Forall constant_formats paths.
Proof.
  induction paths as [|p paths IH]; [done|].
  cbn [format_paths]. unfold bind. rewrite Forall_cons.
  destruct p; simpl; try (destruct (format_paths paths s) as [[out s'] r]; simpl in *;
                          rewrite <- IH; split; [intros ->|]; intuition).
  rewrite format_int_ok. destruct (int_printable n); simpl.
  - destruct (format_paths paths s) as [[out s'] r]; simpl in *.
    rewrite <- IH. split; [intros ->|]; intuition.
  - split; [done | by intros [? _]].
Qed.

Lemma format_paths_silent paths s : fst (format_paths paths s) = ([], s).
Proof.
  induction paths as [|p paths IH]; [done|].
  cbn [format_paths]. unfold bind.
  assert (Hp : format_constant p s = ([], s, snd (format_constant p s))).
  { destruct p; try done. simpl. by rewrite format_int_ok. }
  rewrite Hp. destruct (snd (format_constant p s)) as [[]|e]; [|done].
  destruct (format_paths paths s) as [[out' s''] r]. simpl in *. by injection IH as -> ->.
Qed.

End Formats.

(** The report can be formatted exactly when the stage, the calligraphy
    switch, the injection configuration and the dataset paths can be
    shown. *)
Lemma formats_iff train yaml :
  formats train yaml <->
  stage_formats (training_stage train) /\
  value_formats (use_calligraphy yaml) /\
  injection_formats (injection yaml) /\
  Forall constant_formats (json_paths train).
Proof.
  unfold formats, outcome, run, format_report, bind.
  assert (Hstage : (format_stage (training_stage train) tt = ([], tt, Ok tt) /\
                    stage_formats (training_stage train)) \/
                   (format_stage (training_stage train) tt = ([], tt, Raise ValueError) /\
                    ~ stage_formats (training_stage train))).
  { unfold format_stage, stage_formats. destruct (training_stage train) as [n|].
    - rewrite format_int_ok. destruct (int_printable n); [by left | by right].
    - by left. }
  destruct Hstage as [[-> Hs]|[-> Hs]]; [|simpl; split; [done | by intros [? _]]].
  rewrite format_value_ok. unfold value_formats at 1.
  destruct (unprintable (use_calligraphy yaml)); [simpl; split; [done | by intros (_ & ? & _)]|].
  pose proof (format_injection_formats (injection yaml) tt) as Hi.
  pose proof (format_injection_silent (injection yaml) tt) as Hsi.
  destruct (format_injection (injection yaml) tt) as [[out s] r]. simpl in Hi, Hsi.
  injection Hsi as -> ->.
  destruct r as [[]|e].
  - pose proof (format_paths_formats (json_paths train) tt) as Hp.
    destruct (format_paths (json_paths train) tt) as [[out' s'] r']. simpl in *.
    rewrite Hp. intuition.
  - simpl. split; [done|]. intros (_ & _ & Hinj & _). apply Hi in Hinj. done.
Qed.

(** ** The stage and the limit on digits *)

Lemma int_of_digits_bound ds :
  Forall (fun c => is_digit c = true) ds ->
  (0 <= int_of_digits ds < 10 ^ Z.of_nat (length ds))%Z.
Proof.
  induction ds as [|c ds IH] using rev_ind; intros H; [done|].
  apply Forall_app in H as [Hds Hc]. inversion_clear Hc as [|? ? Hc' _].
  rewrite int_of_digits_snoc, length_app. simpl.
  pose proof (digit_value_range c Hc'). specialize (IH Hds).
  replace (Z.of_nat (length ds + 1)) with (Z.succ (Z.of_nat (length ds))) by lia.
  rewrite Z.pow_succ_r by lia. lia.
Qed.

(** The digits that the script reads are digits. *)
Lemma stage_digits_digits content :
  Forall (fun c => is_digit c = true) (stage_digits content).
Proof.
  unfold stage_digits. destruct (Re.search stage_re content) as [m|] eqn:Hs; [|done].
  apply search_inv in Hs as (pre & t & -> & He & _).
  unfold stage_re in He. cbn [Re.items] in He.
  apply exec_lit_inv in He as (t0 & -> & He).
  apply exec_equals_sign_inv in He as (ws1 & ws2 & t1 & -> & _ & _ & He).
  apply exec_digits_inv in He as (d & ds & post & -> & Hds & _ & Hg).
  unfold Re.group1. by rewrite Hg.
Qed.

(** A stage that [int] has accepted can be written again. *)
Lemma info_stage_formats ast_parse fs file_path content info :
  fs file_path = File content ->
  outcome (parse_train_py ast_parse fs file_path) = Ok (Some info) ->
  stage_formats (training_stage info).
Proof.
  intros Hf Ho. rewrite (info_training_stage _ _ _ _ _ Hf Ho).
  pose proof (parse_train_py_stage_fits _ _ _ _ _ Hf Ho) as Hfit.
  pose proof (stage_digits_digits content) as Hd.
  unfold stage_digits in *. destruct (Re.search stage_re content) as [m|]; [|done].
  simpl. unfold int_printable. apply Z.ltb_lt.
  pose proof (int_of_digits_bound _ Hd) as [H0 H1].
  rewrite Z.abs_eq by done.
  eapply Z.lt_le_trans; [exact H1|].
  apply Z.pow_le_mono_r; lia.
Qed.

(** ** How [main] ends *)

(** C7, as the specification states it, fails: a script can be read and
    give no structure.  [int] refuses a stage of 4301 digits, and line 37
    stands outside any handler: [parse_train_py] raises, and [main] with
    it. *)
Lemma long_stage_raises :
  Sample.one_file TRAIN_SCRIPT_PATH More.long_stage_script TRAIN_SCRIPT_PATH =
    File More.long_stage_script /\
  parse_train_py More.parser
    (Sample.one_file TRAIN_SCRIPT_PATH More.long_stage_script) TRAIN_SCRIPT_PATH =
    ([], Raise ValueError) /\
  outcome (main More.parser Sample.loader Sample.makedirs Sample.writer Sample.now
             (Sample.one_file TRAIN_SCRIPT_PATH More.long_stage_script))
  = Raise ValueError.
Proof. repeat split; vm_compute; reflexivity. Qed.

(** C7, amended: [parse_train_py] returns no structure, and [main] no
    report, without raising, exactly when the script file is missing.  On
    every script that can be read and whose stage has at most 4300 digits
    [parse_train_py] returns a structure, and a pattern that finds nothing
    leaves its field at the default: no stage, no configuration path,
    ["./checkpoints"], ["Unknown"] for the path and its label, no dataset
    path.  [main] then has the structure of the document too, and returns
    the report when the values can be shown and the directory and the file
    can be written. *)
Theorem extraction_fails_only_on_missing_script ast_parse yaml_safe_load
    os_makedirs write_report timestamp fs :
  (forall file_path,
      outcome (parse_train_py ast_parse fs file_path) = Ok None <->
      fs file_path = Missing) /\
  (outcome (main ast_parse yaml_safe_load os_makedirs write_report timestamp fs)
   = Ok None <-> fs TRAIN_SCRIPT_PATH = Missing) /\
  (forall file_path content,
      fs file_path = File content ->
      (length (stage_digits content) <= INT_MAX_STR_DIGITS)%nat ->
      exists info,
        outcome (parse_train_py ast_parse fs file_path) = Ok (Some info) /\
        (Re.search stage_re content = None -> training_stage info = None) /\
        (Re.search config_re content = None -> config_path info = None) /\
        (Re.search root_re content = None -> root_dir info = str "./checkpoints") /\
        ((if decide (training_stage info = Some 1%Z)
          then Re.search stage1_re content else Re.search else_re content) = None ->
         resume_path info = str "Unknown" /\ base_ckpt_source info = str "Unknown") /\
        (forall tree, ast_parse content = Ok tree -> json_lists tree = [] ->
                      json_paths info = []) /\
        (forall e, ast_parse content = Raise e ->
                   Re.search json_block_re content = None -> json_paths info = [])) /\
  (forall content,
      fs TRAIN_SCRIPT_PATH = File content ->
      (length (stage_digits content) <= INT_MAX_STR_DIGITS)%nat ->
      exists train yaml,
        outcome (parse_train_py ast_parse fs TRAIN_SCRIPT_PATH) = Ok (Some train) /\
        outcome (parse_yaml_config yaml_safe_load fs
                   (or_default (config_path train) DEFAULT_YAML_PATH)) = Ok yaml /\
        (value_formats (use_calligraphy yaml) ->
         injection_formats (injection yaml) ->
         Forall constant_formats (json_paths train) ->
         os_makedirs (path_join (root_dir train) (str "manual_logs")) = Ok tt ->
         write_report (save_path timestamp train) = Ok tt ->
         exists r,
           outcome (main ast_parse yaml_safe_load os_makedirs write_report timestamp fs)
           = Ok (Some r) /\
           r_train r = train /\ r_yaml r = yaml)).
Proof.
  split; [|split; [|split]].
  - intros file_path. destruct (fs file_path) as [|e|content] eqn:Hf.
    + by rewrite (parse_train_py_missing _ _ _ Hf).
    + by rewrite (parse_train_py_unreadable _ _ _ _ Hf).
    + rewrite (parse_train_py_read _ _ _ _ Hf).
      destruct (INT_MAX_STR_DIGITS <? length (stage_digits content))%nat; [done|].
      by destruct (ast_parse content).
  - destruct (fs TRAIN_SCRIPT_PATH) as [|e|content] eqn:Hf.
    + by rewrite (main_missing _ _ _ _ _ _ Hf).
    + by rewrite (main_unreadable _ _ _ _ _ _ _ Hf).
    + destruct (le_lt_dec (length (stage_digits content)) INT_MAX_STR_DIGITS)
        as [Hfit|Hlong]; [|by rewrite (main_long_stage _ _ _ _ _ _ _ Hf Hlong)].
      destruct (main_file ast_parse yaml_safe_load os_makedirs write_report timestamp
                  _ _ Hf Hfit) as (ti & yi & _ & _ & ->).
      unfold finish. destruct (outcome _) as [[]|?]; [|done].
      destruct (os_makedirs _) as [[]|?]; [|done].
      by destruct (write_report _) as [[]|?].
  - intros file_path content Hf Hfit.
    destruct (parse_train_py ast_parse fs file_path) as [out r] eqn:Hp.
    pose proof (parse_train_py_file ast_parse _ _ _ Hf Hfit) as Hfile. rewrite Hp in Hfile.
    assert (exists info, r = Ok (Some info)) as [info ->].
    { destruct (ast_parse content); injection Hfile as _ ->; by eexists. }
    exists info. split; [done|].
    assert (Ho : outcome (parse_train_py ast_parse fs file_path) = Ok (Some info))
      by by rewrite Hp.
    destruct (parse_train_py_scalars _ _ _ _ _ Hf Ho) as [paths Hinfo].
    pose proof (parse_train_py_resume _ _ _ _ _ Hf Ho) as Hr.
    split; [|split; [|split; [|split; [|split]]]].
    + intros Hn. rewrite Hinfo. simpl. by rewrite scalar_fields_training_stage, Hn.
    + intros Hn. rewrite Hinfo. simpl. by rewrite scalar_fields_config_path, Hn.
    + intros Hn. rewrite Hinfo. simpl. by rewrite scalar_fields_root_dir, Hn.
    + intros Hn. rewrite Hn in Hr. by injection Hr as -> ->.
    + intros tree Ht Hl.
      by rewrite (parse_train_py_structural _ _ _ _ _ _ Hf Ht Ho), Hl.
    + intros e He Hn. destruct (ast_parse content); [done|].
      injection Hfile as _ Hi. rewrite Hi. simpl. unfold textual_paths. by rewrite Hn.
  - intros content Hf Hfit.
    destruct (main_file ast_parse yaml_safe_load os_makedirs write_report timestamp
                _ _ Hf Hfit) as (ti & yi & Ht & Hy & Hm).
    exists ti, yi. split; [done|]. split; [done|].
    intros Hcal Hinj Hpaths Hd Hw. rewrite Hm. unfold finish.
    assert (Hfmt : formats ti yi).
    { apply formats_iff. split; [|done]. by apply (info_stage_formats _ _ _ _ _ Hf Ht). }
    unfold formats in Hfmt. rewrite Hfmt, Hd, Hw. by eexists.
Qed.

Lemma extraction_fails_only_on_missing_script_witness :
  exists info,
    outcome (parse_train_py Sample.parser
               (Sample.one_file TRAIN_SCRIPT_PATH []) TRAIN_SCRIPT_PATH)
    = Ok (Some info) /\
    training_stage info = None /\
    config_path info = None /\
    root_dir info = str "./checkpoints" /\
    resume_path info = str "Unknown" /\
    base_ckpt_source info = str "Unknown" /\
    json_paths info = [].
Proof.
  destruct (proj1 (proj2 (proj2
    (extraction_fails_only_on_missing_script
       Sample.parser Sample.loader Sample.makedirs Sample.writer Sample.now
       (Sample.one_file TRAIN_SCRIPT_PATH []))))
    TRAIN_SCRIPT_PATH [] eq_refl (Nat.le_0_l _))
    as (info & Ho & Hstage & Hconfig & Hroot & Hresume & Hast & _).
  exists info. split; [exact Ho|].
  pose proof (Hstage eq_refl) as Hs.
  split; [exact Hs|]. split; [exact (Hconfig eq_refl)|]. split; [exact (Hroot eq_refl)|].
  rewrite Hs in Hresume.
  split; [exact (proj1 (Hresume eq_refl))|]. split; [exact (proj2 (Hresume eq_refl))|].
  exact (Hast (Ast.Module []) eq_refl eq_refl).
Defined.

(** The conversions raise two kinds of error only. *)
Section FormatErrors.

Context {S : Type}.
Implicit Types (s : S).

Lemma format_items_error items s e :
  snd (format_items items s) = Raise e -> e = ValueError \/ e = TypeError.
Proof.
  induction items as [|[k v] items IH]; [done|].
  cbn [format_items]. unfold bind.
  pose proof (format_padded_silent k s) as Hs.
  destruct (format_padded k s) as [[out s'] [[]|e']] eqn:Hk;
    simpl in Hs; injection Hs as -> ->.
  - rewrite format_value_ok. destruct (unprintable v); [intros [= <-]; by left|].
    pose proof (format_items_silent items s) as Hi.
    destruct (format_items items s) as [[out' s''] r]. simpl in *. done.
  - simpl. intros [= <-]. destruct k; simpl in Hk; try (injection Hk as <-; by right);
      try done.
    rewrite format_int_ok in Hk. destruct (int_printable n); [done|].
    injection Hk as <-. by left.
Qed.

Lemma format_injection_error inj s e :
  snd (format_injection inj s) = Raise e -> e = ValueError \/ e = TypeError.
Proof.
  destruct inj; try (by apply format_items_error);
    simpl; rewrite ?format_value_ok; simpl; try done.
  - destruct (negb (int_printable n)); [intros [= <-]; by left | done].
  - destruct (existsb unprintable l); [intros [= <-]; by left | done].
Qed.

Lemma format_paths_error paths s e :
  snd (format_paths paths s) = Raise e -> e = ValueError.
Proof.
  induction paths as [|p paths IH]; [done|].
  cbn [format_paths]. unfold bind.
  destruct p; simpl;
    try (pose proof (format_paths_silent paths s) as Hi;
         destruct (format_paths paths s) as [[out' s''] r]; simpl in *; done).
  rewrite format_int_ok. destruct (int_printable n); simpl; [|by intros [= <-]].
  pose proof (format_paths_silent paths s) as Hi.
  destruct (format_paths paths s) as [[out' s''] r]; simpl in *; done.
Qed.

End FormatErrors.

Lemma format_report_error train yaml e :
  outcome (run (format_report train yaml) tt) = Raise e ->
  e = ValueError \/ e = TypeError.
Proof.
  unfold outcome, run, format_report, bind.
  unfold format_stage. destruct (training_stage train) as [n|].
  - rewrite format_int_ok. destruct (int_printable n); [|intros [= <-]; by left].
    rewrite format_value_ok.
    destruct (unprintable (use_calligraphy yaml)); [intros [= <-]; by left|].
    pose proof (format_injection_error (injection yaml) tt) as Hi.
    pose proof (format_injection_silent (injection yaml) tt) as Hsi.
    destruct (format_injection (injection yaml) tt) as [[out s] r]. simpl in Hi, Hsi.
    injection Hsi as -> ->. destruct r as [[]|e']; [|intros [= <-]; by apply Hi].
    pose proof (format_paths_error (json_paths train) tt) as Hp.
    destruct (format_paths (json_paths train) tt) as [[out' s'] r']. simpl in *.
    intros ->. left. by apply Hp.
  - simpl. rewrite format_value_ok.
    destruct (unprintable (use_calligraphy yaml)); [intros [= <-]; by left|].
    pose proof (format_injection_error (injection yaml) tt) as Hi.
    pose proof (format_injection_silent (injection yaml) tt) as Hsi.
    destruct (format_injection (injection yaml) tt) as [[out s] r]. simpl in Hi, Hsi.
    injection Hsi as -> ->. destruct r as [[]|e']; [|intros [= <-]; by apply Hi].
    pose proof (format_paths_error (json_paths train) tt) as Hp.
    destruct (format_paths (json_paths train) tt) as [[out' s'] r']. simpl in *.
    intros ->. left. by apply Hp.
Qed.

(** X25: the report can be formatted exactly when every value it shows has
    a text: the stage, the calligraphy switch and the dataset paths hold no
    integer of more than 4300 digits, and neither does the injection
    configuration, whose keys, when it is a dict, are strings, numbers or
    dates.  Otherwise formatting raises [ValueError] or [TypeError]. *)
Theorem report_formats_exactly train yaml :
  (formats train yaml <->
   stage_formats (training_stage train) /\
   value_formats (use_calligraphy yaml) /\
   injection_formats (injection yaml) /\
   Forall constant_formats (json_paths train)) /\
  (forall e, outcome (run (format_report train yaml) tt) = Raise e ->
             ~ formats train yaml /\ (e = ValueError \/ e = TypeError)).
Proof.
  split; [apply formats_iff|]. intros e He. split; [|by apply format_report_error in He].
  unfold formats. by rewrite He.
Qed.

(** X18: [main] raises in these cases only, with the error of the first
    that applies: the script file exists and cannot be read; [int] refuses
    a stage of more than 4300 digits; a value of the report cannot be
    formatted; the directory cannot be created; the report cannot be
    written.  A missing script, a missing or broken document and a script
    that is not Python raise nothing. *)
Theorem main_raises_exactly ast_parse yaml_safe_load os_makedirs write_report
    timestamp fs e :
  outcome (main ast_parse yaml_safe_load os_makedirs write_report timestamp fs)
  = Raise e <->
  fs TRAIN_SCRIPT_PATH = Unreadable e \/
  (exists content,
      fs TRAIN_SCRIPT_PATH = File content /\
      (INT_MAX_STR_DIGITS < length (stage_digits content))%nat /\ e = ValueError) \/
  (exists train yaml,
      outcome (parse_train_py ast_parse fs TRAIN_SCRIPT_PATH) = Ok (Some train) /\
      outcome (parse_yaml_config yaml_safe_load fs
                 (or_default (config_path train) DEFAULT_YAML_PATH)) = Ok yaml /\
      (outcome (run (format_report train yaml) tt) = Raise e \/
       (formats train yaml /\
        os_makedirs (path_join (root_dir train) (str "manual_logs")) = Raise e) \/
       (formats train yaml /\
        os_makedirs (path_join (root_dir train) (str "manual_logs")) = Ok tt /\
        write_report (save_path timestamp train) = Raise e))).
Proof.
  split.
  - intros Hm. destruct (fs TRAIN_SCRIPT_PATH) as [|e'|content] eqn:Hf.
    + by rewrite (main_missing _ _ _ _ _ _ Hf) in Hm.
    + rewrite (main_unreadable _ _ _ _ _ _ _ Hf) in Hm. left. congruence.
    + right. destruct (le_lt_dec (length (stage_digits content)) INT_MAX_STR_DIGITS)
        as [Hfit|Hlong].
      * right.
        destruct (main_file ast_parse yaml_safe_load os_makedirs write_report timestamp
                    _ _ Hf Hfit) as (ti & yi & Ht & Hy & Hr).
        exists ti, yi. split; [done|]. split; [done|].
        rewrite Hr in Hm. unfold finish in Hm. unfold formats.
        destruct (outcome (run (format_report ti yi) tt)) as [[]|e1]; [|left; congruence].
        right. destruct (os_makedirs _) as [[]|e2]; [|left; split; congruence].
        right. destruct (write_report _) as [[]|e3]; [done|]. repeat split; congruence.
      * left. exists content. split; [done|]. split; [done|].
        rewrite (main_long_stage _ _ _ _ _ _ _ Hf Hlong) in Hm. congruence.
  - intros [Hf|[(content & Hf & Hlong & ->)|(ti & yi & Ht & Hy & Hcases)]].
    + by apply main_unreadable.
    + by apply (main_long_stage _ _ _ _ _ _ content).
    + rewrite (main_finish _ _ _ _ _ _ _ _ Ht Hy). unfold finish, formats in *.
      destruct Hcases as [->|[[-> ->]|(-> & -> & ->)]]; done.
Qed.

(** Two runs that end with an error after both structures are there: a
    key without a name in the injection configuration, and a directory
    that cannot be created. *)
Example null_key_raises :
  outcome (main More.parser More.loader Sample.makedirs Sample.writer Sample.now
             (Sample.two_files TRAIN_SCRIPT_PATH Sample.scenario_script
                (str "cfg.yaml") More.null_key_yaml))
  = Raise TypeError.
Proof. vm_compute. reflexivity. Qed.

Example unwritable_directory_raises :
  outcome (main More.parser More.loader (fun _ => Raise OSError) Sample.writer Sample.now
             (Sample.two_files TRAIN_SCRIPT_PATH Sample.scenario_script
                (str "cfg.yaml") Sample.plain_yaml))
  = Raise OSError.
Proof. vm_compute. reflexivity. Qed.
